(** * Node expanders of hamilton.function_modifiers.expanders

  A shallow embedding of [hamilton/function_modifiers/expanders.py]:
  the decorators [parameterize], [parameterize_values],
  [parameterize_sources], [extract_columns], [extract_fields] and
  [parameterize_extract_columns], together with the small part of the
  Python runtime they lean on (keyword dictionaries, exceptions,
  [str.format_map], pandas-like tables).

  Python dictionaries whose iteration order is observable are
  insertion-ordered association lists; keyword arguments handed to a
  callable are finite maps. *)

From Stdlib Require Import ZArith String Ascii List.
From stdpp Require Import base gmap strings list pretty.

Local Open Scope string_scope.
Local Open Scope list_scope.
Set Warnings "-register-all".

(** ** The Python runtime fragment *)

Module py.

(** Exceptions raised by the module or by the builtins it calls.
    [Unsupported] is not a Python exception: it marks replacement
    fields of [str.format_map] (conversions, format specs, attribute
    and index access) that this embedding does not interpret. *)
Inductive Exn :=
| InvalidDecoratorException (msg : string)
| ValueError (msg : string)
| KeyError (key : string)
| TypeError (msg : string)
| AttributeError (msg : string)
| AssertionError
| NotImplementedError
| Unsupported (what : string).

(** The class of an exception, which is what an [except] clause or a
    caller tells exceptions apart by. *)
Definition class_of (e : Exn) : string :=
  match e with
  | InvalidDecoratorException _ => "InvalidDecoratorException"
  | ValueError _ => "ValueError"
  | KeyError _ => "KeyError"
  | TypeError _ => "TypeError"
  | AttributeError _ => "AttributeError"
  | AssertionError => "AssertionError"
  | NotImplementedError => "NotImplementedError"
  | Unsupported _ => "Unsupported"
  end.

Inductive Exc (A : Type) :=
| Return (a : A)
| Raise (e : Exn).
Arguments Return {A} a.
Arguments Raise {A} e.

#[global] Instance Exc_ret : MRet Exc := @Return.
#[global] Instance Exc_bind : MBind Exc := λ A B f m,
  match m with Return a => f a | Raise e => Raise e end.
#[global] Instance Exc_fmap : FMap Exc := λ A B f m,
  match m with Return a => Return (f a) | Raise e => Raise e end.

(** [for x in xs: acc = step(acc, x)] where the body may raise. *)
Fixpoint for_each {A S : Type} (step : S → A → Exc S) (xs : list A) (acc : S) : Exc S :=
  match xs with
  | [] => Return acc
  | x :: xs' => acc' ← step acc x; for_each step xs' acc'
  end.

(** A comprehension [[f(x) for x in xs]] whose element expression may raise. *)
Fixpoint comprehension {A B : Type} (f : A → Exc B) (xs : list A) : Exc (list B) :=
  match xs with
  | [] => Return []
  | x :: xs' => y ← f x; ys ← comprehension f xs'; Return (y :: ys)
  end.

(** Hashable values used as column labels of a table: a string, or a
    pair of strings (a 2-tuple). *)
Inductive Label :=
| LStr (s : string)
| LPair (a b : string).

#[global] Instance Label_eq_dec : EqDecision Label.
Proof. solve_decision. Defined.

(** A pandas-like table: a row count and labelled columns, in order. *)
Record DataFrame_ (V : Type) := mkDataFrame {
  nrows : nat;
  data : list (Label * list V)
}.
Arguments mkDataFrame {V} nrows data.
Arguments nrows {V} d.
Arguments data {V} d.

(** Python values. [VLiteral] and [VUpstream] are the two
    [ParametrizedDependency] objects built by [value(...)] and
    [source(...)]. *)
Inductive Val :=
| VNone
| VBool (b : bool)
| VInt (z : Z)
| VStr (s : string)
| VDict (items : list (string * Val))
| VSeries (values : list Val)
| VDataFrame (df : DataFrame_ Val)
| VLiteral (value : Val)
| VUpstream (source : string).

Abbreviation DataFrame := (DataFrame_ Val).
Abbreviation kwargs := (gmap string Val).

(** Type annotations: a class, or a subscripted generic. *)
Inductive PyType :=
| TClass (name : string)
| TGeneric (origin : string) (args : list PyType).

(** ** Insertion-ordered dictionaries with string keys *)

Abbreviation odict V := (list (string * V)).

Fixpoint dict_get {V} (k : string) (d : odict V) : option V :=
  match d with
  | [] => None
  | (k', v) :: d' => if decide (k = k') then Some v else dict_get k d'
  end.

(** [d[k] = v]: overwrite in place, or append a new key at the end. *)
Fixpoint dict_set {V} (k : string) (v : V) (d : odict V) : odict V :=
  match d with
  | [] => [(k, v)]
  | (k', v') :: d' =>
      if decide (k = k') then (k, v) :: d' else (k', v') :: dict_set k v d'
  end.

Definition dict_in {V} (k : string) (d : odict V) : bool :=
  bool_decide (is_Some (dict_get k d)).

Definition keys {V} (d : odict V) : list string := d.*1.

(** [{k: v for ...}] evaluated left to right. *)
Definition dict_of_items {V} (its : list (string * V)) : odict V :=
  fold_left (λ acc kv, dict_set kv.1 kv.2 acc) its [].

(** The keyword map obtained by unpacking an ordered dictionary into a call. *)
Definition to_kwargs (d : odict Val) : kwargs :=
  fold_left (λ acc kv, <[kv.1 := kv.2]> acc) d ∅.

(** A Python callable: positional arguments, keyword arguments, and a
    result or an exception. *)
Definition Callable := list Val → kwargs → Exc Val.

(** What the module reads from a function object:
    [__module__], [__name__], [__doc__], the parameter names of
    [inspect.signature], and the call itself. *)
Record Function := mkFunction {
  fn_module : string;
  fn_name : string;
  fn_doc : Val;
  fn_params : list string;
  fn_call : Callable
}.

(** Renderings done by Python and pandas that the module splices into
    strings. [py_str v] is [str(v)]; on a string it is the identity. *)
Class Builtins := {
  py_str : Val → string;
  py_str_VStr : ∀ s, py_str (VStr s) = s;
  py_str_list : list Val → string;
  py_str_keys : list string → string;
  py_str_columns : list Label → string
}.

(** ** [str.format_map] *)

(** Characters that end the plain-name reading of a replacement field:
    a nested brace, a conversion, a format spec, attribute access,
    index access. *)
Definition field_special (c : ascii) : bool :=
  bool_decide (c = "{"%char) || bool_decide (c = "!"%char)
  || bool_decide (c = ":"%char) || bool_decide (c = "."%char)
  || bool_decide (c = "["%char).

Definition is_digit (c : ascii) : bool :=
  (48 <=? nat_of_ascii c)%nat && (nat_of_ascii c <=? 57)%nat.

Fixpoint all_digits (s : string) : bool :=
  match s with
  | EmptyString => true
  | String c s' => is_digit c && all_digits s'
  end.

(** A character of the ASCII range that is no digit. *)
Definition is_ascii_non_digit (c : ascii) : bool :=
  (nat_of_ascii c <? 128)%nat && negb (is_digit c).

Fixpoint has_ascii_non_digit (s : string) : bool :=
  match s with
  | EmptyString => false
  | String c s' => is_ascii_non_digit c || has_ascii_non_digit s'
  end.

(** Value of the field named [name]. [format_map] reads a name as a
    number when it is empty or all of its characters are decimal digits,
    of any script; a number is a positional field, which it refuses, and
    any other name is looked up with [mapping[name]]. The strings here
    hold the bytes of the UTF-8 encoding: a name of ASCII digits is a
    number, a name that has an ASCII character that is no digit is
    none, and the names left, whose characters outside ASCII would have
    to be classified, are not interpreted. *)
Definition get_field (getitem : string → string) (name : string) : Exc string :=
  if all_digits name
  then Raise (ValueError "Format string contains positional fields")
  else if has_ascii_non_digit name
  then Return (getitem name)
  else Raise (Unsupported "field name outside ASCII").

(** The scanner: [field = None] while reading literal text,
    [field = Some name] while inside a replacement field. *)
Fixpoint format_scan (getitem : string → string) (field : option string)
    (s : string) : Exc string :=
  match field, s with
  | None, EmptyString => Return EmptyString
  | None, String c rest =>
      if decide (c = "{"%char) then
        match rest with
        | EmptyString => Raise (ValueError "Single '{' encountered in format string")
        | String c2 rest' =>
            if decide (c2 = "{"%char)
            then String c <$> format_scan getitem None rest'
            else format_scan getitem (Some EmptyString) rest
        end
      else if decide (c = "}"%char) then
        match rest with
        | EmptyString => Raise (ValueError "Single '}' encountered in format string")
        | String c2 rest' =>
            if decide (c2 = "}"%char)
            then String c <$> format_scan getitem None rest'
            else Raise (ValueError "Single '}' encountered in format string")
        end
      else String c <$> format_scan getitem None rest
  | Some name, EmptyString =>
      Raise (ValueError "expected '}' before end of string")
  | Some name, String c rest =>
      if decide (c = "}"%char) then
        v ← get_field getitem name;
        (λ r, v +:+ r) <$> format_scan getitem None rest
      else if field_special c then Raise (Unsupported "replacement field")
      else format_scan getitem (Some (name +:+ String c EmptyString)) rest
  end.

Definition format_map (getitem : string → string) (s : string) : Exc string :=
  format_scan getitem None s.

(** A function object together with what [inspect.signature] reads off
    it besides the parameter names: the return annotation. *)
Record Annotated := mkAnnotated {
  function : Function;
  return_annotation : PyType
}.

(** [str(fn)] of a function object, which the extractors splice into
    their messages. *)
Class Renderings := {
  py_str_function : Function → string
}.

End py.
Export py.

(** ** hamilton.function_modifiers.dependencies *)

Module dependencies.

(** Modelled from the spec: the dependency classes live in
    [dependencies.py], which is not part of the reviewed source. A
    Dependency is either a Literal holding a value or a Reference holding
    the name of another node; [value] and [source] build them. *)
Inductive ParametrizedDependencySource := LITERAL | UPSTREAM.

#[global] Instance ParametrizedDependencySource_eq_dec :
  EqDecision ParametrizedDependencySource.
Proof. solve_decision. Defined.

(** Modelled from the spec: [value(...)] of [dependencies.py] builds a
    Literal. *)
Definition value (literal_value : Val) : Val := VLiteral literal_value.

(** Modelled from the spec: [source(...)] of [dependencies.py] builds a
    Reference. *)
Definition source (dependency_on : string) : Val := VUpstream dependency_on.

(** Modelled from the spec: the class test
    [isinstance(v, ParametrizedDependency)] of [dependencies.py] holds of
    the two variants and of nothing else. *)
Definition is_dependency (v : Val) : bool :=
  match v with
  | VLiteral _ | VUpstream _ => true
  | _ => false
  end.

(** Modelled from the spec: [get_dependency_type] of [dependencies.py]
    tells the two variants apart; a value that is no dependency has no
    such method. *)
Definition get_dependency_type (v : Val) : Exc ParametrizedDependencySource :=
  match v with
  | VLiteral _ => Return LITERAL
  | VUpstream _ => Return UPSTREAM
  | _ => Raise (AttributeError "get_dependency_type")
  end.

(** Modelled from the spec: the attribute [source] of a Reference of
    [dependencies.py]. *)
Definition attr_source (v : Val) : Exc string :=
  match v with
  | VUpstream s => Return s
  | _ => Raise (AttributeError "source")
  end.

(** Modelled from the spec: the attribute [value] of a Literal of
    [dependencies.py]. *)
Definition attr_value (v : Val) : Exc Val :=
  match v with
  | VLiteral x => Return x
  | _ => Raise (AttributeError "value")
  end.

End dependencies.
Export dependencies.

(** ** hamilton.node *)

Module node.

(** Modelled from the spec: [node.py] is not part of the reviewed source.
    A node carries a name, a declared type, a documentation string, a
    callable body, a mapping from parameter name to expected input type
    and a tag mapping; [copy_with] replaces only the fields it is given. *)
Record Node := mkNode {
  name : string;
  type : PyType;
  documentation : Val;
  callable : Callable;
  input_types : odict PyType;
  tags : odict Val
}.

(** Modelled from the spec: [copy_with(callabl=...)] of [node.py], the
    copy that replaces only the callable. *)
Definition copy_with_callabl (n : Node) (callabl : Callable) : Node :=
  mkNode (name n) (type n) (documentation n) callabl (input_types n) (tags n).

End node.

(** [functools.partial(f, **keywords)]: keywords given at the call take
    precedence over the stored ones. *)
Definition partial (f : Callable) (keywords : odict Val) : Callable :=
  λ args kw, f args (kw ∪ to_kwargs keywords).

(** [a.update(b)], also the merge of two unpacked dictionaries in a
    dictionary display. *)
Definition dict_update {V} (a b : odict V) : odict V :=
  fold_left (λ acc kv, dict_set kv.1 kv.2 acc) b a.

(** ** class parameterize

    No [expand_node] of the module reads its [config] argument; it is
    left out of all of them. *)

Module parameterize.

Definition RESERVED_KWARG : string := "output_name".

(** One keyword argument of the constructor: the assignments alone, or a
    tuple of the assignments and a docstring. *)
Inductive Assignment :=
| Assignments (mapping : odict Val)
| WithDocstring (mapping : odict Val) (docstring : Val).

Definition mapping_of (a : Assignment) : odict Val :=
  match a with
  | Assignments m => m
  | WithDocstring m _ => m
  end.

(** The attributes set by the constructor. *)
Record t := mk {
  parametrization : odict (odict Val);
  specified_docstrings : odict Val
}.

Section methods.
Context `{Builtins}.

Definition bad_values_of (parametrization : odict (odict Val)) : list Val :=
  flat_map (λ kv, List.filter (λ val, negb (is_dependency val)) (kv.2).*2)
           parametrization.

(** The constructor takes the outputs as keywords, after its first
    parameter [self], to which the instance is bound: a keyword named
    [self] is refused by the call, before the body runs. *)
Definition __init__ (parametrization : odict Assignment) : Exc t :=
  if dict_in "self" parametrization
  then Raise (TypeError "got multiple values for argument 'self'")
  else
  let self_parametrization := map (λ kv, (kv.1, mapping_of kv.2)) parametrization in
  let bad_values := bad_values_of self_parametrization in
  match bad_values with
  | _ :: _ =>
      Raise (InvalidDecoratorException
        ("@parameterize must specify a dependency type -- either source() or value()."
         +:+ "The following are not allowed: " +:+ py_str_list bad_values +:+ "."))
  | [] =>
      Return (mk self_parametrization
        (omap (λ kv, match kv.2 with
                     | WithDocstring _ d => Some (kv.1, d)
                     | Assignments _ => None
                     end) parametrization))
  end.

(** The comprehension
    [{parameter: project(replacement) for parameter, replacement in
      parametrization.items() if replacement.get_dependency_type() == kind}]. *)
Definition select (kind : ParametrizedDependencySource) (project : Val → Exc Val)
    (parametrization : odict Val) : Exc (odict Val) :=
  for_each (λ acc kv,
      ty ← get_dependency_type kv.2;
      if decide (ty = kind)
      then v ← project kv.2; Return (acc ++ [(kv.1, v)])
      else Return acc)
    parametrization [].

(** [IdentityDict.__getitem__]: a missing key is returned as it is; the
    value found is then rendered by the empty format spec. *)
Definition identity_getitem (d : odict Val) (key : string) : string :=
  match dict_get key d with
  | Some v => py_str v
  | None => key
  end.

Definition format_doc_string (self : t) (doc : Val) (output_name : string) : Exc Val :=
  match dict_get output_name (specified_docstrings self) with
  | Some d => Return d
  | None =>
      match doc with
      | VNone => Return VNone
      | _ =>
          parametrization ←
            match dict_get output_name (parametrization self) with
            | Some p => Return p
            | None => Raise (KeyError output_name)
            end;
          upstream_dependencies ← select UPSTREAM (λ r, VStr <$> attr_source r) parametrization;
          literal_dependencies ← select LITERAL attr_value parametrization;
          match doc with
          | VStr template =>
              let merged := dict_update upstream_dependencies literal_dependencies in
              if dict_in RESERVED_KWARG merged
              then Raise (TypeError "got multiple values for keyword argument 'output_name'")
              else VStr <$> format_map
                     (identity_getitem ((RESERVED_KWARG, VStr output_name) :: merged))
                     template
          | _ => Raise (AttributeError "format_map")
          end
      end
  end.

(** The parameters named by some mapping that the function does not have,
    each once, in order of first appearance (Python collects them in a
    set, whose order is unspecified). *)
Definition missing_parameters (self : t) (func_param_names : list string) : list string :=
  remove_dups (List.filter (λ p, negb (bool_decide (p ∈ func_param_names)))
                 (flat_map (λ kv, keys kv.2) (parametrization self))).

Definition validate (self : t) (fn : Function) : Exc unit :=
  let func_param_names := fn_params fn in
  match for_each (λ _ kv, _ ← format_doc_string self (fn_doc fn) kv.1; Return ())
          (parametrization self) () with
  | Raise (KeyError _) =>
      Raise (InvalidDecoratorException
        ("Function docstring templating is incorrect. Please fix up the docstring "
         +:+ fn_module fn +:+ "." +:+ fn_name fn +:+ "."))
  | Raise e => Raise e
  | Return _ =>
      if bool_decide (RESERVED_KWARG ∈ func_param_names)
      then Raise (InvalidDecoratorException
             ("Error function " +:+ fn_module fn +:+ "." +:+ fn_name fn
              +:+ " cannot have `output_name` as a parameter it is reserved."))
      else
        match missing_parameters self func_param_names with
        | [] => Return ()
        | missing =>
            Raise (InvalidDecoratorException
              ("Parametrization is invalid: the following parameters don't appear in the function itself: "
               +:+ String.concat ", " missing))
        end
  end.

(** [kwargs.pop(key)] *)
Definition pop (kw : kwargs) (key : string) : Exc (Val * kwargs) :=
  match kw !! key with
  | Some v => Return (v, delete key kw)
  | None => Raise (KeyError key)
  end.

(** The closure [replacement_function] of [expand_node]. Its two
    keyword-only parameters exist to capture the dictionaries of the
    current loop iteration; they are captured values here, as no caller
    passes them. The copy of the keywords is the identity on values. *)
Definition replacement_function (node_callable : Callable)
    (upstream_dependencies literal_dependencies : odict Val) : Callable := λ args kw,
  kwargs1 ← for_each (λ kwargs kv,
      src ← attr_source kv.2;
      popped ← pop kwargs src;
      Return (<[kv.1 := popped.1]> popped.2)) upstream_dependencies kw;
  kwargs2 ← for_each (λ kwargs kv,
      v ← attr_value kv.2;
      Return (<[kv.1 := v]> kwargs)) literal_dependencies kwargs1;
  node_callable args kwargs2.

(** The names of the two keyword-only parameters of
    [replacement_function]. Python binds a keyword of one of these names
    to that parameter instead of collecting it in [kwargs]; the
    embedding above is of the calls that pass no such keyword. *)
Definition closure_keywords : list string :=
  ["upstream_dependencies"; "literal_dependencies"].

(** The loop that derives the input types of one produced node. *)
Definition new_input_types_of (upstream_dependencies literal_dependencies : odict Val)
    (input_types : odict PyType) : Exc (odict PyType) :=
  for_each (λ new_input_types kv,
      match dict_get kv.1 upstream_dependencies with
      | Some dep =>
          src ← attr_source dep;
          Return (dict_set src kv.2 new_input_types)
      | None =>
          if dict_in kv.1 literal_dependencies
          then Return new_input_types
          else Return (dict_set kv.1 kv.2 new_input_types)
      end) input_types [].

(** One iteration of the loop of [expand_node]. The test for a tuple at
    its top never succeeds, since the constructor already stored the
    assignments alone. *)
Definition expand_one (self : t) (node_ : node.Node) (fn : Function)
    (output_node : string) (parametrization : odict Val) : Exc node.Node :=
  docstring ← format_doc_string self (fn_doc fn) output_node;
  upstream_dependencies ← select UPSTREAM Return parametrization;
  literal_dependencies ← select LITERAL Return parametrization;
  new_input_types ←
    new_input_types_of upstream_dependencies literal_dependencies (node.input_types node_);
  keywords ← comprehension (λ kv, v ← attr_value kv.2; Return (kv.1, v)) literal_dependencies;
  Return (node.mkNode output_node (node.type node_) docstring
            (partial (replacement_function (node.callable node_)
                        upstream_dependencies literal_dependencies) keywords)
            new_input_types (node.tags node_)).

Definition expand_node (self : t) (node_ : node.Node) (fn : Function) : Exc (list node.Node) :=
  comprehension (λ kv, expand_one self node_ fn kv.1 kv.2) (parametrization self).

End methods.
End parameterize.

(** ** class parameterize_values *)

Module parameterize_values.

(** A key of [assigned_output]: a tuple of values, or any other value. *)
Inductive OutputKey :=
| KTuple (items : list Val)
| KOther (v : Val).

Section methods.
Context `{Builtins}.

(** Unpacking [(output, documentation)] from a key. *)
Definition unpack_key (k : OutputKey) : Exc (Val * Val) :=
  match k with
  | KTuple [output; documentation] => Return (output, documentation)
  | KTuple _ => Raise (ValueError "wrong number of values to unpack (expected 2)")
  | KOther _ => Raise (TypeError "cannot unpack non-iterable key")
  end.

(** Unpacking a dictionary into keywords requires string keys. *)
Definition keyword (output : Val) : Exc string :=
  match output with
  | VStr o => Return o
  | _ => Raise (TypeError "keywords must be strings")
  end.

Definition __init__ (parameter : string) (assigned_output : list (OutputKey * Val))
    : Exc parameterize.t :=
  _ ← for_each (λ _ kv,
        match kv.1 with
        | KTuple _ => Return ()
        | KOther node_ =>
            Raise (InvalidDecoratorException
              ("assigned_output key is incorrect: " +:+ py_str node_
               +:+ ". The parameterized decorator needs a dict of "
               +:+ "[name, doc string] -> value to function."))
        end) assigned_output ();
  unpacked ← comprehension (λ kv,
        od ← unpack_key kv.1;
        Return (od.1, parameterize.WithDocstring [(parameter, value kv.2)] od.2))
      assigned_output;
  entries ← comprehension (λ kv, o ← keyword kv.1; Return (o, kv.2)) unpacked;
  parameterize.__init__ (dict_of_items entries).

End methods.
End parameterize_values.

(** ** class parameterize_sources *)

Module parameterize_sources.

Section methods.
Context `{Builtins}.

(** As for [parameterize], the outputs are keywords after [self], and a
    keyword named [self] is refused by the call. *)
Definition __init__ (parameterization : odict (odict string)) : Exc parameterize.t :=
  if dict_in "self" parameterization
  then Raise (TypeError "got multiple values for argument 'self'")
  else
  match parameterization with
  | [] => Raise (ValueError "Cannot pass empty/None dictionary to parameterize_sources")
  | _ =>
      _ ← for_each (λ _ kv,
            match kv.2 with
            | [] => Raise (ValueError ("Error, " +:+ kv.1
                       +:+ " has a none/empty dictionary mapping. Please fill it."))
            | _ => Return ()
            end) parameterization ();
      parameterize.__init__
        (map (λ kv, (kv.1, parameterize.Assignments
                             (map (λ pu, (pu.1, source pu.2)) kv.2)))
             parameterization)
  end.

End methods.
End parameterize_sources.

(** ** hamilton.registry and the tables it works on *)

Module registry.

(** Modelled from the spec: the capability provider [registry.py] is not
    part of the reviewed source. It maps a table type to its column type
    or fails, reads a column or raises a key error, and fills a column
    with a scalar by mutating the table. *)
Class Registry := {
  get_column_type_from_df_type : PyType → Exc PyType
}.

(** [df.columns], the labels in order. *)
Definition columns (df : DataFrame) : list Label := (data df).*1.

(** [label in df] *)
Definition contains (df : DataFrame) (label : Label) : bool :=
  bool_decide (label ∈ columns df).

(** Modelled from the spec: [fill_with_scalar] of [registry.py] fills
    the column in place, [df[column_name] = scalar_value]: every row of
    the column gets the scalar, and a column that does not exist yet is
    appended. The table after the mutation is the result here. *)
Definition fill_with_scalar (df : DataFrame) (column_name : Label) (scalar_value : Val)
    : DataFrame :=
  let filled := replicate (nrows df) scalar_value in
  if contains df column_name
  then mkDataFrame (nrows df)
         (map (λ c, if decide (c.1 = column_name) then (c.1, filled) else c) (data df))
  else mkDataFrame (nrows df) (data df ++ [(column_name, filled)]).

(** Modelled from the spec: [get_column] of [registry.py] reads
    [df[column_name]] or raises a key error. *)
Definition get_column (df : DataFrame) (column_name : string) : Exc Val :=
  match list_find (λ c, c.1 = LStr column_name) (data df) with
  | Some (_, c) => Return (VSeries c.2)
  | None => Raise (KeyError column_name)
  end.

(** [df.columns = labels] *)
Definition set_columns (df : DataFrame) (labels : list Label) : Exc DataFrame :=
  if decide (length labels = length (data df))
  then Return (mkDataFrame (nrows df) (zip labels (data df).*2))
  else Raise (ValueError "Length mismatch").

(** The value a table-producing callable is expected to return. *)
Definition as_table (v : Val) : Exc DataFrame :=
  match v with
  | VDataFrame df => Return df
  | _ => Raise (TypeError "not a table")
  end.

Definition as_dict (v : Val) : Exc (odict Val) :=
  match v with
  | VDict d => Return d
  | _ => Raise (TypeError "not a mapping")
  end.

End registry.
Export registry.

(** ** class extract_columns

    [expand_node] overwrites its argument [fn] by the callable of the
    node at once, here and in [extract_fields]; the argument is left
    out. *)

Module extract_columns.

(** A declared column: a bare name, or a tuple of name and documentation.
    The constructor also refuses a first argument that is a list; a list
    is not a column declaration, so that branch has no counterpart. *)
Inductive ColumnDecl :=
| ColName (name : string)
| ColTuple (name doc : string).

(** The declared column seen as a hashable value. *)
Definition label_of (column : ColumnDecl) : Label :=
  match column with
  | ColName n => LStr n
  | ColTuple n d => LPair n d
  end.

(** The name and the documentation a declaration gives its node:
    [column, doc_string = column] for a tuple, the base documentation
    for a bare name. *)
Definition column_name (column : ColumnDecl) : string :=
  match column with
  | ColName n => n
  | ColTuple n _ => n
  end.

Definition column_doc (base_doc : Val) (column : ColumnDecl) : Val :=
  match column with
  | ColName _ => base_doc
  | ColTuple _ d => VStr d
  end.

Record t := mk {
  columns : list ColumnDecl;
  fill_with : Val
}.

Definition __init__ (columns : list ColumnDecl) (fill_with : Val) : Exc t :=
  match columns with
  | [] => Raise (InvalidDecoratorException
                   "Error empty arguments passed to extract_columns decorator.")
  | _ => Return (mk columns fill_with)
  end.

Section methods.
Context `{Builtins} `{Registry}.

(** The closure [df_generator] of [expand_node]; [fn] is the callable of
    the node being expanded. *)
Definition df_generator (self : t) (fn : Callable) : Callable := λ args kw,
  df_generated ← fn args kw;
  match fill_with self with
  | VNone => Return df_generated
  | fill =>
      for_each (λ df_generated col,
          df ← as_table df_generated;
          if contains df (label_of col) then Return df_generated
          else
            let df' := registry.fill_with_scalar df (label_of col) fill in
            if contains df' (label_of col) then Return (VDataFrame df')
            else Raise AssertionError)
        (columns self) df_generated
  end.

(** The closure [extractor_fn]; [column_to_extract] is the name captured
    for this column, and the table arrives under the name of the expanded
    node, by keyword. Python would bind a keyword named
    [column_to_extract] to that parameter instead of collecting it: the
    embedding is of the calls without such a keyword, which is every
    call of the node when the expanded node has another name. *)
Definition extractor_fn (node_name : string) (column_to_extract : string) : Callable :=
  λ _ kw,
  match kw !! node_name with
  | None => Raise (KeyError node_name)
  | Some v =>
      df ← as_table v;
      if contains df (LStr column_to_extract)
      then registry.get_column df column_to_extract
      else Raise (InvalidDecoratorException
             ("No such column: " +:+ column_to_extract +:+ " produced by " +:+ node_name
              +:+ ". It only produced " +:+ py_str_columns (registry.columns df)))
  end.

Definition expand_node (self : t) (node_ : node.Node) : Exc (list node.Node) :=
  let fn := node.callable node_ in
  let base_doc := node.documentation node_ in
  let output_type := node.type node_ in
  series_type ← get_column_type_from_df_type output_type;
  Return (node.copy_with_callabl node_ (df_generator self fn) ::
          map (λ column,
                 node.mkNode (column_name column) series_type (column_doc base_doc column)
                   (extractor_fn (node.name node_) (column_name column))
                   [(node.name node_, output_type)] (node.tags node_))
              (columns self)).

End methods.

Section validation.
Context `{Renderings} `{Registry}.

(** The static method [validate_return_type]: only the
    [NotImplementedError] of the registry is caught and converted. *)
Definition validate_return_type (fn : Annotated) : Exc unit :=
  let output_type := return_annotation fn in
  match get_column_type_from_df_type output_type with
  | Raise NotImplementedError =>
      Raise (InvalidDecoratorException
        ("Error " +:+ py_str_function (function fn)
         +:+ " does not output a type we know about. Is it a dataframe type we support?"))
  | Raise e => Raise e
  | Return _ => Return ()
  end.

Definition validate (self : t) (fn : Annotated) : Exc unit :=
  validate_return_type fn.

End validation.
End extract_columns.

(** ** class extract_fields *)

Module extract_fields.

Record t := mk {
  fields : odict PyType;
  fill_with : Val
}.

(** The constructor refuses an empty declaration. Its other tests check
    that [fields] is a dictionary from strings to types, which the type
    of [fields] states here. *)
Definition __init__ (fields : odict PyType) (fill_with : Val) : Exc t :=
  match fields with
  | [] => Raise (InvalidDecoratorException
                   "Error an empty dict, or no dict, passed to extract_fields decorator.")
  | _ => Return (mk fields fill_with)
  end.

Section methods.
Context `{Builtins}.

Definition dict_generator (self : t) (fn : Callable) : Callable := λ args kw,
  dict_generated ← fn args kw;
  match fill_with self with
  | VNone => Return dict_generated
  | fill =>
      for_each (λ dict_generated field,
          d ← as_dict dict_generated;
          if dict_in field.1 d then Return dict_generated
          else Return (VDict (dict_set field.1 fill d)))
        (fields self) dict_generated
  end.

(** The closure [extractor_fn]; [field_to_extract] is the name captured
    for this field. As for columns, the embedding is of the calls without
    a keyword named [field_to_extract], which is every call of the node
    when the expanded node has another name. *)
Definition extractor_fn (node_name : string) (field_to_extract : string) : Callable :=
  λ _ kw,
  match kw !! node_name with
  | None => Raise (KeyError node_name)
  | Some v =>
      dt ← as_dict v;
      match dict_get field_to_extract dt with
      | Some x => Return x
      | None =>
          Raise (InvalidDecoratorException
            ("No such field: " +:+ field_to_extract +:+ " produced by " +:+ node_name
             +:+ ". It only produced " +:+ py_str_keys (keys dt)))
      end
  end.

Definition expand_node (self : t) (node_ : node.Node) : list node.Node :=
  let fn := node.callable node_ in
  let base_doc := node.documentation node_ in
  node.copy_with_callabl node_ (dict_generator self fn) ::
  map (λ field,
         node.mkNode field.1 field.2 base_doc
           (extractor_fn (node.name node_) field.1)
           [(node.name node_, TClass "dict")] (node.tags node_))
      (fields self).

End methods.
End extract_fields.

(** ** class parameterize_extract_columns *)

Module parameterize_extract_columns.

Record ParameterizedExtract := mkParameterizedExtract {
  outputs : list string;
  input_mapping : odict Val
}.

Record t := mk {
  extract_config : list ParameterizedExtract;
  reassign_columns : bool
}.

Definition __init__ (extract_config : list ParameterizedExtract) (reassign_columns : bool) : t :=
  mk extract_config reassign_columns.

Section methods.
Context `{Builtins} `{Registry}.

(** The closure [wrapper_fn]; [functools.wraps] gives it the name,
    module, docstring and signature of [fn]. *)
Definition wrapper_fn (fn : Function) (_output_columns : list string) : Function :=
  mkFunction (fn_module fn) (fn_name fn) (fn_doc fn) (fn_params fn)
    (λ args kw,
       df_out ← fn_call fn args kw;
       match df_out with
       | VDataFrame df => VDataFrame <$> set_columns df (LStr <$> _output_columns)
       | _ => Raise (AttributeError "columns")
       end).

(** One iteration of the loop of [expand_node], for the record at index [i]. *)
Definition expand_one (self : t) (node_ : node.Node) (fn : Function)
    (i : nat) (parameterization : ParameterizedExtract) : Exc (list node.Node) :=
  let wrapper := wrapper_fn fn (outputs parameterization) in
  let new_node := node.copy_with_callabl node_ (fn_call wrapper) in
  let fn_to_call := if reassign_columns self then wrapper else fn in
  parameterization_decorator ←
    parameterize.__init__
      [(node.name node_ +:+ "__" +:+ pretty i,
        parameterize.Assignments (input_mapping parameterization))];
  nodes ← parameterize.expand_node parameterization_decorator new_node fn_to_call;
  match nodes with
  | [parameterized_node] =>
      extract_columns_decorator ←
        extract_columns.__init__ (extract_columns.ColName <$> outputs parameterization) VNone;
      extract_columns.expand_node extract_columns_decorator parameterized_node
  | _ => Raise (ValueError "wrong number of values to unpack (expected 1)")
  end.

Definition expand_node (self : t) (node_ : node.Node) (fn : Function) : Exc (list node.Node) :=
  (λ nodes, List.concat nodes) <$> comprehension (λ ip, expand_one self node_ fn ip.1 ip.2)
               (imap pair (extract_config self)).

End methods.

Section validation.
Context `{Renderings} `{Registry}.

Definition validate (self : t) (fn : Annotated) : Exc unit :=
  extract_columns.validate_return_type fn.

End validation.
End parameterize_extract_columns.

(** ** Reference instances and sample functions *)

Module examples.

(** Renderings used to run the definitions on closed inputs. [str] of an
    integer is its decimal numeral, of [None] and the booleans their
    names; the compound renderings only need to be some fixed text. *)
Definition reference_str (v : Val) : string :=
  match v with
  | VStr s => s
  | VInt z => pretty z
  | VNone => "None"
  | VBool true => "True"
  | VBool false => "False"
  | _ => "<object>"
  end.

Definition reference_label (l : Label) : string :=
  match l with
  | LStr s => "'" +:+ s +:+ "'"
  | LPair a b => "('" +:+ a +:+ "', '" +:+ b +:+ "')"
  end.

Definition reference_builtins : Builtins := {|
  py_str := reference_str;
  py_str_VStr := λ s, eq_refl;
  py_str_list := λ l, "[" +:+ String.concat ", " (reference_str <$> l) +:+ "]";
  py_str_keys := λ l, "[" +:+ String.concat ", " ((λ k, "'" +:+ k +:+ "'") <$> l) +:+ "]";
  py_str_columns := λ l, "Index([" +:+ String.concat ", " (reference_label <$> l) +:+ "])"
|}.

(** A registry that knows one table type. *)
Definition reference_registry : Registry := {|
  get_column_type_from_df_type := λ ty,
    match ty with
    | TClass "DataFrame" => Return (TClass "Series")
    | _ => Raise NotImplementedError
    end
|}.

(** [def f(a: int, b: int) -> int: return a + b] *)
Definition f_call : Callable := λ args kw,
  match args, kw !! "a", kw !! "b" with
  | [], Some (VInt a), Some (VInt b) =>
      if decide (size kw = 2) then Return (VInt (a + b))
      else Raise (TypeError "f() got an unexpected keyword argument")
  | [], _, _ => Raise (TypeError "f() missing or ill-typed argument")
  | _, _, _ => Raise (TypeError "f() takes keyword arguments here")
  end.

Definition f : Function := mkFunction "m" "f" VNone ["a"; "b"] f_call.

Definition f_node : node.Node :=
  node.mkNode "f" (TClass "int") VNone f_call
    [("a", TClass "int"); ("b", TClass "int")] [].

(** [def h(a: int, b: str) -> str], of which only the signature matters. *)
Definition h_call : Callable := λ _ _, Return (VStr "h").

Definition h : Function := mkFunction "m" "h" VNone ["a"; "b"] h_call.

Definition h_node : node.Node :=
  node.mkNode "h" (TClass "str") VNone h_call
    [("a", TClass "int"); ("b", TClass "str")] [].

(** [def g() -> DataFrame] returning two rows under the columns x and y. *)
Definition g_table : DataFrame :=
  mkDataFrame 2 [(LStr "x", [VInt 1; VInt 2]); (LStr "y", [VInt 3; VInt 4])].

Definition g_call : Callable := λ _ _, Return (VDataFrame g_table).

Definition g : Function := mkFunction "m" "g" VNone [] g_call.

Definition g_node : node.Node :=
  node.mkNode "g" (TClass "DataFrame") VNone g_call [] [].

(** [str] of a function, without the address Python prints. *)
Definition reference_renderings : Renderings := {|
  py_str_function := λ fn, "<function " +:+ fn_name fn +:+ ">"
|}.

Definition g_annotated : Annotated := mkAnnotated g (TClass "DataFrame").

(** [def d() -> Dict[str, int]] returning one entry under the key k. *)
Definition d_call : Callable := λ _ _, Return (VDict [("k", VInt 1)]).

Definition d_node : node.Node :=
  node.mkNode "d" (TGeneric "Dict" [TClass "str"; TClass "int"]) VNone d_call [] [].

End examples.

(** ** What the specification says, as definitions *)

Module spec.


Fixpoint string_forall (P : ascii → bool) (s : string) : bool :=
  match s with
  | EmptyString => true
  | String c s' => P c && string_forall P s'
  end.

Definition is_brace (c : ascii) : bool :=
  bool_decide (c = "{"%char) || bool_decide (c = "}"%char).

Definition brace_free (s : string) : bool :=
  string_forall (λ c, negb (is_brace c)) s.





Section substitution.
Context `{Builtins}.

(** What a placeholder is replaced by: the output name for the reserved
    one, the rendered literal or the referenced name for a bound
    parameter, and the bare name itself for any other. *)
Definition substitution (output_name : string) (parametrization : odict Val)
    (name : string) : string :=
  if decide (name = parameterize.RESERVED_KWARG) then output_name
  else match dict_get name parametrization with
       | Some (VLiteral v) => py_str v
       | Some (VUpstream s) => s
       | _ => name
       end.




End substitution.

(** The part of a mapping whose values [g] selects, in order. *)
Definition half (g : Val → option Val) (m : odict Val) : odict Val :=
  omap (λ pv, (λ v, (pv.1, v)) <$> g pv.2) m.

Definition as_upstream (v : Val) : option Val :=
  match v with VUpstream _ => Some v | _ => None end.

Definition as_literal (v : Val) : option Val :=
  match v with VLiteral _ => Some v | _ => None end.

Definition upstream_name (v : Val) : option Val :=
  match v with VUpstream s => Some (VStr s) | _ => None end.

Definition literal_value (v : Val) : option Val :=
  match v with VLiteral x => Some x | _ => None end.

(** The two halves of a mapping, as [expand_node] splits it (the
    dependency objects) and as [format_doc_string] does (the referenced
    names and the literal values). *)
Definition upstream_part : odict Val → odict Val := half as_upstream.
Definition literal_part : odict Val → odict Val := half as_literal.
Definition upstream_names : odict Val → odict Val := half upstream_name.
Definition literal_values : odict Val → odict Val := half literal_value.

(** The key under which the type of a base input ends up: the referenced
    name for a reference-bound parameter, none for a literal-bound one,
    the parameter's own name when it is untouched. *)
Definition target (parametrization : odict Val) (param : string) : option string :=
  match dict_get param parametrization with
  | Some (VUpstream s) => Some s
  | Some (VLiteral _) => None
  | _ => Some param
  end.

(** The declared types of the base inputs that end up under [k], in the
    order of the base inputs. *)
Definition writes (parametrization : odict Val) (input_types : odict PyType)
    (k : string) : list PyType :=
  omap (λ kv, if decide (target parametrization kv.1 = Some k) then Some kv.2 else None)
       input_types.

(** The referenced names of a mapping. *)
Definition sources_of (parametrization : odict Val) : list string :=
  omap (λ kv, match kv.2 with VUpstream s => Some s | _ => None end) parametrization.

(** The keywords of the direct call: each reference-bound parameter
    holds the value supplied under the referenced name, each
    literal-bound parameter its literal, and the supplied keywords that
    are not referenced names stay as they are. *)
Definition binding (supplied : kwargs) (v : Val) : option Val :=
  match v with
  | VUpstream s => supplied !! s
  | VLiteral x => Some x
  | _ => None
  end.

Definition direct_kwargs (parametrization : odict Val) (supplied : kwargs) : kwargs :=
  list_to_map (half (binding supplied) parametrization)
  ∪ filter (λ kv, kv.1 ∉ sources_of parametrization) supplied.

End spec.

(** * Properties *)

(** ** Ordered dictionaries and loops *)

Section dict_facts.
Context {V : Type}.
Implicit Types (d : odict V) (k : string) (v : V).

Lemma dict_get_set_eq d k v : dict_get k (dict_set k v d) = Some v.
Proof.
  induction d as [|[k' v'] d IH]; simpl.
  - by rewrite decide_True.
  - destruct (decide (k = k')) as [->|Hne]; simpl.
    + by rewrite decide_True.
    + by rewrite decide_False.
Qed.

Lemma dict_get_set_ne d k k' v : k' ≠ k → dict_get k' (dict_set k v d) = dict_get k' d.
Proof.
  intros Hne. induction d as [|[k0 v0] d IH]; simpl.
  - by rewrite decide_False.
  - destruct (decide (k = k0)) as [->|Hk]; simpl.
    + by rewrite !decide_False.
    + destruct (decide (k' = k0)); [done | apply IH].
Qed.

Lemma dict_get_Some_elem d k v : dict_get k d = Some v → (k, v) ∈ d.
Proof.
  induction d as [|[k' v'] d IH]; simpl; [done|].
  destruct (decide (k = k')) as [->|Hne].
  - intros [= ->]. apply elem_of_cons; by left.
  - intros Hg. apply elem_of_cons; right. by apply IH.
Qed.

Lemma dict_get_None_keys d k : dict_get k d = None ↔ k ∉ keys d.
Proof.
  unfold keys. induction d as [|[k' v'] d IH]; simpl.
  - split; [intros _; apply not_elem_of_nil | done].
  - rewrite not_elem_of_cons. destruct (decide (k = k')) as [->|Hne].
    + split; [done | intros [? _]; done].
    + rewrite IH. split; [by split | by intros [_ ?]].
Qed.

Lemma dict_in_true d k : dict_in k d = true ↔ k ∈ keys d.
Proof.
  unfold dict_in. rewrite bool_decide_eq_true.
  destruct (dict_get k d) as [v|] eqn:Hg.
  - split; [intros _ | by eauto].
    destruct (decide (k ∈ keys d)) as [|Hn]; [done|].
    apply dict_get_None_keys in Hn. congruence.
  - split; [intros [? ?]; done|]. intros Hin.
    by apply dict_get_None_keys in Hg.
Qed.

Lemma dict_in_false d k : dict_in k d = false ↔ dict_get k d = None.
Proof.
  unfold dict_in. rewrite bool_decide_eq_false.
  destruct (dict_get k d) as [v|].
  - split; [|done]. intros Hn. exfalso. apply Hn. by eexists.
  - split; [done|]. intros _ [? ?]. done.
Qed.

Lemma dict_update_get (a b : odict V) k :
  NoDup (keys b) →
  dict_get k (dict_update a b) =
    match dict_get k b with Some v => Some v | None => dict_get k a end.
Proof.
  unfold dict_update, keys. revert a. induction b as [|[k' v'] b IH]; intros a Hnd; [done|].
  simpl in Hnd. apply NoDup_cons in Hnd as [Hk' Hnd].
  simpl. rewrite IH by done. destruct (decide (k = k')) as [->|Hne].
  - apply dict_get_None_keys in Hk'. rewrite Hk'. apply dict_get_set_eq.
  - by rewrite dict_get_set_ne.
Qed.

End dict_facts.

Section loop_facts.

Lemma comprehension_total {A B} (f : A → Exc B) (g : A → B) xs :
  Forall (λ x, f x = Return (g x)) xs → comprehension f xs = Return (g <$> xs).
Proof.
  induction 1 as [|x xs Hx _ IH]; simpl; [done|].
  by rewrite Hx, IH.
Qed.

End loop_facts.

(** ** The constructor of [parameterize] *)

Section parameterize_init.
Context `{Builtins}.
Import parameterize.

Lemma bad_values_of_elem parametrization output mapping parameter val :
  (output, mapping) ∈ parametrization →
  (parameter, val) ∈ mapping →
  is_dependency val = false →
  val ∈ bad_values_of parametrization.
Proof.
  intros Hout Hpar Hdep. unfold bad_values_of.
  apply list_elem_of_In, in_flat_map. exists (output, mapping).
  split; [by apply list_elem_of_In|].
  apply filter_In. split; [|by rewrite Hdep].
  apply list_elem_of_In, list_elem_of_fmap. by exists (parameter, val).
Qed.

Lemma bad_values_of_nil parametrization :
  bad_values_of parametrization = [] →
  Forall (λ kv, Forall (λ pv, is_dependency pv.2 = true) kv.2) parametrization.
Proof.
  intros Hnil. apply Forall_forall. intros [output mapping] Hout.
  apply Forall_forall. intros [parameter val] Hpar. simpl.
  destruct (is_dependency val) eqn:Hdep; [done|].
  pose proof (bad_values_of_elem _ _ _ _ _ Hout Hpar Hdep) as Hin.
  rewrite Hnil in Hin. by apply elem_of_nil in Hin.
Qed.

(** What a successful construction stores. *)
Lemma init_Return kw self :
  __init__ kw = Return self →
  parametrization self = map (λ kv, (kv.1, mapping_of kv.2)) kw
  ∧ Forall (λ kv, Forall (λ pv, is_dependency pv.2 = true) kv.2) (parametrization self).
Proof.
  unfold __init__. destruct (dict_in "self" kw); [done|].
  destruct (bad_values_of _) eqn:Hbad; [|done].
  intros [= <-]. simpl. split; [done|]. by apply bad_values_of_nil.
Qed.

Lemma not_named_self {V} (d : odict V) : "self" ∉ keys d → dict_in "self" d = false.
Proof. intros Hself. by apply dict_in_false, dict_get_None_keys. Qed.

Lemma init_Raise kw e :
  "self" ∉ keys kw →
  __init__ kw = Raise e → class_of e = "InvalidDecoratorException".
Proof.
  intros Hself. unfold __init__. rewrite not_named_self by done.
  destruct (bad_values_of _); [done|]. by intros [= <-].
Qed.

(** C7. A value that is not a dependency, anywhere in the mapping of any
    output, makes the constructor of [parameterize] raise: the
    construction never returns. The constructor takes no function, so
    nothing has been inspected when it raises. Unless an output is named
    [self], a keyword that the call itself refuses with [TypeError], the
    exception is [InvalidDecoratorException], and its message lists that
    value among the offending ones. *)
Theorem parameterize_init_rejects_non_dependency kw output a parameter val :
  (output, a) ∈ kw →
  (parameter, val) ∈ mapping_of a →
  is_dependency val = false →
  (∃ e, __init__ kw = Raise e)
  ∧ ("self" ∉ keys kw →
     ∃ bad_values, val ∈ bad_values ∧
       __init__ kw = Raise (InvalidDecoratorException
         ("@parameterize must specify a dependency type -- either source() or value()."
          +:+ "The following are not allowed: " +:+ py_str_list bad_values +:+ "."))).
Proof.
  intros Hout Hpar Hdep.
  assert (val ∈ bad_values_of (map (λ kv, (kv.1, mapping_of kv.2)) kw)) as Hin.
  { eapply bad_values_of_elem; [|exact Hpar|exact Hdep].
    apply list_elem_of_fmap. by exists (output, a). }
  split.
  - unfold __init__. destruct (dict_in "self" kw); [by eexists|].
    destruct (bad_values_of _); [by apply elem_of_nil in Hin | by eexists].
  - intros Hself.
    exists (bad_values_of (map (λ kv, (kv.1, mapping_of kv.2)) kw)).
    split; [done|]. unfold __init__. rewrite not_named_self by done.
    destruct (bad_values_of _); [by apply elem_of_nil in Hin | done].
Qed.

End parameterize_init.

(** ** The constructors of the two convenience decorators *)

Section convenience_init.
Context `{Builtins}.
Import parameterize_values.

Lemma values_key_check_raises (assigned_output : list (OutputKey * Val)) v x :
  (KOther v, x) ∈ assigned_output →
  ∃ msg,
    for_each (λ (_ : ()) (kv : OutputKey * Val),
        match kv.1 with
        | KTuple _ => Return ()
        | KOther node_ =>
            Raise (InvalidDecoratorException
              ("assigned_output key is incorrect: " +:+ py_str node_
               +:+ ". The parameterized decorator needs a dict of "
               +:+ "[name, doc string] -> value to function."))
        end) assigned_output () = Raise (InvalidDecoratorException msg).
Proof.
  induction assigned_output as [|[key y] l IH]; intros Hin.
  - by apply elem_of_nil in Hin.
  - simpl. destruct key as [its|w]; simpl.
    + apply elem_of_cons in Hin as [[=]|Hin]. by apply IH.
    + eauto.
Qed.

Lemma sources_mapping_check_raises (parameterization : odict (odict string)) output :
  (output, []) ∈ parameterization →
  ∃ msg,
    for_each (λ (_ : ()) (kv : string * odict string),
        match kv.2 with
        | [] => Raise (ValueError ("Error, " +:+ kv.1
                   +:+ " has a none/empty dictionary mapping. Please fill it."))
        | _ => Return ()
        end) parameterization () = Raise (ValueError msg).
Proof.
  induction parameterization as [|[o m] l IH]; intros Hin.
  - by apply elem_of_nil in Hin.
  - simpl. destruct m as [|pu m]; simpl; [eauto|].
    apply elem_of_cons in Hin as [[=]|Hin]. by apply IH.
Qed.

Lemma values_key_check_passes (assigned_output : list (OutputKey * Val)) :
  Forall (λ kv, ∃ its, kv.1 = KTuple its) assigned_output →
  for_each (λ (_ : ()) (kv : OutputKey * Val),
      match kv.1 with
      | KTuple _ => Return ()
      | KOther node_ =>
          Raise (InvalidDecoratorException
            ("assigned_output key is incorrect: " +:+ py_str node_
             +:+ ". The parameterized decorator needs a dict of "
             +:+ "[name, doc string] -> value to function."))
      end) assigned_output () = Return ().
Proof.
  induction 1 as [|[key y] l [its Hkey] _ IH]; [done|].
  simpl in Hkey. subst key. exact IH.
Qed.

Lemma values_unpack_raises parameter (assigned_output : list (OutputKey * Val)) its x :
  Forall (λ kv, ∃ its, kv.1 = KTuple its) assigned_output →
  (KTuple its, x) ∈ assigned_output →
  length its ≠ 2 →
  ∃ msg,
    comprehension (λ kv : OutputKey * Val,
        od ← unpack_key kv.1;
        Return (od.1, parameterize.WithDocstring [(parameter, value kv.2)] od.2))
      assigned_output = Raise (ValueError msg).
Proof.
  intros Hall Hin Hlen. induction Hall as [|[key y] l [its' Hkey] _ IH].
  - by apply elem_of_nil in Hin.
  - simpl in Hkey. subst key. cbn [comprehension]. simpl.
    destruct its' as [|o [|doc [|z its']]]; simpl; eauto.
    apply elem_of_cons in Hin as [[= -> ->]|Hin]; [done|].
    destruct (IH Hin) as [msg Hmsg]. exists msg. by rewrite Hmsg.
Qed.

(** C8, as the code has it. No output being named [self], the sources
    form raises [ValueError] for an empty dictionary of outputs and for
    an output whose mapping is empty, whatever else it is given, and no
    failure of the constructor of [parameterize] has that class: each of
    them is an [InvalidDecoratorException]. The values form raises
    [InvalidDecoratorException], the same class, for a key that is not a
    tuple, and [ValueError] while unpacking a tuple key that has not two
    components. *)
Theorem convenience_constructors_malformed :
  (∀ parameterization,
     "self" ∉ keys parameterization →
     parameterization = [] ∨ (∃ output, (output, []) ∈ parameterization) →
     ∃ msg, parameterize_sources.__init__ parameterization = Raise (ValueError msg)
            ∧ ∀ kw e,
                "self" ∉ keys kw →
                parameterize.__init__ kw = Raise e →
                class_of e ≠ class_of (ValueError msg))
  ∧ (∀ parameter assigned_output v x,
       (KOther v, x) ∈ assigned_output →
       ∃ msg, parameterize_values.__init__ parameter assigned_output
              = Raise (InvalidDecoratorException msg))
  ∧ (∀ parameter assigned_output its x,
       Forall (λ kv, ∃ its, kv.1 = KTuple its) assigned_output →
       (KTuple its, x) ∈ assigned_output →
       length its ≠ 2 →
       ∃ msg, parameterize_values.__init__ parameter assigned_output
              = Raise (ValueError msg))
  ∧ (∀ kw e,
       "self" ∉ keys kw →
       parameterize.__init__ kw = Raise e → class_of e = "InvalidDecoratorException").
Proof.
  assert (∀ msg kw e,
            "self" ∉ keys kw →
            parameterize.__init__ kw = Raise e →
            class_of e ≠ class_of (ValueError msg)) as Hdistinct.
  { intros msg kw e Hself Hraise. by rewrite (init_Raise kw e Hself Hraise). }
  split; [|split; [|split]].
  - intros parameterization Hself Hbad.
    unfold parameterize_sources.__init__. rewrite not_named_self by done.
    destruct Hbad as [->|[output Hin]]; [eexists; split; [done | apply Hdistinct]|].
    destruct parameterization as [|e l] eqn:Hl;
      [eexists; split; [done | apply Hdistinct]|].
    rewrite <- Hl in *.
    destruct (sources_mapping_check_raises _ _ Hin) as [msg Hmsg].
    exists msg. rewrite Hmsg. split; [done | apply Hdistinct].
  - intros parameter assigned_output v x Hin.
    destruct (values_key_check_raises _ _ _ Hin) as [msg Hmsg].
    exists msg. unfold parameterize_values.__init__. by rewrite Hmsg.
  - intros parameter assigned_output its x Hall Hin Hlen.
    destruct (values_unpack_raises parameter _ _ _ Hall Hin Hlen) as [msg Hmsg].
    exists msg. unfold parameterize_values.__init__.
    rewrite values_key_check_passes by done. simpl. by rewrite Hmsg.
  - apply init_Raise.
Qed.

End convenience_init.

(** ** The extractor nodes *)

Section extractors.
Context `{Builtins} `{Registry}.

Lemma extract_columns_expand_node_Return self node_ series_type :
  get_column_type_from_df_type (node.type node_) = Return series_type →
  extract_columns.expand_node self node_ =
    Return (node.copy_with_callabl node_
              (extract_columns.df_generator self (node.callable node_)) ::
            map (λ column,
                   node.mkNode (extract_columns.column_name column) series_type
                     (extract_columns.column_doc (node.documentation node_) column)
                     (extract_columns.extractor_fn (node.name node_)
                        (extract_columns.column_name column))
                     [(node.name node_, node.type node_)] (node.tags node_))
                (extract_columns.columns self)).
Proof. intros Hty. unfold extract_columns.expand_node. by rewrite Hty. Qed.

(** C10. Each per-field node declares one input, under the name of the
    expanded node, of the bare [dict] type, whatever the declared type of
    the expanded node; each per-column node declares that input with the
    declared type of the expanded node. *)
Theorem extractor_nodes_input_types
    (self_f : extract_fields.t) (self_c : extract_columns.t) (node_ : node.Node) :
  Forall (λ nd, node.input_types nd = [(node.name node_, TClass "dict")])
         (drop 1 (extract_fields.expand_node self_f node_))
  ∧ length (drop 1 (extract_fields.expand_node self_f node_))
    = length (extract_fields.fields self_f)
  ∧ ∀ series_type,
      get_column_type_from_df_type (node.type node_) = Return series_type →
      ∃ nodes,
        extract_columns.expand_node self_c node_ = Return nodes
        ∧ Forall (λ nd, node.input_types nd = [(node.name node_, node.type node_)])
                 (drop 1 nodes)
        ∧ length (drop 1 nodes) = length (extract_columns.columns self_c).
Proof.
  split; [|split].
  - unfold extract_fields.expand_node. simpl. rewrite drop_0.
    apply Forall_forall. intros nd Hnd.
    apply list_elem_of_fmap in Hnd as [field [-> _]]. done.
  - unfold extract_fields.expand_node. simpl. by rewrite drop_0, length_map.
  - intros series_type Hty. eexists.
    split; [by apply extract_columns_expand_node_Return|].
    simpl. rewrite drop_0. split; [|by rewrite length_map].
    apply Forall_forall. intros nd Hnd.
    apply list_elem_of_fmap in Hnd as [column [-> _]]. done.
Qed.

Lemma column_extractor_absent node_name column df args (kw : kwargs) :
  kw !! node_name = Some (VDataFrame df) →
  contains df (LStr column) = false →
  extract_columns.extractor_fn node_name column args kw =
    Raise (InvalidDecoratorException
      ("No such column: " +:+ column +:+ " produced by " +:+ node_name
       +:+ ". It only produced " +:+ py_str_columns (registry.columns df))).
Proof.
  intros Hkw Habs. unfold extract_columns.extractor_fn.
  rewrite Hkw. simpl. by rewrite Habs.
Qed.

Lemma field_extractor_absent node_name field d args (kw : kwargs) :
  kw !! node_name = Some (VDict d) →
  dict_get field d = None →
  extract_fields.extractor_fn node_name field args kw =
    Raise (InvalidDecoratorException
      ("No such field: " +:+ field +:+ " produced by " +:+ node_name
       +:+ ". It only produced " +:+ py_str_keys (keys d))).
Proof.
  intros Hkw Habs. unfold extract_fields.extractor_fn.
  rewrite Hkw. simpl. by rewrite Habs.
Qed.

(** C5. With no fill value, expansion itself succeeds and the container
    node hands on what the expanded callable produced; when a declared
    column (field) is absent from that table (dictionary), calling the
    node of that column (field) on it raises
    [InvalidDecoratorException], with a message that names the column
    (field) and the producing node and renders the columns (keys) that
    are present. *)
Theorem extractor_absent_raises :
  (∀ (self : extract_columns.t) node_ series_type i column args kw df,
     extract_columns.fill_with self = VNone →
     get_column_type_from_df_type (node.type node_) = Return series_type →
     extract_columns.columns self !! i = Some column →
     node.callable node_ args kw = Return (VDataFrame df) →
     contains df (LStr (extract_columns.column_name column)) = false →
     node.name node_ ≠ "column_to_extract" →
     ∃ nodes container nd,
       extract_columns.expand_node self node_ = Return nodes
       ∧ nodes !! 0 = Some container ∧ nodes !! S i = Some nd
       ∧ node.name nd = extract_columns.column_name column
       ∧ node.callable container args kw = Return (VDataFrame df)
       ∧ node.callable nd [] {[ node.name node_ := VDataFrame df ]} =
           Raise (InvalidDecoratorException
             ("No such column: " +:+ extract_columns.column_name column
              +:+ " produced by " +:+ node.name node_
              +:+ ". It only produced " +:+ py_str_columns (registry.columns df))))
  ∧ (∀ (self : extract_fields.t) node_ i field field_type args kw d,
       extract_fields.fill_with self = VNone →
       extract_fields.fields self !! i = Some (field, field_type) →
       node.callable node_ args kw = Return (VDict d) →
       dict_get field d = None →
       node.name node_ ≠ "field_to_extract" →
       ∃ container nd,
         extract_fields.expand_node self node_ !! 0 = Some container
         ∧ extract_fields.expand_node self node_ !! S i = Some nd
         ∧ node.name nd = field
         ∧ node.callable container args kw = Return (VDict d)
         ∧ node.callable nd [] {[ node.name node_ := VDict d ]} =
             Raise (InvalidDecoratorException
               ("No such field: " +:+ field +:+ " produced by " +:+ node.name node_
                +:+ ". It only produced " +:+ py_str_keys (keys d)))).
Proof.
  split.
  - intros self node_ series_type i column args kw df Hfill Hty Hcol Hcall Habs _.
    do 3 eexists. split; [by apply extract_columns_expand_node_Return|].
    split; [done|]. split.
    { simpl. rewrite list_lookup_fmap, Hcol. done. }
    simpl. split; [done|]. split.
    + unfold extract_columns.df_generator. by rewrite Hcall, Hfill.
    + apply column_extractor_absent; [apply lookup_singleton_eq | done].
  - intros self node_ i field field_type args kw d Hfill Hfld Hcall Habs _.
    do 2 eexists. unfold extract_fields.expand_node. split; [done|]. split.
    { simpl. rewrite list_lookup_fmap, Hfld. done. }
    simpl. split; [done|]. split.
    + unfold extract_fields.dict_generator. by rewrite Hcall, Hfill.
    + apply field_extractor_absent; [apply lookup_singleton_eq | done].
Qed.

End extractors.

(** ** [str.format_map] on templates made of text and placeholders *)

Section format_facts.
Import spec.
Variable getitem : string → string.

Lemma append_cons c (s r : string) : String c s +:+ r = String c (s +:+ r).
Proof. reflexivity. Qed.

Lemma append_nil_l (r : string) : EmptyString +:+ r = r.
Proof. reflexivity. Qed.




Lemma is_brace_false c : negb (is_brace c) = true → c ≠ "{"%char ∧ c ≠ "}"%char.
Proof.
  unfold is_brace. rewrite negb_true_iff, orb_false_iff, !bool_decide_eq_false. done.
Qed.

Lemma format_scan_text_step c rest :
  c ≠ "{"%char → c ≠ "}"%char →
  format_scan getitem None (String c rest) = String c <$> format_scan getitem None rest.
Proof. intros H1 H2. simpl. by rewrite !decide_False. Qed.

Lemma format_scan_text s rest :
  brace_free s = true →
  format_scan getitem None (s +:+ rest) =
    (λ r, s +:+ r) <$> format_scan getitem None rest.
Proof.
  induction s as [|c s IH]; intros Hbf.
  - rewrite append_nil_l. by destruct (format_scan getitem None rest).
  - unfold brace_free in Hbf. simpl in Hbf.
    apply andb_true_iff in Hbf as [Hc Hs]. apply is_brace_false in Hc as [H1 H2].
    rewrite append_cons, format_scan_text_step, IH by done.
    by destruct (format_scan getitem None rest).
Qed.








End format_facts.

(** ** Splitting a mapping into its two kinds of dependency *)

Section select_facts.
Import parameterize spec.

Lemma select_omap kind project (g : string * Val → option (string * Val)) m :
  Forall (λ pv,
      (get_dependency_type pv.2 ≫= λ ty,
         if decide (ty = kind)
         then project pv.2 ≫= λ v, Return (Some (pv.1, v))
         else Return None) = Return (g pv)) m →
  select kind project m = Return (omap g m).
Proof.
  unfold select. intros Hall.
  enough (∀ acc,
    for_each (λ acc kv,
        ty ← get_dependency_type kv.2;
        if decide (ty = kind)
        then v ← project kv.2; Return (acc ++ [(kv.1, v)])
        else Return acc) m acc = Return (acc ++ omap g m)) as Hgen by apply (Hgen []).
  induction Hall as [|pv m Hpv _ IH]; intros acc.
  - simpl. by rewrite app_nil_r.
  - simpl. destruct (get_dependency_type pv.2) as [ty|err]; simpl in *; [|done].
    destruct (decide (ty = kind)) as [Hty|Hty].
    + destruct (project pv.2) as [v|err]; simpl in *; [|done].
      injection Hpv as <-. rewrite IH. by rewrite <- app_assoc.
    + injection Hpv as <-. apply IH.
Qed.

Ltac select_cases Hdeps :=
  apply select_omap; eapply Forall_impl; [exact Hdeps|];
  intros [p v] Hv; destruct v; simpl in *; done.

Lemma select_upstream_part m :
  Forall (λ pv, is_dependency pv.2 = true) m →
  select UPSTREAM Return m = Return (upstream_part m).
Proof. intros Hdeps. select_cases Hdeps. Qed.

Lemma select_literal_part m :
  Forall (λ pv, is_dependency pv.2 = true) m →
  select LITERAL Return m = Return (literal_part m).
Proof. intros Hdeps. select_cases Hdeps. Qed.

Lemma select_upstream_names m :
  Forall (λ pv, is_dependency pv.2 = true) m →
  select UPSTREAM (λ r, VStr <$> attr_source r) m = Return (upstream_names m).
Proof. intros Hdeps. select_cases Hdeps. Qed.

Lemma select_literal_values m :
  Forall (λ pv, is_dependency pv.2 = true) m →
  select LITERAL attr_value m = Return (literal_values m).
Proof. intros Hdeps. select_cases Hdeps. Qed.

Lemma keys_half g m k : k ∈ keys (half g m) → k ∈ keys m.
Proof.
  unfold keys, half. rewrite !list_elem_of_fmap.
  intros [qv [-> Hq]]. apply list_elem_of_omap in Hq as [pv [Hp Hgp]].
  exists pv. split; [|done]. destruct (g pv.2); simpl in Hgp; [|done].
  by injection Hgp as <-.
Qed.

Lemma dict_get_Some_NoDup {V} (d : odict V) k v :
  NoDup (keys d) → (k, v) ∈ d → dict_get k d = Some v.
Proof.
  unfold keys. induction d as [|[k' v'] d IH]; intros Hnd Hin.
  - by apply elem_of_nil in Hin.
  - simpl in *. apply NoDup_cons in Hnd as [Hk' Hnd].
    apply elem_of_cons in Hin as [[= -> ->]|Hin].
    + by rewrite decide_True.
    + rewrite decide_False; [by apply IH|].
      intros ->. apply Hk', list_elem_of_fmap. by exists (k', v).
Qed.

(** Looking a name up in one half of a mapping. *)
Lemma dict_get_half g (m : odict Val) k :
  NoDup (keys m) → dict_get k (half g m) = dict_get k m ≫= g.
Proof.
  induction m as [|[k' x] m IH]; intros Hnd; [done|].
  unfold keys in Hnd. simpl in Hnd. apply NoDup_cons in Hnd as [Hk' Hnd].
  unfold half. cbn [omap list_omap]. fold (half g m). simpl.
  destruct (decide (k = k')) as [->|Hne]; simpl.
  - destruct (g x) as [v|] eqn:Hgx; simpl.
    + by rewrite decide_True.
    + apply dict_get_None_keys. intros Hin. apply keys_half in Hin. by apply Hk'.
  - destruct (g x) as [v|] eqn:Hgx; simpl.
    + rewrite decide_False by done. by apply IH.
    + by apply IH.
Qed.

Lemma half_NoDup g m : NoDup (keys m) → NoDup (keys (half g m)).
Proof.
  induction m as [|[k x] m IH]; intros Hnd; [constructor|].
  unfold keys in Hnd. simpl in Hnd. apply NoDup_cons in Hnd as [Hk Hnd].
  unfold half. cbn [omap list_omap]. fold (half g m). simpl.
  destruct (g x) as [v|]; simpl; [|by apply IH].
  unfold keys. simpl. apply NoDup_cons. split; [|by apply IH].
  intros Hin. apply keys_half in Hin. by apply Hk.
Qed.

End select_facts.

(** ** Docstring templating *)

Section docstring.
Context `{Builtins}.
Import parameterize spec.

Lemma format_scan_ext_step (g1 g2 : string → string) c s :
  (∀ n, g1 n = g2 n) →
  (∀ field, format_scan g1 field s = format_scan g2 field s) →
  (∀ a s', s = String a s' → ∀ field, format_scan g1 field s' = format_scan g2 field s') →
  ∀ field, format_scan g1 field (String c s) = format_scan g2 field (String c s).
Proof.
  intros Hg Hs Htail field. destruct field as [name|]; cbn [format_scan].
  - destruct (decide (c = "}"%char)).
    + unfold get_field. by rewrite Hg, (Hs None).
    + destruct (field_special c); [done | apply Hs].
  - destruct (decide (c = "{"%char)).
    + destruct s as [|c2 s']; [done|].
      destruct (decide (c2 = "{"%char)); [|apply Hs].
      by rewrite (Htail c2 s' eq_refl None).
    + destruct (decide (c = "}"%char)); [|by rewrite (Hs None)].
      destruct s as [|c2 s']; [done|].
      destruct (decide (c2 = "}"%char)); [|done].
      by rewrite (Htail c2 s' eq_refl None).
Qed.

Lemma format_scan_ext (g1 g2 : string → string) s :
  (∀ n, g1 n = g2 n) →
  ∀ field, format_scan g1 field s = format_scan g2 field s.
Proof.
  intros Hg.
  enough ((∀ field, format_scan g1 field s = format_scan g2 field s)
          ∧ ∀ c field, format_scan g1 field (String c s) = format_scan g2 field (String c s))
    as [Hs _] by exact Hs.
  induction s as [|a s [IH1 IH2]].
  - assert (∀ field, format_scan g1 field EmptyString = format_scan g2 field EmptyString) as Hnil
      by (by intros [?|]).
    split; [exact Hnil|]. intros c. apply format_scan_ext_step; [done..|]. by intros ?? [=].
  - split; [apply IH2|]. intros c. apply format_scan_ext_step; [done|apply IH2|].
    by intros ?? [= <- <-].
Qed.

Lemma identity_getitem_substitution output_name m name :
  NoDup (keys m) →
  identity_getitem
    ((RESERVED_KWARG, VStr output_name) :: dict_update (upstream_names m) (literal_values m))
    name
  = substitution output_name m name.
Proof.
  intros Hnd. unfold identity_getitem, substitution. simpl.
  destruct (decide (name = RESERVED_KWARG)); [apply py_str_VStr|].
  rewrite dict_update_get by (by apply half_NoDup).
  unfold literal_values, upstream_names. rewrite !dict_get_half by done.
  destruct (dict_get name m) as [[]|]; simpl; try done. apply py_str_VStr.
Qed.

Lemma reserved_not_merged m :
  NoDup (keys m) → RESERVED_KWARG ∉ keys m →
  dict_in RESERVED_KWARG (dict_update (upstream_names m) (literal_values m)) = false.
Proof.
  intros Hnd Hres. apply dict_in_false.
  rewrite dict_update_get by (by apply half_NoDup).
  unfold literal_values, upstream_names. rewrite !dict_get_half by done.
  apply dict_get_None_keys in Hres. by rewrite Hres.
Qed.

(** With no override, a mapping of dependencies and a template that is
    a string, [format_doc_string] is [format_map] with the substitution
    of the specification as its lookup. *)
Lemma format_doc_string_format_map self output_name m template :
  dict_get output_name (specified_docstrings self) = None →
  dict_get output_name (parametrization self) = Some m →
  NoDup (keys m) →
  Forall (λ pv, is_dependency pv.2 = true) m →
  RESERVED_KWARG ∉ keys m →
  format_doc_string self (VStr template) output_name =
    VStr <$> format_map (substitution output_name m) template.
Proof.
  intros Hdoc Hm Hnd Hdeps Hres. unfold format_doc_string.
  rewrite Hdoc, Hm. simpl.
  rewrite select_upstream_names, select_literal_values by done. simpl.
  rewrite reserved_not_merged by done. unfold format_map.
  f_equal. apply format_scan_ext. intros n. by apply identity_getitem_substitution.
Qed.






End docstring.

(** ** Expansion by [parameterize] *)

Section parameterize_expand.
Context `{Builtins}.
Import parameterize spec.

Lemma for_each_unit_Return {A B} (f : A → Exc B) (l : list A) u :
  for_each (λ (_ : ()) x, _ ← f x; Return ()) l u = Return () →
  Forall (λ x, ∃ y, f x = Return y) l.
Proof.
  revert u. induction l as [|x l IH]; intros u; [constructor|].
  simpl. destruct (f x) as [y|err] eqn:Hf; simpl; [|done].
  intros Hl. constructor; [by eexists | by eapply IH].
Qed.

Lemma validate_Return self fn :
  validate self fn = Return () →
  Forall (λ kv, ∃ d, format_doc_string self (fn_doc fn) kv.1 = Return d)
         (parametrization self).
Proof.
  unfold validate.
  destruct (for_each _ (parametrization self) ()) as [[]|err] eqn:Hloop.
  - intros _. by apply for_each_unit_Return in Hloop.
  - by destruct err.
Qed.

(** One step of the loop over the base inputs, read through [target]. *)
Lemma new_input_types_step m (kv : string * PyType) (acc : odict PyType) :
  NoDup (keys m) →
  match dict_get kv.1 (upstream_part m) with
  | Some dep => src ← attr_source dep; Return (dict_set src kv.2 acc)
  | None =>
      if dict_in kv.1 (literal_part m) then Return acc
      else Return (dict_set kv.1 kv.2 acc)
  end
  = Return (match target m kv.1 with
            | Some k => dict_set k kv.2 acc
            | None => acc
            end).
Proof.
  intros Hnd. unfold upstream_part, literal_part, target.
  destruct (dict_in kv.1 (half as_literal m)) eqn:Hlit.
  - apply dict_in_true in Hlit.
    destruct (dict_get kv.1 (half as_literal m)) as [x|] eqn:Hx;
      [|by apply dict_get_None_keys in Hx].
    rewrite dict_get_half in Hx by done. rewrite dict_get_half by done.
    destruct (dict_get kv.1 m) as [[]|]; simpl in *; done.
  - apply dict_in_false in Hlit.
    rewrite dict_get_half in Hlit by done. rewrite dict_get_half by done.
    destruct (dict_get kv.1 m) as [[]|]; simpl in *; done.
Qed.

Lemma new_input_types_of_Return m input_types :
  NoDup (keys m) →
  new_input_types_of (upstream_part m) (literal_part m) input_types =
    Return (fold_left (λ acc kv, match target m kv.1 with
                                 | Some k => dict_set k kv.2 acc
                                 | None => acc
                                 end) input_types []).
Proof.
  intros Hnd. unfold new_input_types_of. generalize (@nil (string * PyType)).
  induction input_types as [|kv its IH]; intros acc; [done|].
  cbn [for_each fold_left]. rewrite new_input_types_step by done. simpl. apply IH.
Qed.

(** The type found under a key is the one written last. *)
Lemma new_input_types_get m input_types acc k :
  dict_get k (fold_left (λ acc kv, match target m kv.1 with
                                   | Some k => dict_set k kv.2 acc
                                   | None => acc
                                   end) input_types acc)
  = match last (writes m input_types k) with
    | Some ty => Some ty
    | None => dict_get k acc
    end.
Proof.
  revert acc. induction input_types as [|[p ty] its IH]; intros acc; [done|].
  cbn [fold_left]. rewrite IH. unfold writes. cbn [omap list_omap]. simpl.
  fold (writes m its k).
  destruct (target m p) as [k'|]; simpl.
  - destruct (decide (Some k' = Some k)) as [[= ->]|Hne].
    + rewrite last_cons, dict_get_set_eq. by destruct (last (writes m its k)).
    + rewrite dict_get_set_ne by congruence. done.
  - done.
Qed.

Lemma literal_part_values m :
  Forall (λ kv, attr_value kv.2
                = Return (match kv.2 with VLiteral v => v | _ => VNone end))
         (literal_part m).
Proof.
  apply Forall_forall. intros [p v] Hin. unfold literal_part, half in Hin.
  apply list_elem_of_omap in Hin as [[q w] [_ Hg]]. simpl in *.
  destruct w; simpl in Hg; try done. by injection Hg as <- <-.
Qed.

(** One iteration of [expand_node] succeeds once the docstring formats,
    and builds this node. *)
Lemma expand_one_Return self node_ fn output_node m docstring :
  format_doc_string self (fn_doc fn) output_node = Return docstring →
  NoDup (keys m) →
  Forall (λ pv, is_dependency pv.2 = true) m →
  ∃ nd,
    expand_one self node_ fn output_node m = Return nd
    ∧ node.name nd = output_node
    ∧ node.type nd = node.type node_
    ∧ node.documentation nd = docstring
    ∧ node.tags nd = node.tags node_
    ∧ node.callable nd =
        partial (replacement_function (node.callable node_)
                   (upstream_part m) (literal_part m))
                ((λ kv, (kv.1, match kv.2 with VLiteral v => v | _ => VNone end))
                   <$> literal_part m)
    ∧ ∀ k, dict_get k (node.input_types nd)
           = last (writes m (node.input_types node_) k).
Proof.
  intros Hdoc Hnd Hdeps. unfold expand_one. rewrite Hdoc. simpl.
  rewrite select_upstream_part, select_literal_part by done. simpl.
  rewrite new_input_types_of_Return by done. simpl.
  rewrite (comprehension_total _
             (λ kv, (kv.1, match kv.2 with VLiteral v => v | _ => VNone end))).
  2:{ eapply Forall_impl; [apply literal_part_values|].
      intros kv Hkv. simpl. by rewrite Hkv. }
  simpl. eexists. split; [done|]. simpl. repeat split.
  intros k. rewrite new_input_types_get. by destruct (last _).
Qed.

(** Consequences of the description of the input types by [writes]. *)

Lemma writes_elem m its k ty :
  ty ∈ writes m its k ↔ ∃ p, (p, ty) ∈ its ∧ target m p = Some k.
Proof.
  unfold writes. rewrite list_elem_of_omap. split.
  - intros [[p ty'] [Hin Hg]]. simpl in Hg.
    destruct (decide (target m p = Some k)); [|done].
    injection Hg as ->. by exists p.
  - intros [p [Hin Ht]]. exists (p, ty). split; [done|]. simpl.
    by rewrite decide_True.
Qed.

Lemma last_is_Some {A} (l : list A) x : x ∈ l → is_Some (last l).
Proof.
  intros Hin. destruct l as [|y l] using rev_ind; [by apply elem_of_nil in Hin|].
  rewrite last_snoc. by eexists.
Qed.

(** The referenced name of a reference-bound base input is a key. *)
Lemma writes_reference_key m its p ty s :
  (p, ty) ∈ its → dict_get p m = Some (VUpstream s) → is_Some (last (writes m its s)).
Proof.
  intros Hin Hp. apply (last_is_Some _ ty), writes_elem.
  exists p. split; [done|]. unfold target. by rewrite Hp.
Qed.

(** The name of an untouched base input is a key. *)
Lemma writes_untouched_key m its p ty :
  (p, ty) ∈ its → dict_get p m = None → is_Some (last (writes m its p)).
Proof.
  intros Hin Hp. apply (last_is_Some _ ty), writes_elem.
  exists p. split; [done|]. unfold target. by rewrite Hp.
Qed.

(** The name of a literal-bound parameter is a key only as the
    referenced name of some reference-bound base input. *)
Lemma writes_literal_name m its k v :
  dict_get k m = Some (VLiteral v) →
  is_Some (last (writes m its k)) →
  ∃ p ty, (p, ty) ∈ its ∧ dict_get p m = Some (VUpstream k).
Proof.
  intros Hk [ty Hlast]. apply last_Some_elem_of, writes_elem in Hlast as [p [Hin Ht]].
  exists p, ty. split; [done|]. unfold target in Ht.
  destruct (dict_get p m) as [w|] eqn:Hp.
  - destruct w; try (injection Ht as ->; congruence); try done.
  - injection Ht as ->. congruence.
Qed.

(** Where a single base input is written to a key, its declared type is
    what the key holds. *)
Lemma writes_single m its p ty k :
  NoDup (keys its) →
  (p, ty) ∈ its →
  target m p = Some k →
  (∀ q, q ∈ keys its → target m q = Some k → q = p) →
  last (writes m its k) = Some ty.
Proof.
  intros Hnd Hin Ht Honly.
  destruct (last_is_Some (writes m its k) ty) as [ty' Hlast].
  { apply writes_elem. by exists p. }
  rewrite Hlast. f_equal.
  apply last_Some_elem_of, writes_elem in Hlast as [q [Hq Htq]].
  assert (q = p) as ->.
  { apply Honly; [|done]. unfold keys. apply list_elem_of_fmap. by exists (q, ty'). }
  pose proof (dict_get_Some_NoDup _ _ _ Hnd Hq) as H1.
  pose proof (dict_get_Some_NoDup _ _ _ Hnd Hin) as H2. congruence.
Qed.

Lemma keys_is_Some {V} (d : odict V) k : k ∈ keys d ↔ is_Some (dict_get k d).
Proof.
  split.
  - intros Hin. destruct (dict_get k d) eqn:Hg; [by eexists|].
    by apply dict_get_None_keys in Hg.
  - intros [v Hv]. destruct (decide (k ∈ keys d)) as [|Hn]; [done|].
    apply dict_get_None_keys in Hn. congruence.
Qed.

Lemma writes_is_Some m its k :
  is_Some (last (writes m its k)) ↔ ∃ p, p ∈ keys its ∧ target m p = Some k.
Proof.
  split.
  - intros [ty Hlast]. apply last_Some_elem_of, writes_elem in Hlast as [p [Hin Ht]].
    exists p. split; [|done]. unfold keys. apply list_elem_of_fmap. by exists (p, ty).
  - intros [p [Hin Ht]]. unfold keys in Hin.
    apply list_elem_of_fmap in Hin as [[q ty] [-> Hin]].
    apply (last_is_Some _ ty), writes_elem. by exists q.
Qed.

(** C2, as the code has it. For a parameterization accepted by the
    constructor and by [validate], [expand_node] returns one node per
    declared output, in order and under that name, with the declared
    type and the tags of the base node. The keys of its input-type
    mapping are exactly the referenced names of the reference-bound base
    inputs and the names of the untouched base inputs, so that the name
    of a literal-bound parameter is a key only if some parameter refers
    to an upstream node of that name; and a key that a single base input
    is written to holds the declared type of that input. *)
Theorem parameterize_expand_node_nodes kw self node_ fn :
  __init__ kw = Return self →
  Forall (λ kv, NoDup (keys (mapping_of kv.2))) kw →
  NoDup (keys (node.input_types node_)) →
  validate self fn = Return () →
  ∃ nodes,
    expand_node self node_ fn = Return nodes
    ∧ Forall2 (λ nd kv,
        node.name nd = kv.1
        ∧ node.type nd = node.type node_
        ∧ node.tags nd = node.tags node_
        ∧ (∀ k, k ∈ keys (node.input_types nd) ↔
                ∃ p, p ∈ keys (node.input_types node_)
                     ∧ target (mapping_of kv.2) p = Some k)
        ∧ (∀ p ty k,
             (p, ty) ∈ node.input_types node_ →
             target (mapping_of kv.2) p = Some k →
             (∀ q, q ∈ keys (node.input_types node_) →
                   target (mapping_of kv.2) q = Some k → q = p) →
             dict_get k (node.input_types nd) = Some ty))
      nodes kw.
Proof.
  intros Hinit Hnd Hbase Hval.
  apply init_Return in Hinit as [Hpar Hdeps].
  apply validate_Return in Hval. unfold expand_node.
  rewrite Hpar in *. clear Hpar.
  induction kw as [|[output a] kw IH].
  - exists []. split; [done | constructor].
  - cbn [map] in *. apply Forall_cons in Hnd as [Hnd1 Hnd].
    apply Forall_cons in Hdeps as [Hdeps1 Hdeps].
    apply Forall_cons in Hval as [[docstring Hdoc] Hval].
    destruct (IH Hdeps Hnd Hval) as (nodes & Hnodes & Hall).
    destruct (expand_one_Return self node_ fn output (mapping_of a) docstring
                Hdoc Hnd1 Hdeps1) as (nd & Hone & Hn & Hty & _ & Htags & _ & Hits).
    exists (nd :: nodes). split.
    + cbn [comprehension]. simpl. rewrite Hone. simpl. by rewrite Hnodes.
    + constructor; [|done]. simpl.
      split; [done|]. split; [done|]. split; [done|]. split.
      * intros k. rewrite keys_is_Some, Hits. apply writes_is_Some.
      * intros p ty k Hin Ht Honly. rewrite Hits. by apply (writes_single _ _ p).
Qed.

End parameterize_expand.

(** ** The callable of a parameterized node *)

Section replacement.
Import parameterize spec.

Lemma list_to_map_dict_get {V} (d : odict V) k :
  (list_to_map d : gmap string V) !! k = dict_get k d.
Proof.
  induction d as [|[k' v] d IH]; [done|].
  rewrite list_to_map_cons. simpl. destruct (decide (k = k')) as [->|Hne].
  - by rewrite lookup_insert_eq.
  - by rewrite lookup_insert_ne.
Qed.

Lemma to_kwargs_lookup_acc (d : odict Val) (acc : kwargs) k :
  NoDup (keys d) →
  fold_left (λ acc kv, <[kv.1 := kv.2]> acc) d acc !! k =
    match dict_get k d with Some v => Some v | None => acc !! k end.
Proof.
  unfold keys. revert acc. induction d as [|[k' v] d IH]; intros acc Hnd; [done|].
  simpl in Hnd. apply NoDup_cons in Hnd as [Hk' Hnd].
  simpl. rewrite IH by done. destruct (decide (k = k')) as [->|Hne].
  - apply dict_get_None_keys in Hk'. rewrite Hk'. by rewrite lookup_insert_eq.
  - by rewrite lookup_insert_ne.
Qed.

Lemma to_kwargs_lookup (d : odict Val) k :
  NoDup (keys d) → to_kwargs d !! k = dict_get k d.
Proof.
  intros Hnd. unfold to_kwargs. rewrite to_kwargs_lookup_acc by done.
  by destruct (dict_get k d).
Qed.

Lemma sources_of_upstream_part m : sources_of (upstream_part m) = sources_of m.
Proof.
  unfold sources_of, upstream_part, half.
  induction m as [|[p v] m IH]; [done|].
  cbn [omap list_omap]. destruct v; simpl; try apply IH.
  f_equal. apply IH.
Qed.

Lemma sources_of_elem m p s : (p, VUpstream s) ∈ m → s ∈ sources_of m.
Proof.
  intros Hin. unfold sources_of. apply list_elem_of_omap. by exists (p, VUpstream s).
Qed.

(** The renaming loop, on a list of references whose names are distinct
    and are no parameter of the list. *)
Lemma rename_loop (l : odict Val) (kw : kwargs) :
  Forall (λ pv, ∃ s, pv.2 = VUpstream s) l →
  NoDup (keys l) →
  NoDup (sources_of l) →
  (∀ s, s ∈ sources_of l → s ∉ keys l) →
  (∀ s, s ∈ sources_of l → is_Some (kw !! s)) →
  ∃ kw',
    for_each (λ (kwargs : kwargs) (kv : string * Val),
        src ← attr_source kv.2;
        popped ← pop kwargs src;
        Return (<[kv.1 := popped.1]> popped.2)) l kw = Return kw'
    ∧ ∀ k, kw' !! k =
        match dict_get k l with
        | Some (VUpstream s) => kw !! s
        | _ => if bool_decide (k ∈ sources_of l) then None else kw !! k
        end.
Proof.
  revert kw. induction l as [|[p v] l IH]; intros kw Hups Hnd Hsrc Hdisj Hsup.
  - by exists kw.
  - apply Forall_cons in Hups as [[s Hv] Hups]. simpl in Hv. subst v.
    unfold keys in Hnd. simpl in Hnd. apply NoDup_cons in Hnd as [Hp Hnd].
    change (sources_of ((p, VUpstream s) :: l)) with (s :: sources_of l) in *.
    apply NoDup_cons in Hsrc as [Hs Hsrc].
    destruct (Hsup s) as [x Hx]; [apply elem_of_cons; by left|].
    assert (∀ s', s' ∈ sources_of l → s' ≠ p ∧ s' ≠ s) as Hfresh.
    { intros s' Hs'. split.
      - intros ->. apply (Hdisj p); [apply elem_of_cons; by right|].
        unfold keys. simpl. apply elem_of_cons. by left.
      - intros ->. done. }
    destruct (IH (<[p := x]> (delete s kw))) as (kw' & Hloop & Hget); [done..| | |].
    { intros s' Hs' Hin. apply (Hdisj s'); [apply elem_of_cons; by right|].
      unfold keys. simpl. apply elem_of_cons. by right. }
    { intros s' Hs'. destruct (Hfresh s' Hs') as [Hp' Hs''].
      rewrite lookup_insert_ne, lookup_delete_ne by done.
      apply Hsup. apply elem_of_cons. by right. }
    exists kw'. split.
    { cbn [for_each]. simpl. unfold pop. rewrite Hx. simpl. exact Hloop. }
    intros k. rewrite Hget. simpl. destruct (decide (k = p)) as [->|Hkp].
    + apply dict_get_None_keys in Hp. rewrite Hp.
      rewrite bool_decide_eq_false_2.
      * by rewrite lookup_insert_eq.
      * intros Hin. by destruct (Hfresh p Hin).
    + destruct (dict_get k l) as [v|] eqn:Hk.
      * pose proof (dict_get_Some_elem _ _ _ Hk) as Hin.
        rewrite Forall_forall in Hups. destruct (Hups _ Hin) as [s' Hs'].
        simpl in Hs'. subst v. apply sources_of_elem in Hin.
        destruct (Hfresh s' Hin). by rewrite lookup_insert_ne, lookup_delete_ne.
      * rewrite lookup_insert_ne by done.
        destruct (decide (k = s)) as [->|Hks].
        -- rewrite lookup_delete_eq. rewrite (bool_decide_eq_true_2 (s ∈ s :: _)).
           ++ by destruct (bool_decide _).
           ++ apply elem_of_cons. by left.
        -- rewrite lookup_delete_ne by done.
           destruct (decide (k ∈ sources_of l)) as [Hin|Hin].
           ++ rewrite !bool_decide_eq_true_2; [done| |done].
              apply elem_of_cons. by right.
           ++ rewrite !bool_decide_eq_false_2; [done| |done].
              rewrite not_elem_of_cons. done.
Qed.

(** The loop that injects the literals. *)
Lemma inject_loop (l : odict Val) (kw : kwargs) :
  Forall (λ pv, ∃ x, pv.2 = VLiteral x) l →
  NoDup (keys l) →
  ∃ kw',
    for_each (λ (kwargs : kwargs) (kv : string * Val),
        v ← attr_value kv.2;
        Return (<[kv.1 := v]> kwargs)) l kw = Return kw'
    ∧ ∀ k, kw' !! k =
        match dict_get k l with
        | Some (VLiteral x) => Some x
        | _ => kw !! k
        end.
Proof.
  revert kw. induction l as [|[q v] l IH]; intros kw Hlit Hnd.
  - by exists kw.
  - apply Forall_cons in Hlit as [[x Hv] Hlit]. simpl in Hv. subst v.
    unfold keys in Hnd. simpl in Hnd. apply NoDup_cons in Hnd as [Hq Hnd].
    destruct (IH (<[q := x]> kw)) as (kw' & Hloop & Hget); [done..|].
    exists kw'. split; [exact Hloop|].
    intros k. rewrite Hget. simpl. destruct (decide (k = q)) as [->|Hkq].
    + apply dict_get_None_keys in Hq. rewrite Hq. by rewrite lookup_insert_eq.
    + destruct (dict_get k l) as [[]|]; try done; by rewrite lookup_insert_ne.
Qed.

Lemma half_elem g m p v : (p, v) ∈ half g m → ∃ w, (p, w) ∈ m ∧ g w = Some v.
Proof.
  unfold half. intros Hin. apply list_elem_of_omap in Hin as [[q w] [Hq Hg]].
  simpl in Hg. destruct (g w) as [v'|] eqn:Hgw; simpl in Hg; [|done].
  injection Hg as <- <-. by exists w.
Qed.

(** The round trip of the specification, where it holds: when the
    referenced names are distinct, none of them names a reference-bound
    parameter, and all of them are supplied, the callable of the produced
    node calls the original callable with the keywords of the direct
    call. *)
Lemma parameterized_callable_direct (f : Callable) m args (supplied : kwargs) :
  NoDup (keys m) →
  Forall (λ pv, is_dependency pv.2 = true) m →
  NoDup (sources_of m) →
  (∀ s, s ∈ sources_of m → s ∉ keys (upstream_part m)) →
  (∀ s, s ∈ sources_of m → is_Some (supplied !! s)) →
  partial (replacement_function f (upstream_part m) (literal_part m))
          ((λ kv, (kv.1, match kv.2 with VLiteral v => v | _ => VNone end))
             <$> literal_part m) args supplied
  = f args (direct_kwargs m supplied).
Proof.
  intros Hnd Hdeps Hsrc Hdisj Hsup. unfold partial, replacement_function.
  set (keywords := (λ kv : string * Val, _) <$> literal_part m).
  destruct (rename_loop (upstream_part m) (supplied ∪ to_kwargs keywords))
    as (kw1 & Hloop1 & Hget1).
  { apply Forall_forall. intros [p v] Hin. apply half_elem in Hin as (w & _ & Hw).
    destruct w; simpl in Hw; try done. injection Hw as <-. by eexists. }
  { by apply half_NoDup. }
  { by rewrite sources_of_upstream_part. }
  { rewrite sources_of_upstream_part. exact Hdisj. }
  { rewrite sources_of_upstream_part. intros s Hs.
    destruct (Hsup s Hs) as [x Hx]. exists x.
    rewrite lookup_union_l'; [done | by eexists]. }
  destruct (inject_loop (literal_part m) kw1) as (kw2 & Hloop2 & Hget2).
  { apply Forall_forall. intros [p v] Hin. apply half_elem in Hin as (w & _ & Hw).
    destruct w; simpl in Hw; try done. injection Hw as <-. by eexists. }
  { by apply half_NoDup. }
  rewrite Hloop1. simpl. rewrite Hloop2. simpl. f_equal.
  apply map_eq. intros k. rewrite Hget2, Hget1.
  rewrite sources_of_upstream_part.
  unfold literal_part, upstream_part, direct_kwargs.
  rewrite !dict_get_half by done.
  rewrite (lookup_union (list_to_map _)), list_to_map_dict_get, dict_get_half by done.
  rewrite map_lookup_filter.
  destruct (dict_get k m) as [v|] eqn:Hk; simpl.
  - apply dict_get_Some_elem in Hk. rewrite Forall_forall in Hdeps.
    pose proof (Hdeps _ Hk) as Hv.
    destruct v as [| | | | | | |lit|src]; simpl in Hv; try done; simpl.
    + by destruct (_ ≫= _).
    + destruct (Hsup src) as [x Hx]; [by eapply sources_of_elem|].
      rewrite lookup_union_l' by (by eexists). rewrite Hx. simpl.
      by destruct (_ ≫= _).
  - assert (to_kwargs keywords !! k = None) as Hkw.
    { destruct (to_kwargs keywords !! k) as [x|] eqn:Hx; [|done].
      exfalso. apply dict_get_None_keys in Hk. apply Hk.
      apply (keys_half as_literal).
      assert (keys keywords = keys (literal_part m)) as Hkeys.
      { unfold keywords, keys. rewrite <- list_fmap_compose. done. }
      rewrite to_kwargs_lookup in Hx.
      - unfold literal_part in Hkeys. rewrite <- Hkeys.
        destruct (decide (k ∈ keys keywords)) as [|Hn]; [done|].
        apply dict_get_None_keys in Hn. congruence.
      - rewrite Hkeys. by apply half_NoDup. }
    rewrite (lookup_union_l _ _ _ Hkw).
    destruct (decide (k ∈ sources_of m)) as [Hin|Hin].
    + rewrite bool_decide_eq_true_2 by done.
      destruct (supplied !! k); simpl; [|done].
      rewrite option_guard_False; [done | by intros Hn; apply Hn].
    + rewrite bool_decide_eq_false_2 by done.
      destruct (supplied !! k); simpl; [|done].
      by rewrite option_guard_True.
Qed.

End replacement.

(** ** The round trip for a node produced by [expand_node] *)

Section round_trip.
Context `{Builtins}.
Import parameterize spec.

(** For the node that [expand_node] builds for one output: when the
    referenced names of its mapping are distinct, name no reference-bound
    parameter and are all supplied, calling the node is calling the base
    callable with the keywords of the direct call. *)
Lemma parameterized_node_round_trip self node_ fn output_node m docstring args
    (supplied : kwargs) :
  format_doc_string self (fn_doc fn) output_node = Return docstring →
  NoDup (keys m) →
  Forall (λ pv, is_dependency pv.2 = true) m →
  NoDup (sources_of m) →
  (∀ s, s ∈ sources_of m → s ∉ keys (upstream_part m)) →
  (∀ s, s ∈ sources_of m → is_Some (supplied !! s)) →
  ∃ nd,
    expand_one self node_ fn output_node m = Return nd
    ∧ node.callable nd args supplied
      = node.callable node_ args (direct_kwargs m supplied).
Proof.
  intros Hdoc Hnd Hdeps Hsrc Hdisj Hsup.
  destruct (expand_one_Return self node_ fn output_node m docstring Hdoc Hnd Hdeps)
    as (nd & Hone & _ & _ & _ & _ & Hcall & _).
  exists nd. split; [done|]. rewrite Hcall.
  by apply parameterized_callable_direct.
Qed.

End round_trip.

(** ** Filling declared columns *)

Section fill.
Context `{Builtins} `{Registry}.

Lemma contains_app (df : DataFrame) added label :
  contains df label = true →
  contains (mkDataFrame (nrows df) (data df ++ added)) label = true.
Proof.
  unfold contains, registry.columns. rewrite !bool_decide_eq_true. simpl.
  rewrite fmap_app, elem_of_app. by left.
Qed.

Lemma fill_with_scalar_absent (df : DataFrame) label fill :
  contains df label = false →
  registry.fill_with_scalar df label fill
  = mkDataFrame (nrows df) (data df ++ [(label, replicate (nrows df) fill)]).
Proof. intros Habs. unfold registry.fill_with_scalar. by rewrite Habs. Qed.

(** The fill loop appends, for each declared label that is missing, one
    column holding the fill value in every row, and leaves the columns
    of the produced table as they are. The label is the declaration as
    a whole: the name for a bare name, the pair for a pair. *)
Lemma fill_loop (fill : Val) (cols : list extract_columns.ColumnDecl) (df : DataFrame) :
  ∃ added,
    for_each (λ df_generated col,
        df ← as_table df_generated;
        if contains df (extract_columns.label_of col) then Return df_generated
        else
          let df' := registry.fill_with_scalar df (extract_columns.label_of col) fill in
          if contains df' (extract_columns.label_of col) then Return (VDataFrame df')
          else Raise AssertionError) cols (VDataFrame df)
    = Return (VDataFrame (mkDataFrame (nrows df) (data df ++ added)))
    ∧ Forall (λ c, c.2 = replicate (nrows df) fill ∧ contains df c.1 = false) added
    ∧ Forall (λ col, contains (mkDataFrame (nrows df) (data df ++ added))
                       (extract_columns.label_of col) = true) cols.
Proof.
  revert df. induction cols as [|col cols IH]; intros df.
  - exists []. rewrite app_nil_r. by destruct df.
  - cbn [for_each]. simpl.
    destruct (contains df (extract_columns.label_of col)) eqn:Hc.
    + destruct (IH df) as (added & Hloop & Hadded & Hall).
      exists added. split; [done|]. split; [done|].
      constructor; [by apply contains_app | done].
    + rewrite fill_with_scalar_absent by done.
      set (column := (extract_columns.label_of col, replicate (nrows df) fill)).
      assert (contains (mkDataFrame (nrows df) (data df ++ [column]))
                (extract_columns.label_of col) = true) as Hnow.
      { unfold contains, registry.columns. apply bool_decide_eq_true. simpl.
        rewrite fmap_app, elem_of_app. right. apply list_elem_of_here. }
      rewrite Hnow.
      destruct (IH (mkDataFrame (nrows df) (data df ++ [column])))
        as (added & Hloop & Hadded & Hall).
      simpl in *. rewrite <- app_assoc in *.
      exists (column :: added). split; [done|]. split.
      * constructor; [done|]. eapply Forall_impl; [exact Hadded|].
        intros c [Hfill Habs]. split; [done|].
        destruct (contains df c.1) eqn:Hdf; [|done].
        by rewrite (contains_app df [column]) in Habs.
      * constructor; [|done].
        change (data df ++ column :: added) with (data df ++ [column] ++ added).
        rewrite app_assoc.
        by apply (contains_app (mkDataFrame (nrows df) (data df ++ [column]))).
Qed.

(** With a fill value, the container callable returns the produced
    table followed by the appended columns. *)
Lemma df_generator_fills (self : extract_columns.t) (fn : Callable) args kw (df : DataFrame) :
  extract_columns.fill_with self ≠ VNone →
  fn args kw = Return (VDataFrame df) →
  ∃ added,
    extract_columns.df_generator self fn args kw
    = Return (VDataFrame (mkDataFrame (nrows df) (data df ++ added)))
    ∧ Forall (λ c, c.2 = replicate (nrows df) (extract_columns.fill_with self)
                   ∧ contains df c.1 = false) added
    ∧ Forall (λ col, contains (mkDataFrame (nrows df) (data df ++ added))
                       (extract_columns.label_of col) = true)
             (extract_columns.columns self).
Proof.
  intros Hfill Hfn. unfold extract_columns.df_generator. rewrite Hfn. simpl.
  destruct (extract_columns.fill_with self) eqn:Hf; [done|..]; apply fill_loop.
Qed.

(** The same for fields: a declared field that is missing gets the fill
    value, and the entries of the produced dictionary stay. *)
Lemma fields_fill_loop (fill : Val) (fields : odict PyType) (d : odict Val) :
  ∃ d',
    for_each (λ dict_generated (field : string * PyType),
        d ← as_dict dict_generated;
        if dict_in field.1 d then Return dict_generated
        else Return (VDict (dict_set field.1 fill d))) fields (VDict d)
    = Return (VDict d')
    ∧ ∀ k, dict_get k d' =
        match dict_get k d with
        | Some v => Some v
        | None => if bool_decide (k ∈ keys fields) then Some fill else None
        end.
Proof.
  revert d. induction fields as [|[f ty] fields IH]; intros d.
  - exists d. split; [done|]. intros k. by destruct (dict_get k d).
  - cbn [for_each]. simpl. destruct (dict_in f d) eqn:Hf.
    + destruct (IH d) as (d' & Hloop & Hget). exists d'. split; [done|].
      intros k. rewrite Hget. destruct (dict_get k d) as [v|] eqn:Hk; [done|].
      assert (k ≠ f) as Hne.
      { intros ->. apply dict_in_true in Hf. by apply dict_get_None_keys in Hk. }
      unfold keys. simpl. f_equal. rewrite (bool_decide_ext (k ∈ f :: fields.*1) (k ∈ fields.*1)); [done|].
      rewrite elem_of_cons. split; [by intros [?|?] | by right].
    + destruct (IH (dict_set f fill d)) as (d' & Hloop & Hget). exists d'.
      split; [done|]. intros k. rewrite Hget.
      apply dict_in_false in Hf. destruct (decide (k = f)) as [->|Hne].
      * rewrite dict_get_set_eq, Hf. unfold keys. simpl.
        rewrite bool_decide_eq_true_2; [done | apply list_elem_of_here].
      * rewrite dict_get_set_ne by done. destruct (dict_get k d); [done|].
        unfold keys. simpl. rewrite (bool_decide_ext (k ∈ f :: fields.*1) (k ∈ fields.*1)); [done|].
        rewrite elem_of_cons. split; [by intros [?|?] | by right].
Qed.

Lemma dict_generator_fills (self : extract_fields.t) (fn : Callable) args kw (d : odict Val) :
  extract_fields.fill_with self ≠ VNone →
  fn args kw = Return (VDict d) →
  ∃ d',
    extract_fields.dict_generator self fn args kw = Return (VDict d')
    ∧ ∀ k, dict_get k d' =
        match dict_get k d with
        | Some v => Some v
        | None => if bool_decide (k ∈ keys (extract_fields.fields self))
                  then Some (extract_fields.fill_with self) else None
        end.
Proof.
  intros Hfill Hfn. unfold extract_fields.dict_generator. rewrite Hfn. simpl.
  destruct (extract_fields.fill_with self) eqn:Hf; [done|..]; apply fields_fill_loop.
Qed.

End fill.

(** ** More on loops and dictionaries *)

Section more_facts.

Lemma for_each_app {A S} (step : S → A → Exc S) (l1 l2 : list A) acc :
  for_each step (l1 ++ l2) acc = for_each step l1 acc ≫= for_each step l2.
Proof.
  revert acc. induction l1 as [|x l1 IH]; intros acc; [done|].
  simpl. destruct (step acc x) as [acc'|err]; simpl; [apply IH | done].
Qed.

Lemma for_each_unit_ok {A B} (f : A → Exc B) (l : list A) :
  Forall (λ x, ∃ y, f x = Return y) l →
  for_each (λ (_ : ()) x, _ ← f x; Return ()) l () = Return ().
Proof.
  induction 1 as [|x l [y Hy] _ IH]; [done|]. simpl. by rewrite Hy.
Qed.

Lemma comprehension_Raise_elem {A B} (f : A → Exc B) (l : list A) x e :
  x ∈ l → f x = Raise e → ∃ e', comprehension f l = Raise e'.
Proof.
  intros Hin Hx. induction l as [|y l IH]; [by apply elem_of_nil in Hin|].
  simpl. destruct (f y) as [b|err] eqn:Hy; simpl; [|by eexists].
  apply elem_of_cons in Hin as [->|Hin]; [congruence|].
  destruct (IH Hin) as [e' He']. rewrite He'. by eexists.
Qed.

Lemma comprehension_Forall2 {A B} (f : A → Exc B) (l : list A) ys :
  comprehension f l = Return ys → Forall2 (λ y x, f x = Return y) ys l.
Proof.
  revert ys. induction l as [|x l IH]; intros ys; simpl.
  - intros [= <-]. constructor.
  - destruct (f x) as [y|err] eqn:Hx; simpl; [|done].
    destruct (comprehension f l) as [ys'|err]; simpl; [|done].
    intros [= <-]. constructor; [done | by apply IH].
Qed.

Lemma dict_get_app {V} (a b : odict V) k :
  dict_get k (a ++ b)
  = match dict_get k a with Some v => Some v | None => dict_get k b end.
Proof.
  induction a as [|[k' v] a IH]; [done|]. simpl.
  by destruct (decide (k = k')).
Qed.

Lemma remove_dups_nil {A} `{EqDecision A} (l : list A) : remove_dups l = [] → l = [].
Proof.
  destruct l as [|x l]; [done|]. intros Hnil. exfalso.
  assert (x ∈ remove_dups (x :: l)) as Hin
    by (apply elem_of_remove_dups, list_elem_of_here).
  rewrite Hnil in Hin. by apply elem_of_nil in Hin.
Qed.

Lemma filter_nil_Forall {A} (f : A → bool) (l : list A) :
  List.filter f l = [] ↔ Forall (λ x, f x = false) l.
Proof.
  induction l as [|x l IH]; simpl.
  - split; [constructor | done].
  - destruct (f x) eqn:Hx.
    + split; [done|]. intros Hall. apply Forall_cons in Hall as [? _]. congruence.
    + rewrite IH. split; [by constructor | by intros [_ ?]%Forall_cons].
Qed.

End more_facts.

(** ** What the constructor and [validate] of [parameterize] accept *)

Section parameterize_acceptance.
Context `{Builtins}.
Import parameterize spec.

Lemma bad_values_of_deps parametrization :
  Forall (λ kv, Forall (λ pv, is_dependency pv.2 = true) kv.2) parametrization →
  bad_values_of parametrization = [].
Proof.
  induction 1 as [|[output m] l Hm _ IH]; [done|].
  unfold bad_values_of in *. simpl in *. rewrite IH, app_nil_r.
  induction Hm as [|[p v] m' Hv _ IHm]; [done|].
  simpl in *. by rewrite Hv.
Qed.

Lemma specified_docstrings_get (kw : odict Assignment) output :
  NoDup (keys kw) →
  dict_get output
    (omap (λ kv : string * Assignment,
             match kv.2 with
             | WithDocstring _ d => Some (kv.1, d)
             | Assignments _ => None
             end) kw)
  = match dict_get output kw with
    | Some (WithDocstring _ d) => Some d
    | _ => None
    end.
Proof.
  unfold keys. induction kw as [|[k a] kw IH]; intros Hnd; [done|].
  simpl in Hnd. apply NoDup_cons in Hnd as [Hk Hnd].
  cbn [omap list_omap]. simpl. destruct (decide (output = k)) as [->|Hne].
  - destruct a as [m|m d]; simpl.
    + rewrite IH by done. apply dict_get_None_keys in Hk. by rewrite Hk.
    + by rewrite decide_True.
  - destruct a as [m|m d]; simpl; [by apply IH|].
    rewrite decide_False by done. by apply IH.
Qed.


Lemma init_of_deps kw :
  "self" ∉ keys kw →
  Forall (λ kv, Forall (λ pv, is_dependency pv.2 = true) (mapping_of kv.2)) kw →
  ∃ self, __init__ kw = Return self.
Proof.
  intros Hself Hdeps. unfold __init__. rewrite not_named_self by done.
  rewrite bad_values_of_deps; [by eexists|]. by rewrite Forall_fmap.
Qed.



Lemma missing_parameters_nil self func_param_names :
  missing_parameters self func_param_names = []
  ↔ Forall (λ kv, Forall (λ p, p ∈ func_param_names) (keys kv.2)) (parametrization self).
Proof.
  unfold missing_parameters. split.
  - intros Hnil. apply remove_dups_nil, filter_nil_Forall in Hnil.
    rewrite Forall_forall in Hnil.
    apply Forall_forall. intros kv Hkv. apply Forall_forall. intros p Hp.
    assert (p ∈ flat_map (λ kv : string * odict Val, keys kv.2) (parametrization self)) as Hin.
    { apply list_elem_of_In, in_flat_map. exists kv. by rewrite <- !list_elem_of_In. }
    specialize (Hnil p Hin). apply negb_false_iff, bool_decide_eq_true in Hnil. done.
  - intros Hall.
    assert (List.filter (λ p, negb (bool_decide (p ∈ func_param_names)))
              (flat_map (λ kv : string * odict Val, keys kv.2) (parametrization self)) = [])
      as ->; [|done].
    apply filter_nil_Forall, Forall_forall. intros p Hp.
    apply list_elem_of_In, in_flat_map in Hp as [kv [Hkv Hp]].
    rewrite <- !list_elem_of_In in *. rewrite Forall_forall in Hall.
    specialize (Hall kv Hkv). rewrite Forall_forall in Hall.
    apply negb_false_iff, bool_decide_eq_true. by apply Hall.
Qed.

(** X2. [validate] of [parameterize] returns exactly when the docstring
    formats for every declared output, the function has no parameter
    named [output_name], and every parameter named by some mapping is a
    parameter of the function. When the docstrings format, the only
    exception it raises is [InvalidDecoratorException]. *)
Theorem parameterize_validate_accepts self fn :
  (validate self fn = Return ()
   ↔ (Forall (λ kv, ∃ d, format_doc_string self (fn_doc fn) kv.1 = Return d)
             (parametrization self)
      ∧ (RESERVED_KWARG ∉ fn_params fn)
      ∧ Forall (λ kv, Forall (λ p, p ∈ fn_params fn) (keys kv.2))
               (parametrization self)))
  ∧ ∀ e,
      validate self fn = Raise e →
      Forall (λ kv, ∃ d, format_doc_string self (fn_doc fn) kv.1 = Return d)
             (parametrization self) →
      class_of e = "InvalidDecoratorException".
Proof.
  split; [split|].
  - intros Hval. split; [by apply validate_Return|].
    unfold validate in Hval.
    destruct (for_each _ (parametrization self) ()) as [[]|err]; [|by destruct err].
    destruct (bool_decide (RESERVED_KWARG ∈ fn_params fn)) eqn:Hres; [done|].
    apply bool_decide_eq_false in Hres. split; [done|].
    apply missing_parameters_nil.
    by destruct (missing_parameters self (fn_params fn)).
  - intros (Hdocs & Hres & Hpars). unfold validate.
    rewrite for_each_unit_ok by done.
    rewrite bool_decide_eq_false_2 by done.
    apply missing_parameters_nil in Hpars. by rewrite Hpars.
  - intros e Hval Hdocs. unfold validate in Hval.
    rewrite for_each_unit_ok in Hval by done.
    destruct (bool_decide (RESERVED_KWARG ∈ fn_params fn)); [by injection Hval as <-|].
    destruct (missing_parameters self (fn_params fn)); [done|]. by injection Hval as <-.
Qed.

End parameterize_acceptance.

(** ** Exceptions of the docstring templating that [validate] lets through *)

Section validate_errors.
Context `{Builtins}.
Import parameterize spec.

Lemma reserved_merged m :
  NoDup (keys m) →
  Forall (λ pv, is_dependency pv.2 = true) m →
  RESERVED_KWARG ∈ keys m →
  dict_in RESERVED_KWARG (dict_update (upstream_names m) (literal_values m)) = true.
Proof.
  intros Hnd Hdeps Hres. apply dict_in_true, keys_is_Some.
  rewrite dict_update_get by (by apply half_NoDup).
  unfold literal_values, upstream_names. rewrite !dict_get_half by done.
  apply keys_is_Some in Hres as [v Hv]. rewrite Hv. simpl.
  apply dict_get_Some_elem in Hv. rewrite Forall_forall in Hdeps.
  specialize (Hdeps _ Hv). destruct v; simpl in *; try done; by eexists.
Qed.

Lemma format_doc_string_reserved self output_name m template :
  dict_get output_name (specified_docstrings self) = None →
  dict_get output_name (parametrization self) = Some m →
  NoDup (keys m) →
  Forall (λ pv, is_dependency pv.2 = true) m →
  RESERVED_KWARG ∈ keys m →
  format_doc_string self (VStr template) output_name
  = Raise (TypeError "got multiple values for keyword argument 'output_name'").
Proof.
  intros Hdoc Hm Hnd Hdeps Hres. unfold format_doc_string.
  rewrite Hdoc, Hm. simpl.
  rewrite select_upstream_names, select_literal_values by done. simpl.
  by rewrite reserved_merged.
Qed.

(** The loop of [validate] stops at the first output whose docstring
    does not format. *)
Lemma validate_loop_raises self doc before output m after e :
  parametrization self = before ++ (output, m) :: after →
  Forall (λ kv, ∃ d, format_doc_string self doc kv.1 = Return d) before →
  format_doc_string self doc output = Raise e →
  for_each (λ (_ : ()) (kv : string * odict Val),
      _ ← format_doc_string self doc kv.1; Return ()) (parametrization self) ()
  = Raise e.
Proof.
  intros -> Hbefore Hout. rewrite for_each_app, for_each_unit_ok by done.
  simpl. by rewrite Hout.
Qed.

(** X3. When a mapping binds a parameter named [output_name] and the
    function has a docstring to format for that output, [validate]
    raises [TypeError], out of the call that builds the lookup for
    [format_map]: the test on the reserved name further down, which
    would raise [InvalidDecoratorException], is not reached. *)
Theorem validate_bound_output_name_raises_TypeError
    self fn template before output m after :
  fn_doc fn = VStr template →
  parametrization self = before ++ (output, m) :: after →
  output ∉ keys before →
  Forall (λ kv, ∃ d, format_doc_string self (VStr template) kv.1 = Return d) before →
  dict_get output (specified_docstrings self) = None →
  NoDup (keys m) →
  Forall (λ pv, is_dependency pv.2 = true) m →
  RESERVED_KWARG ∈ keys m →
  ∃ msg, validate self fn = Raise (TypeError msg).
Proof.
  intros Hdoc Hpar Hfresh Hbefore Hnone Hnd Hdeps Hres.
  assert (dict_get output (parametrization self) = Some m) as Hm.
  { rewrite Hpar, dict_get_app. apply dict_get_None_keys in Hfresh.
    rewrite Hfresh. simpl. by rewrite decide_True. }
  pose proof (format_doc_string_reserved self output m template Hnone Hm Hnd Hdeps Hres)
    as Hraise.
  eexists. unfold validate. rewrite Hdoc.
  by rewrite (validate_loop_raises self _ before output m after _ Hpar Hbefore Hraise).
Qed.

Lemma format_scan_lone_close (getitem : string → string) text rest :
  brace_free text = true →
  (∀ rest', rest ≠ String "}" rest') →
  format_scan getitem None (text +:+ String "}" rest)
  = Raise (ValueError "Single '}' encountered in format string").
Proof.
  intros Hbf Hrest. rewrite format_scan_text by done.
  cbn [format_scan]. rewrite decide_False by done. rewrite decide_True by done.
  destruct rest as [|c2 rest']; [done|].
  destruct (decide (c2 = "}"%char)) as [->|Hne]; [by destruct (Hrest rest') | done].
Qed.

Lemma for_each_unit_first_raise {A B} (f : A → Exc B) (l : list A) e :
  Forall (λ x, (∃ y, f x = Return y) ∨ f x = Raise e) l →
  Exists (λ x, f x = Raise e) l →
  for_each (λ (_ : ()) x, _ ← f x; Return ()) l () = Raise e.
Proof.
  induction 1 as [|x l Hx _ IH]; intros Hex; [by apply Exists_nil in Hex|].
  simpl. destruct Hx as [[y Hy]|Hx]; [|by rewrite Hx].
  rewrite Hy. simpl. apply IH. apply Exists_cons in Hex as [Hex|Hex]; [congruence | done].
Qed.

(** X4. A docstring whose first brace is a closing brace that is not
    doubled makes [validate] raise the [ValueError] of [format_map] as
    it is, as soon as one output has no docstring of its own: [validate]
    converts only [KeyError] into [InvalidDecoratorException]. *)
Theorem validate_stray_brace_raises_ValueError self fn text rest output :
  fn_doc fn = VStr (text +:+ String "}" rest) →
  brace_free text = true →
  (∀ rest', rest ≠ String "}" rest') →
  NoDup (keys (parametrization self)) →
  Forall (λ kv, NoDup (keys kv.2)
                ∧ Forall (λ pv, is_dependency pv.2 = true) kv.2
                ∧ RESERVED_KWARG ∉ keys kv.2) (parametrization self) →
  output ∈ keys (parametrization self) →
  dict_get output (specified_docstrings self) = None →
  validate self fn = Raise (ValueError "Single '}' encountered in format string").
Proof.
  intros Hdoc Hbf Hrest Hnd Hall Hout Hnone.
  assert (∀ o m, (o, m) ∈ parametrization self →
            dict_get o (specified_docstrings self) = None →
            format_doc_string self (fn_doc fn) o
            = Raise (ValueError "Single '}' encountered in format string")) as Hraise.
  { intros o m Hin Ho. rewrite Forall_forall in Hall.
    destruct (Hall _ Hin) as (Hndm & Hdeps & Hres). simpl in *.
    rewrite Hdoc, (format_doc_string_format_map _ _ m); [|done|by apply dict_get_Some_NoDup|done..].
    unfold format_map. by rewrite format_scan_lone_close. }
  unfold validate.
  rewrite (for_each_unit_first_raise
             (λ kv : string * odict Val, format_doc_string self (fn_doc fn) kv.1) _
             (ValueError "Single '}' encountered in format string")); [done| |].
  - apply Forall_forall. intros [o m] Hin. simpl.
    destruct (dict_get o (specified_docstrings self)) as [d|] eqn:Ho.
    + left. exists d. unfold format_doc_string. by rewrite Ho.
    + right. by apply (Hraise o m).
  - apply Exists_exists. unfold keys in Hout.
    apply list_elem_of_fmap in Hout as [[o m] [-> Hin]].
    exists (o, m). split; [done|]. by apply (Hraise o m).
Qed.

End validate_errors.

(** ** The nodes of [parameterize], output by output *)

Section parameterize_nodes.
Context `{Builtins}.
Import parameterize spec.

(** What holds of every iteration of the loop of [expand_node] holds of
    the nodes it returns, in the order of the outputs. *)
Lemma expand_node_Forall2_docs kw self node_ fn
    (P : node.Node → string * Assignment → Prop) :
  __init__ kw = Return self →
  Forall (λ kv, NoDup (keys (mapping_of kv.2))) kw →
  Forall (λ kv, ∃ d, format_doc_string self (fn_doc fn) kv.1 = Return d)
         (parametrization self) →
  (∀ output a docstring nd,
     (output, a) ∈ kw →
     Forall (λ pv, is_dependency pv.2 = true) (mapping_of a) →
     format_doc_string self (fn_doc fn) output = Return docstring →
     expand_one self node_ fn output (mapping_of a) = Return nd →
     P nd (output, a)) →
  ∃ nodes, expand_node self node_ fn = Return nodes ∧ Forall2 P nodes kw.
Proof.
  intros Hinit Hnd Hval HP.
  apply init_Return in Hinit as [Hpar Hdeps].
  unfold expand_node. rewrite Hpar in *. clear Hpar.
  induction kw as [|[output a] kw IH].
  - exists []. split; [done | constructor].
  - cbn [map] in *. apply Forall_cons in Hnd as [Hnd1 Hnd].
    apply Forall_cons in Hdeps as [Hdeps1 Hdeps].
    apply Forall_cons in Hval as [[docstring Hdoc] Hval].
    destruct IH as (nodes & Hnodes & Hall); [done..| |].
    { intros o b d nd Hin. apply HP. apply elem_of_cons. by right. }
    destruct (expand_one_Return self node_ fn output (mapping_of a) docstring
                Hdoc Hnd1 Hdeps1) as (nd & Hone & _).
    exists (nd :: nodes). split.
    + cbn [comprehension]. simpl. rewrite Hone. simpl. by rewrite Hnodes.
    + constructor; [|done].
      apply (HP output a docstring); [apply list_elem_of_here | done..].
Qed.

Lemma expand_node_Forall2 kw self node_ fn (P : node.Node → string * Assignment → Prop) :
  __init__ kw = Return self →
  Forall (λ kv, NoDup (keys (mapping_of kv.2))) kw →
  validate self fn = Return () →
  (∀ output a docstring nd,
     (output, a) ∈ kw →
     Forall (λ pv, is_dependency pv.2 = true) (mapping_of a) →
     format_doc_string self (fn_doc fn) output = Return docstring →
     expand_one self node_ fn output (mapping_of a) = Return nd →
     P nd (output, a)) →
  ∃ nodes, expand_node self node_ fn = Return nodes ∧ Forall2 P nodes kw.
Proof.
  intros Hinit Hnd Hval. apply expand_node_Forall2_docs; [done..|].
  by apply validate_Return.
Qed.

Lemma init_stores kw self :
  __init__ kw = Return self →
  self = mk (map (λ kv, (kv.1, mapping_of kv.2)) kw)
            (omap (λ kv : string * Assignment,
                     match kv.2 with
                     | WithDocstring _ d => Some (kv.1, d)
                     | Assignments _ => None
                     end) kw).
Proof.
  unfold __init__. destruct (dict_in "self" kw); [done|].
  destruct (bad_values_of _); [|done]. by intros [= <-].
Qed.

(** X5. The documentation of the produced nodes: an output given with a
    docstring of its own gets that docstring as it is, whatever the
    docstring of the function, and an output without one gets no
    documentation when the function has none. *)
Theorem parameterize_node_documentation kw self node_ fn :
  __init__ kw = Return self →
  NoDup (keys kw) →
  Forall (λ kv, NoDup (keys (mapping_of kv.2))) kw →
  validate self fn = Return () →
  ∃ nodes,
    expand_node self node_ fn = Return nodes
    ∧ Forall2 (λ nd kv,
        match kv.2 with
        | WithDocstring _ d => node.documentation nd = d
        | Assignments _ => fn_doc fn = VNone → node.documentation nd = VNone
        end) nodes kw.
Proof.
  intros Hinit Hkw Hnd Hval.
  apply (expand_node_Forall2 kw self node_ fn); [done..|].
  intros output a docstring nd Hin Hdeps Hdoc Hone.
  destruct (expand_one_Return self node_ fn output (mapping_of a) docstring Hdoc)
    as (nd' & Hone' & _ & _ & Hdocumentation & _); [|done|].
  { rewrite Forall_forall in Hnd. apply (Hnd _ Hin). }
  assert (nd' = nd) as -> by congruence.
  rewrite Hdocumentation. clear Hone Hone' Hdocumentation.
  pose proof (dict_get_Some_NoDup _ _ _ Hkw Hin) as Hget.
  apply init_stores in Hinit. subst self. unfold format_doc_string in Hdoc.
  simpl in Hdoc. rewrite specified_docstrings_get, Hget in Hdoc by done.
  destruct a as [m|m d]; simpl.
  - intros Hnone. rewrite Hnone in Hdoc. by injection Hdoc as <-.
  - by injection Hdoc as <-.
Qed.

Lemma dict_set_fresh {V} (d : odict V) k v : k ∉ keys d → dict_set k v d = d ++ [(k, v)].
Proof.
  unfold keys. induction d as [|[k' v'] d IH]; intros Hk; [done|].
  simpl in *. apply not_elem_of_cons in Hk as [Hne Hk].
  rewrite decide_False by done. by rewrite IH.
Qed.

Lemma new_input_types_untouched (input_types acc : odict PyType) :
  NoDup (keys (acc ++ input_types)) →
  for_each (λ new_input_types (kv : string * PyType),
      match dict_get kv.1 (@nil (string * Val)) with
      | Some dep =>
          src ← attr_source dep;
          Return (dict_set src kv.2 new_input_types)
      | None =>
          if dict_in kv.1 (@nil (string * Val))
          then Return new_input_types
          else Return (dict_set kv.1 kv.2 new_input_types)
      end) input_types acc
  = Return (acc ++ input_types).
Proof.
  revert acc. induction input_types as [|[p ty] its IH]; intros acc Hnd.
  - by rewrite app_nil_r.
  - cbn [for_each]. simpl.
    change (acc ++ (p, ty) :: its) with (acc ++ [(p, ty)] ++ its) in *.
    rewrite app_assoc in *. rewrite dict_set_fresh.
    + by apply IH.
    + unfold keys in *. rewrite !fmap_app in Hnd.
      apply NoDup_app in Hnd as [Hnd _]. apply NoDup_app in Hnd as (_ & Hdisj & _).
      intros Hin. apply (Hdisj p Hin). apply list_elem_of_here.
Qed.

(** X6. An output whose mapping is empty duplicates the expanded node
    under the new name: the same inputs with the same types in the same
    order, and a callable that passes the call on as it is. Here and
    below the keywords of a call are none of [closure_keywords]. *)
Theorem parameterize_empty_mapping_duplicates kw self node_ fn :
  __init__ kw = Return self →
  Forall (λ kv, NoDup (keys (mapping_of kv.2))) kw →
  NoDup (keys (node.input_types node_)) →
  validate self fn = Return () →
  ∃ nodes,
    expand_node self node_ fn = Return nodes
    ∧ Forall2 (λ nd kv,
        mapping_of kv.2 = [] →
        node.name nd = kv.1
        ∧ node.input_types nd = node.input_types node_
        ∧ ∀ args (supplied : kwargs),
            (∀ k, k ∈ closure_keywords → supplied !! k = None) →
            node.callable nd args supplied = node.callable node_ args supplied)
      nodes kw.
Proof.
  intros Hinit Hnd Hbase Hval.
  apply (expand_node_Forall2 kw self node_ fn); [done..|].
  intros output a docstring nd Hin Hdeps Hdoc Hone Hempty. simpl in *.
  rewrite Hempty in Hone. unfold expand_one in Hone. rewrite Hdoc in Hone.
  simpl in Hone. unfold new_input_types_of in Hone.
  rewrite (new_input_types_untouched _ []) in Hone by done.
  simpl in Hone. injection Hone as <-. simpl. split; [done|]. split; [done|].
  intros args supplied _. unfold partial, replacement_function. simpl.
  unfold to_kwargs. simpl. by rewrite (right_id_L ∅ (∪)).
Qed.

(** X7. The round trip through the nodes of [expand_node]. For an output
    whose referenced names are distinct and are no reference-bound
    parameter of its mapping, calling the produced node with keywords
    that supply every referenced name calls the expanded node's callable
    once, with the same positional arguments and these keywords: each
    reference-bound parameter holds what was supplied under the name it
    refers to, each literal-bound parameter holds its literal, also when
    a keyword of that name was supplied, and the other supplied keywords
    that are no referenced name are passed on. None of
    [closure_keywords] is a supplied keyword or a literal-bound
    parameter. *)
Theorem parameterize_nodes_round_trip kw self node_ fn :
  __init__ kw = Return self →
  Forall (λ kv, NoDup (keys (mapping_of kv.2))) kw →
  validate self fn = Return () →
  ∃ nodes,
    expand_node self node_ fn = Return nodes
    ∧ Forall2 (λ nd kv,
        NoDup (sources_of (mapping_of kv.2)) →
        (∀ s, s ∈ sources_of (mapping_of kv.2) →
              s ∉ keys (upstream_part (mapping_of kv.2))) →
        ∀ args (supplied : kwargs),
          (∀ s, s ∈ sources_of (mapping_of kv.2) → is_Some (supplied !! s)) →
          (∀ k, k ∈ closure_keywords →
                supplied !! k = None ∧ k ∉ keys (literal_part (mapping_of kv.2))) →
          node.callable nd args supplied
          = node.callable node_ args (direct_kwargs (mapping_of kv.2) supplied)
          ∧ ∀ k, direct_kwargs (mapping_of kv.2) supplied !! k
                 = match dict_get k (mapping_of kv.2) with
                   | Some (VUpstream s) => supplied !! s
                   | Some (VLiteral x) => Some x
                   | _ => if bool_decide (k ∈ sources_of (mapping_of kv.2))
                          then None else supplied !! k
                   end)
      nodes kw.
Proof.
  intros Hinit Hnd Hval.
  apply (expand_node_Forall2 kw self node_ fn); [done..|].
  intros output a docstring nd Hin Hdeps Hdoc Hone Hsrc Hdisj args supplied Hsup _.
  simpl in *.
  assert (NoDup (keys (mapping_of a))) as Hnda.
  { rewrite Forall_forall in Hnd. apply (Hnd _ Hin). }
  destruct (expand_one_Return self node_ fn output (mapping_of a) docstring Hdoc Hnda Hdeps)
    as (nd' & Hone' & _ & _ & _ & _ & Hcall & _).
  assert (nd' = nd) as -> by congruence.
  split.
  - rewrite Hcall. by apply parameterized_callable_direct.
  - intros k. unfold direct_kwargs.
    rewrite (lookup_union (list_to_map _)), list_to_map_dict_get, dict_get_half by done.
    rewrite map_lookup_filter.
    destruct (dict_get k (mapping_of a)) as [v|] eqn:Hk; simpl.
    + apply dict_get_Some_elem in Hk. rewrite Forall_forall in Hdeps.
      pose proof (Hdeps _ Hk) as Hv.
      destruct v as [| | | | | | |lit|src]; simpl in Hv; try done; simpl.
      * by destruct (_ ≫= _).
      * destruct (Hsup src) as [x Hx]; [by eapply sources_of_elem|].
        rewrite Hx. simpl. by destruct (_ ≫= _).
    + destruct (decide (k ∈ sources_of (mapping_of a))) as [Hs|Hs].
      * rewrite bool_decide_eq_true_2 by done.
        destruct (supplied !! k); simpl; [|done].
        rewrite option_guard_False; [done | by intros Hn; apply Hn].
      * rewrite bool_decide_eq_false_2 by done.
        destruct (supplied !! k); simpl; [|done].
        by rewrite option_guard_True.
Qed.

(** The renaming loop on keywords that lack a referenced name which the
    loop never writes. *)
Lemma rename_loop_missing (l : odict Val) (kw : kwargs) p s :
  Forall (λ pv, ∃ s', pv.2 = VUpstream s') l →
  (p, VUpstream s) ∈ l →
  s ∉ keys l →
  kw !! s = None →
  ∃ key,
    for_each (λ (kwargs : kwargs) (kv : string * Val),
        src ← attr_source kv.2;
        popped ← pop kwargs src;
        Return (<[kv.1 := popped.1]> popped.2)) l kw = Raise (KeyError key).
Proof.
  revert kw. induction l as [|[q v] l IH]; intros kw Hups Hin Hfresh Hkw.
  - by apply elem_of_nil in Hin.
  - apply Forall_cons in Hups as [[s' Hv] Hups]. simpl in Hv. subst v.
    unfold keys in Hfresh. simpl in Hfresh.
    apply not_elem_of_cons in Hfresh as [Hsq Hfresh].
    cbn [for_each]. simpl. unfold pop.
    destruct (kw !! s') as [x|] eqn:Hx; simpl; [|by eexists].
    apply IH; [done| |done|].
    + apply elem_of_cons in Hin as [[= -> ->]|Hin]; [congruence | done].
    + rewrite lookup_insert_ne by done.
      destruct (decide (s = s')) as [->|Hne]; [apply lookup_delete_eq|].
      by rewrite lookup_delete_ne.
Qed.

(** X8. Calling a produced node without a keyword for an upstream name
    that one of its parameters refers to raises [KeyError], and the
    callable of the expanded node is not called: the result does not
    depend on it. The name must not be a parameter of the mapping
    itself, whose value the call could otherwise pick up. *)
Theorem parameterize_node_missing_input_raises_KeyError kw self node_ fn :
  __init__ kw = Return self →
  Forall (λ kv, NoDup (keys (mapping_of kv.2))) kw →
  validate self fn = Return () →
  ∃ nodes,
    expand_node self node_ fn = Return nodes
    ∧ Forall2 (λ nd kv,
        ∀ p s args (supplied : kwargs),
          (p, VUpstream s) ∈ mapping_of kv.2 →
          s ∉ keys (mapping_of kv.2) →
          supplied !! s = None →
          (∀ k, k ∈ closure_keywords →
                supplied !! k = None ∧ k ∉ keys (literal_part (mapping_of kv.2))) →
          ∃ key, node.callable nd args supplied = Raise (KeyError key))
      nodes kw.
Proof.
  intros Hinit Hnd Hval.
  apply (expand_node_Forall2 kw self node_ fn); [done..|].
  intros output a docstring nd Hin Hdeps Hdoc Hone p s args supplied Hp Hs Hsup _.
  simpl in *.
  assert (NoDup (keys (mapping_of a))) as Hnda.
  { rewrite Forall_forall in Hnd. apply (Hnd _ Hin). }
  destruct (expand_one_Return self node_ fn output (mapping_of a) docstring Hdoc Hnda Hdeps)
    as (nd' & Hone' & _ & _ & _ & _ & Hcall & _).
  assert (nd' = nd) as -> by congruence.
  rewrite Hcall. unfold partial, replacement_function.
  set (keywords := (λ kv : string * Val, _) <$> literal_part (mapping_of a)).
  destruct (rename_loop_missing (upstream_part (mapping_of a))
              (supplied ∪ to_kwargs keywords) p s) as [key Hkey].
  - apply Forall_forall. intros [q v] Hq. apply half_elem in Hq as (w & _ & Hw).
    destruct w; simpl in Hw; try done. injection Hw as <-. by eexists.
  - unfold upstream_part, half. apply list_elem_of_omap.
    by exists (p, VUpstream s).
  - intros Hk. apply Hs. by apply (keys_half as_upstream).
  - rewrite lookup_union, Hsup.
    assert (keys keywords = keys (literal_part (mapping_of a))) as Hkeys.
    { unfold keywords, keys. rewrite <- list_fmap_compose. done. }
    rewrite to_kwargs_lookup by (rewrite Hkeys; by apply half_NoDup).
    assert (dict_get s keywords = None) as ->; [|done].
    apply dict_get_None_keys. rewrite Hkeys. intros Hk. apply Hs.
    by apply (keys_half as_literal).
  - exists key. by rewrite Hkey.
Qed.

End parameterize_nodes.

(** ** The two convenience decorators *)

Section convenience_nodes.
Context `{Builtins}.
Import parameterize spec.

Lemma dict_of_items_NoDup {V} (its : list (string * V)) :
  NoDup (keys its) → dict_of_items its = its.
Proof.
  unfold dict_of_items.
  enough (∀ acc : odict V, NoDup (keys (acc ++ its)) →
            fold_left (λ acc kv, dict_set kv.1 kv.2 acc) its acc = acc ++ its) as Hgen
    by apply (Hgen []).
  induction its as [|[k v] its IH]; intros acc Hnd.
  - by rewrite app_nil_r.
  - simpl. change (acc ++ (k, v) :: its) with (acc ++ [(k, v)] ++ its) in *.
    rewrite app_assoc in *. rewrite dict_set_fresh.
    + by apply IH.
    + unfold keys in *. rewrite !fmap_app in Hnd.
      apply NoDup_app in Hnd as [Hnd _]. apply NoDup_app in Hnd as (_ & Hdisj & _).
      intros Hin. apply (Hdisj k Hin). apply list_elem_of_here.
Qed.

Lemma parameterize_values_init parameter (outputs : list (string * Val * Val)) :
  NoDup (outputs.*1.*1) →
  parameterize_values.__init__ parameter
    ((λ odv, (parameterize_values.KTuple [VStr odv.1.1; odv.1.2], odv.2)) <$> outputs)
  = parameterize.__init__
      ((λ odv, (odv.1.1, WithDocstring [(parameter, value odv.2)] odv.1.2)) <$> outputs).
Proof.
  intros Hnd. unfold parameterize_values.__init__.
  rewrite values_key_check_passes.
  2:{ apply Forall_fmap, Forall_forall. intros odv _. simpl. by eexists. }
  simpl.
  rewrite (comprehension_total _
             (λ kv, (match kv.1 with
                     | parameterize_values.KTuple [output; _] => output
                     | _ => VNone
                     end,
                     WithDocstring [(parameter, value kv.2)]
                       match kv.1 with
                       | parameterize_values.KTuple [_; documentation] => documentation
                       | _ => VNone
                       end))).
  2:{ apply Forall_fmap, Forall_forall. intros odv _. done. }
  simpl. rewrite <- list_fmap_compose.
  rewrite (comprehension_total _
             (λ kv, (match kv.1 with VStr o => o | _ => EmptyString end, kv.2))).
  2:{ apply Forall_fmap, Forall_forall. intros odv _. done. }
  simpl. rewrite <- list_fmap_compose.
  rewrite dict_of_items_NoDup; [done|].
  unfold keys. rewrite <- list_fmap_compose. rewrite <- list_fmap_compose in Hnd.
  exact Hnd.
Qed.

Lemma writes_literal_only parameter v (its : odict PyType) k :
  NoDup (keys its) →
  last (writes [(parameter, VLiteral v)] its k)
  = if decide (k = parameter) then None else dict_get k its.
Proof.
  intros Hnd.
  assert (∀ q, target [(parameter, VLiteral v)] q = Some k → q = k ∧ k ≠ parameter) as Ht.
  { intros q. unfold target. simpl.
    destruct (decide (q = parameter)) as [->|Hq]; [done|]. by intros [= ->]. }
  destruct (decide (k = parameter)) as [->|Hne].
  - destruct (last _) as [ty|] eqn:Hlast; [exfalso | done].
    assert (is_Some (last (writes [(parameter, VLiteral v)] its parameter))) as Hsome
      by (by eexists).
    apply writes_is_Some in Hsome as (q & _ & Hq). by destruct (Ht q Hq).
  - destruct (dict_get k its) as [ty|] eqn:Hk.
    + apply (writes_single _ _ k); [done|by apply dict_get_Some_elem| |].
      * unfold target. simpl. by rewrite decide_False.
      * intros q _ Hq. by destruct (Ht q Hq).
    + destruct (last _) as [ty|] eqn:Hlast; [exfalso | done].
      assert (is_Some (last (writes [(parameter, VLiteral v)] its k))) as Hsome
        by (by eexists).
      apply writes_is_Some in Hsome as (q & Hin & Hq). destruct (Ht q Hq) as [-> _].
      by apply dict_get_None_keys in Hk.
Qed.

(** X9. [parameterize_values] on a dictionary whose keys are pairs of an
    output name and a documentation, with distinct output names: the
    constructor returns, and expansion gives one node per entry, in
    order, named by the output and documented by the documentation of
    the entry as it is (the docstring of the function is not read, so
    this needs no [validate]). The parameter is no input of the node any
    more, the other inputs keep their types, and calling the node calls
    the expanded callable with the parameter set to the value of the
    entry, whether or not a keyword of that name was supplied. Neither
    the parameter nor a supplied keyword is one of [closure_keywords],
    and no output is named [self], a keyword that the call of the
    constructor of [parameterize] refuses. *)
Theorem parameterize_values_nodes parameter (outputs : list (string * Val * Val)) node_ fn :
  NoDup (outputs.*1.*1) →
  "self" ∉ outputs.*1.*1 →
  NoDup (keys (node.input_types node_)) →
  parameter ∉ closure_keywords →
  ∃ self nodes,
    parameterize_values.__init__ parameter
      ((λ odv, (parameterize_values.KTuple [VStr odv.1.1; odv.1.2], odv.2)) <$> outputs)
    = Return self
    ∧ expand_node self node_ fn = Return nodes
    ∧ Forall2 (λ nd odv,
        node.name nd = odv.1.1
        ∧ node.documentation nd = odv.1.2
        ∧ (∀ k, dict_get k (node.input_types nd)
                = if decide (k = parameter) then None
                  else dict_get k (node.input_types node_))
        ∧ ∀ args (supplied : kwargs),
            (∀ k, k ∈ closure_keywords → supplied !! k = None) →
            node.callable nd args supplied
            = node.callable node_ args (<[parameter := odv.2]> supplied))
      nodes outputs.
Proof.
  intros Hout Hself Hbase _. rewrite parameterize_values_init by done.
  set (entry := λ odv : string * Val * Val,
                  (odv.1.1, WithDocstring [(parameter, value odv.2)] odv.1.2)).
  assert (NoDup (keys (entry <$> outputs))) as Hkw.
  { unfold keys. rewrite <- list_fmap_compose. rewrite <- list_fmap_compose in Hout.
    exact Hout. }
  destruct (init_of_deps (entry <$> outputs)) as [self Hinit].
  { unfold keys. rewrite <- list_fmap_compose. rewrite <- list_fmap_compose in Hself.
    exact Hself. }
  { apply Forall_fmap, Forall_forall. intros odv _. simpl. by repeat constructor. }
  exists self.
  destruct (expand_node_Forall2_docs (entry <$> outputs) self node_ fn
              (λ nd kv,
                 match kv.2 with
                 | WithDocstring [(p, VLiteral v)] d =>
                     node.name nd = kv.1
                     ∧ node.documentation nd = d
                     ∧ (∀ k, dict_get k (node.input_types nd)
                             = if decide (k = p) then None
                               else dict_get k (node.input_types node_))
                     ∧ ∀ args (supplied : kwargs),
                         (∀ k, k ∈ closure_keywords → supplied !! k = None) →
                         node.callable nd args supplied
                         = node.callable node_ args (<[p := v]> supplied)
                 | _ => True
                 end))
    as (nodes & Hnodes & Hall); [done| | | |].
  - apply Forall_fmap, Forall_forall. intros odv _. simpl. apply NoDup_singleton.
  - pose proof (init_stores _ _ Hinit) as ->. simpl.
    apply Forall_fmap, Forall_forall. intros [o a] Hin. simpl.
    unfold format_doc_string. simpl.
    rewrite specified_docstrings_get by done.
    rewrite (dict_get_Some_NoDup _ _ _ Hkw Hin).
    apply list_elem_of_fmap in Hin as [odv [[= -> ->] _]].
    by eexists.
  - intros output a docstring nd Hin Hdeps Hdoc Hone.
    pose proof Hin as Hentry.
    apply list_elem_of_fmap in Hentry as [odv [[= -> ->] _]]. simpl in *.
    destruct (expand_one_Return self node_ fn odv.1.1 [(parameter, value odv.2)] docstring
                Hdoc) as (nd' & Hone' & Hname & _ & Hdocumentation & _ & Hcall & Hits).
    { apply NoDup_singleton. }
    { done. }
    assert (nd' = nd) as -> by congruence.
    split; [done|]. split.
    { rewrite Hdocumentation. pose proof (init_stores _ _ Hinit) as ->.
      unfold format_doc_string in Hdoc. simpl in Hdoc.
      rewrite specified_docstrings_get in Hdoc by done.
      rewrite (dict_get_Some_NoDup _ _ _ Hkw Hin) in Hdoc. by injection Hdoc as <-. }
    split.
    { intros k. rewrite Hits. by apply writes_literal_only. }
    intros args supplied _. rewrite Hcall.
    unfold partial, replacement_function. simpl. f_equal.
    apply map_eq. intros k. unfold to_kwargs. simpl.
    destruct (decide (k = parameter)) as [->|Hne].
    + by rewrite !lookup_insert_eq.
    + rewrite !lookup_insert_ne by done.
      rewrite lookup_union, lookup_insert_ne, lookup_empty by done.
      by destruct (supplied !! k).
  - exists nodes. split; [done|]. split; [done|].
    apply Forall2_fmap_r in Hall. eapply Forall2_impl; [exact Hall|].
    intros nd odv Hnd. exact Hnd.
Qed.




End convenience_nodes.

(** ** Validation and expansion by [extract_columns] *)

Section extract_validation.
Context `{Builtins} `{Registry} `{Renderings}.

(** X11. For a node whose declared type is the return annotation of
    the function, [validate] of [extract_columns] returns exactly when
    [expand_node] does, that is when the registry knows a column type
    for that type. Expansion then gives the container node, which keeps
    the name, type, documentation, inputs and tags of the expanded node,
    followed by one node per declared column in order, named by the
    column, of the column type of the registry, documented by the
    documentation of a pair declaration or else by that of the expanded
    node. The [NotImplementedError] of the registry becomes
    [InvalidDecoratorException] in [validate] and is raised as it is by
    [expand_node]. *)
Theorem extract_columns_validate_expand (self : extract_columns.t) (fn : Annotated) node_ :
  node.type node_ = return_annotation fn →
  ((extract_columns.validate self fn = Return ())
   ↔ ∃ nodes, extract_columns.expand_node self node_ = Return nodes)
  ∧ (∀ nodes,
       extract_columns.expand_node self node_ = Return nodes →
       ∃ series_type container column_nodes,
         get_column_type_from_df_type (node.type node_) = Return series_type
         ∧ nodes = container :: column_nodes
         ∧ node.name container = node.name node_
         ∧ node.type container = node.type node_
         ∧ node.documentation container = node.documentation node_
         ∧ node.input_types container = node.input_types node_
         ∧ node.tags container = node.tags node_
         ∧ Forall2 (λ nd column,
             node.name nd = extract_columns.column_name column
             ∧ node.type nd = series_type
             ∧ node.documentation nd
               = match column with
                 | extract_columns.ColTuple _ doc => VStr doc
                 | extract_columns.ColName _ => node.documentation node_
                 end
             ∧ node.tags nd = node.tags node_)
           column_nodes (extract_columns.columns self))
  ∧ (get_column_type_from_df_type (return_annotation fn) = Raise NotImplementedError →
     (∃ msg, extract_columns.validate self fn = Raise (InvalidDecoratorException msg))
     ∧ extract_columns.expand_node self node_ = Raise NotImplementedError).
Proof.
  intros Hty.
  unfold extract_columns.validate, extract_columns.validate_return_type,
    extract_columns.expand_node.
  rewrite Hty. split; [|split].
  - destruct (get_column_type_from_df_type (return_annotation fn)) as [series_type|err];
      simpl.
    + split; [by eexists | done].
    + split; [by destruct err | by intros [? ?]].
  - intros nodes Hnodes.
    destruct (get_column_type_from_df_type (return_annotation fn)) as [series_type|err];
      simpl in Hnodes; [|done].
    injection Hnodes as <-. do 3 eexists. split; [done|]. split; [done|].
    simpl. do 5 (split; [done|]).
    apply Forall2_fmap_l, Forall_Forall2_diag, Forall_forall.
    intros column _. simpl. by destruct column.
  - intros Hraise. rewrite Hraise. simpl. split; [by eexists | done].
Qed.

End extract_validation.

(** ** Extraction from what the container node returns *)

Section extraction.
Context `{Builtins} `{Registry}.

Lemma get_column_cons r (c : Label * list Val) l n :
  registry.get_column (mkDataFrame r (c :: l)) n
  = if decide (c.1 = LStr n) then Return (VSeries c.2)
    else registry.get_column (mkDataFrame r l) n.
Proof.
  unfold registry.get_column. simpl. destruct (decide (c.1 = LStr n)); [done|].
  by destruct (list_find _ l) as [[i x]|].
Qed.

Lemma get_column_app_l (df : DataFrame) added n :
  contains df (LStr n) = true →
  registry.get_column (mkDataFrame (nrows df) (data df ++ added)) n
  = registry.get_column df n.
Proof.
  destruct df as [r l]. unfold contains, registry.columns. simpl.
  rewrite bool_decide_eq_true. induction l as [|c l IH]; intros Hin.
  - by apply elem_of_nil in Hin.
  - simpl. rewrite !get_column_cons.
    destruct (decide (c.1 = LStr n)) as [|Hne]; [done|].
    apply IH. simpl in Hin. apply elem_of_cons in Hin as [Heq|Hin]; [congruence | done].
Qed.

Lemma get_column_filled r (added : list (Label * list Val)) filled n :
  Forall (λ c, c.2 = filled) added →
  LStr n ∈ added.*1 →
  registry.get_column (mkDataFrame r added) n = Return (VSeries filled).
Proof.
  induction 1 as [|c added Hc _ IH]; intros Hin.
  - by apply elem_of_nil in Hin.
  - rewrite get_column_cons. destruct (decide (c.1 = LStr n)) as [|Hne]; [by rewrite Hc|].
    apply IH. simpl in Hin. apply elem_of_cons in Hin as [Heq|Hin]; [congruence | done].
Qed.

Lemma get_column_app_r (df : DataFrame) added filled n :
  contains df (LStr n) = false →
  Forall (λ c, c.2 = filled) added →
  LStr n ∈ added.*1 →
  registry.get_column (mkDataFrame (nrows df) (data df ++ added)) n
  = Return (VSeries filled).
Proof.
  destruct df as [r l]. unfold contains, registry.columns. simpl.
  rewrite bool_decide_eq_false. intros Habs Hfilled Hin.
  induction l as [|c l IH]; [by apply get_column_filled|].
  simpl in *. apply not_elem_of_cons in Habs as [Hne Habs].
  rewrite get_column_cons, decide_False by done. by apply IH.
Qed.

(** X12. [extract_columns] with a fill value. The container node returns
    the table the expanded callable produced, with the same rows and the
    same columns in the same order, followed by columns that the table
    did not have, each holding the fill value in every row. The node of
    a column declared by its bare name, called on that result, returns
    the column as it was produced when the table had it, and otherwise
    a column holding the fill value once per row: it does not raise.
    The expanded node is not named like the keyword parameter
    [column_to_extract] of the closure, which would catch the table. *)
Theorem extract_columns_fill_extracts
    (self : extract_columns.t) node_ series_type i n args kw (df : DataFrame) :
  extract_columns.fill_with self ≠ VNone →
  get_column_type_from_df_type (node.type node_) = Return series_type →
  extract_columns.columns self !! i = Some (extract_columns.ColName n) →
  node.callable node_ args kw = Return (VDataFrame df) →
  node.name node_ ≠ "column_to_extract" →
  ∃ nodes container nd added,
    extract_columns.expand_node self node_ = Return nodes
    ∧ nodes !! 0 = Some container ∧ nodes !! S i = Some nd
    ∧ node.name nd = n
    ∧ node.callable container args kw
      = Return (VDataFrame (mkDataFrame (nrows df) (data df ++ added)))
    ∧ Forall (λ c, c.2 = replicate (nrows df) (extract_columns.fill_with self)
                   ∧ contains df c.1 = false) added
    ∧ node.callable nd []
        {[ node.name node_ := VDataFrame (mkDataFrame (nrows df) (data df ++ added)) ]}
      = if contains df (LStr n) then registry.get_column df n
        else Return (VSeries (replicate (nrows df) (extract_columns.fill_with self))).
Proof.
  intros Hfill Hty Hcol Hcall _.
  destruct (df_generator_fills self (node.callable node_) args kw df Hfill Hcall)
    as (added & Hgen & Hadded & Hall).
  do 3 eexists. exists added.
  split; [by apply extract_columns_expand_node_Return|].
  split; [done|]. split.
  { simpl. rewrite list_lookup_fmap, Hcol. done. }
  simpl. split; [done|]. split; [done|]. split; [done|].
  rewrite Forall_forall in Hall.
  pose proof (Hall _ (list_elem_of_lookup_2 _ _ _ Hcol)) as Hnow. simpl in Hnow.
  unfold extract_columns.extractor_fn. rewrite lookup_singleton_eq. simpl.
  rewrite Hnow. destruct (contains df (LStr n)) eqn:Hdf.
  - by apply get_column_app_l.
  - apply get_column_app_r; [done| |].
    + eapply Forall_impl; [exact Hadded|]. by intros c [? _].
    + unfold contains, registry.columns in Hnow, Hdf. simpl in Hnow.
      apply bool_decide_eq_true in Hnow. apply bool_decide_eq_false in Hdf.
      rewrite fmap_app in Hnow. apply elem_of_app in Hnow as [?|?]; done.
Qed.

(** X13. [extract_fields] with a fill value. The container node returns
    a dictionary that keeps every entry of the dictionary the expanded
    callable produced, and the node of a declared field, called on that
    result, returns the produced value of the field when there is one
    and the fill value otherwise: it does not raise. The expanded node
    is not named like the keyword parameter [field_to_extract] of the
    closure. *)
Theorem extract_fields_fill_extracts
    (self : extract_fields.t) node_ i field field_type args kw (d : odict Val) :
  extract_fields.fill_with self ≠ VNone →
  extract_fields.fields self !! i = Some (field, field_type) →
  node.callable node_ args kw = Return (VDict d) →
  node.name node_ ≠ "field_to_extract" →
  ∃ container nd d',
    extract_fields.expand_node self node_ !! 0 = Some container
    ∧ extract_fields.expand_node self node_ !! S i = Some nd
    ∧ node.name nd = field
    ∧ node.type nd = field_type
    ∧ node.callable container args kw = Return (VDict d')
    ∧ (∀ k v, dict_get k d = Some v → dict_get k d' = Some v)
    ∧ node.callable nd [] {[ node.name node_ := VDict d' ]}
      = Return (default (extract_fields.fill_with self) (dict_get field d)).
Proof.
  intros Hfill Hfld Hcall _.
  destruct (dict_generator_fills self (node.callable node_) args kw d Hfill Hcall)
    as (d' & Hgen & Hget).
  do 2 eexists. exists d'. unfold extract_fields.expand_node. split; [done|]. split.
  { simpl. rewrite list_lookup_fmap, Hfld. done. }
  simpl. split; [done|]. split; [done|]. split; [done|]. split.
  - intros k v Hk. by rewrite Hget, Hk.
  - unfold extract_fields.extractor_fn. rewrite lookup_singleton_eq. simpl.
    rewrite Hget. destruct (dict_get field d) as [v|]; [done|].
    rewrite bool_decide_eq_true_2; [done|].
    unfold keys. apply list_elem_of_fmap. exists (field, field_type).
    split; [done|]. by eapply list_elem_of_lookup_2.
Qed.

Lemma df_generator_no_fill (self : extract_columns.t) (f : Callable) args kw :
  extract_columns.fill_with self = VNone →
  extract_columns.df_generator self f args kw = f args kw.
Proof.
  intros Hfill. unfold extract_columns.df_generator. rewrite Hfill.
  by destruct (f args kw).
Qed.

Lemma get_column_present (df : DataFrame) n :
  contains df (LStr n) = true →
  ∃ column, registry.get_column df n = Return (VSeries column)
            ∧ (LStr n, column) ∈ data df.
Proof.
  destruct df as [r l]. unfold contains, registry.columns. simpl.
  rewrite bool_decide_eq_true. induction l as [|[label c] l IH]; intros Hin.
  - by apply elem_of_nil in Hin.
  - rewrite get_column_cons. simpl in *.
    destruct (decide (label = LStr n)) as [->|Hne].
    + exists c. split; [done | apply list_elem_of_here].
    + apply elem_of_cons in Hin as [Heq|Hin]; [congruence|].
      destruct (IH Hin) as (column & Hget & Hcol). exists column.
      split; [done|]. apply elem_of_cons. by right.
Qed.

Lemma fill_with_cases (v : Val) : v = VNone ∨ v ≠ VNone.
Proof. destruct v; first [by left | by right]. Qed.

(** X14. What the function produced is extracted as it is, with or
    without a fill value. For a column declared by its bare name that
    the produced table has, the node of the column, called on what the
    container node returns, returns that column of the produced table;
    for a declared field that the produced dictionary has, the node of
    the field returns the produced value. The expanded node is not named
    like the keyword parameter of the extracting closure. *)
Theorem extraction_of_present_ignores_fill :
  (∀ (self : extract_columns.t) node_ series_type i n args kw (df : DataFrame),
     get_column_type_from_df_type (node.type node_) = Return series_type →
     extract_columns.columns self !! i = Some (extract_columns.ColName n) →
     node.callable node_ args kw = Return (VDataFrame df) →
     contains df (LStr n) = true →
     node.name node_ ≠ "column_to_extract" →
     ∃ nodes container nd table column,
       extract_columns.expand_node self node_ = Return nodes
       ∧ nodes !! 0 = Some container ∧ nodes !! S i = Some nd
       ∧ node.callable container args kw = Return (VDataFrame table)
       ∧ (LStr n, column) ∈ data df
       ∧ registry.get_column df n = Return (VSeries column)
       ∧ node.callable nd [] {[ node.name node_ := VDataFrame table ]}
         = Return (VSeries column))
  ∧ (∀ (self : extract_fields.t) node_ i field field_type args kw (d : odict Val) v,
       extract_fields.fields self !! i = Some (field, field_type) →
       node.callable node_ args kw = Return (VDict d) →
       dict_get field d = Some v →
       node.name node_ ≠ "field_to_extract" →
       ∃ container nd d',
         extract_fields.expand_node self node_ !! 0 = Some container
         ∧ extract_fields.expand_node self node_ !! S i = Some nd
         ∧ node.callable container args kw = Return (VDict d')
         ∧ node.callable nd [] {[ node.name node_ := VDict d' ]} = Return v).
Proof.
  split.
  - intros self node_ series_type i n args kw df Hty Hcol Hcall Hdf _.
    destruct (get_column_present df n Hdf) as (column & Hget & Hin).
    assert (∃ table,
              extract_columns.df_generator self (node.callable node_) args kw
              = Return (VDataFrame table)
              ∧ contains table (LStr n) = true
              ∧ registry.get_column table n = registry.get_column df n)
      as (table & Hgen & Hnow & Hsame).
    { destruct (fill_with_cases (extract_columns.fill_with self)) as [Hfill|Hfill].
      - exists df. by rewrite df_generator_no_fill.
      - destruct (df_generator_fills self (node.callable node_) args kw df Hfill Hcall)
          as (added & Hgen & _ & _).
        eexists. split; [exact Hgen|]. split; [by apply contains_app|].
        by apply get_column_app_l. }
    do 3 eexists. exists table, column.
    split; [by apply extract_columns_expand_node_Return|].
    split; [done|]. split.
    { simpl. rewrite list_lookup_fmap, Hcol. done. }
    simpl. split; [done|]. split; [done|]. split; [done|].
    unfold extract_columns.extractor_fn. rewrite lookup_singleton_eq. simpl.
    by rewrite Hnow, Hsame.
  - intros self node_ i field field_type args kw d v Hfld Hcall Hv _.
    assert (∃ d',
              extract_fields.dict_generator self (node.callable node_) args kw
              = Return (VDict d')
              ∧ dict_get field d' = Some v) as (d' & Hgen & Hget).
    { destruct (fill_with_cases (extract_fields.fill_with self)) as [Hfill|Hfill].
      - exists d. unfold extract_fields.dict_generator. by rewrite Hcall, Hfill.
      - destruct (dict_generator_fills self (node.callable node_) args kw d Hfill Hcall)
          as (d' & Hgen & Hget).
        exists d'. split; [done|]. by rewrite Hget, Hv. }
    do 2 eexists. exists d'. unfold extract_fields.expand_node. split; [done|]. split.
    { simpl. rewrite list_lookup_fmap, Hfld. done. }
    simpl. split; [done|].
    unfold extract_fields.extractor_fn. rewrite lookup_singleton_eq. simpl.
    by rewrite Hget.
Qed.

End extraction.

(** ** Expansion by [parameterize_extract_columns] *)

Section parameterized_extraction.
Context `{Builtins} `{Registry} `{Renderings}.
Import spec.

Lemma comprehension_Forall2_intro {A B} (f : A → Exc B) (P : B → A → Prop) (l : list A) :
  Forall (λ x, ∃ y, f x = Return y ∧ P y x) l →
  ∃ ys, comprehension f l = Return ys ∧ Forall2 P ys l.
Proof.
  induction 1 as [|x l (y & Hy & HP) _ (ys & Hys & Hall)].
  - exists []. split; [done | constructor].
  - exists (y :: ys). split; [|by constructor].
    simpl. rewrite Hy. simpl. by rewrite Hys.
Qed.

Lemma init_single output m :
  output ≠ "self" →
  Forall (λ pv, is_dependency pv.2 = true) m →
  parameterize.__init__ [(output, parameterize.Assignments m)]
  = Return (parameterize.mk [(output, m)] []).
Proof.
  intros Hself Hdeps. unfold parameterize.__init__. rewrite not_named_self.
  - rewrite bad_values_of_deps; [done|]. by repeat constructor.
  - unfold keys. simpl. apply not_elem_of_cons. split; [done | apply not_elem_of_nil].
Qed.

(** The name of an intermediate node has two underscores in a row. *)
Lemma intermediate_name_not_self (name index : string) :
  name +:+ "__" +:+ index ≠ "self".
Proof.
  change ("__" +:+ index) with (String "_" (String "_" index)).
  destruct name as [|c1 [|c2 [|c3 [|c4 [|c5 name]]]]];
    rewrite ?append_cons, ?append_nil_l; intros Heq;
    repeat (injection Heq as ? Heq); discriminate.
Qed.

Lemma extract_columns_init_nonempty columns fill_with :
  columns ≠ [] →
  extract_columns.__init__ columns fill_with
  = Return (extract_columns.mk columns fill_with).
Proof. by destruct columns. Qed.

(** One iteration of the loop of [expand_node]: the node that
    [parameterize] builds from the relabelling wrapper, then the nodes
    that [extract_columns] builds from that node. *)
Lemma pec_expand_one_Return self node_ fn i r docstring series_type :
  Forall (λ pv, is_dependency pv.2 = true)
         (parameterize_extract_columns.input_mapping r) →
  NoDup (keys (parameterize_extract_columns.input_mapping r)) →
  parameterize.format_doc_string
    (parameterize.mk [(node.name node_ +:+ "__" +:+ pretty i,
                       parameterize_extract_columns.input_mapping r)] [])
    (fn_doc fn) (node.name node_ +:+ "__" +:+ pretty i) = Return docstring →
  parameterize_extract_columns.outputs r ≠ [] →
  get_column_type_from_df_type (node.type node_) = Return series_type →
  ∃ pn,
    parameterize_extract_columns.expand_one self node_ fn i r
    = Return (node.copy_with_callabl pn
                (extract_columns.df_generator
                   (extract_columns.mk
                      (extract_columns.ColName <$> parameterize_extract_columns.outputs r)
                      VNone)
                   (node.callable pn)) ::
              map (λ column,
                     node.mkNode (extract_columns.column_name column) series_type
                       (extract_columns.column_doc (node.documentation pn) column)
                       (extract_columns.extractor_fn (node.name pn)
                          (extract_columns.column_name column))
                       [(node.name pn, node.type pn)] (node.tags pn))
                  (extract_columns.ColName <$> parameterize_extract_columns.outputs r))
    ∧ node.name pn = node.name node_ +:+ "__" +:+ pretty i
    ∧ node.type pn = node.type node_
    ∧ node.callable pn =
        partial (parameterize.replacement_function
                   (fn_call (parameterize_extract_columns.wrapper_fn fn
                               (parameterize_extract_columns.outputs r)))
                   (upstream_part (parameterize_extract_columns.input_mapping r))
                   (literal_part (parameterize_extract_columns.input_mapping r)))
                ((λ kv, (kv.1, match kv.2 with VLiteral v => v | _ => VNone end))
                   <$> literal_part (parameterize_extract_columns.input_mapping r)).
Proof.
  intros Hdeps Hnd Hdoc Hout Hty.
  unfold parameterize_extract_columns.expand_one. cbv zeta.
  rewrite init_single by (done || apply intermediate_name_not_self).
  set (nm := node.name node_ +:+ "__" +:+ pretty i) in *.
  set (fn_to_call := if parameterize_extract_columns.reassign_columns self
                     then parameterize_extract_columns.wrapper_fn fn
                            (parameterize_extract_columns.outputs r)
                     else fn).
  assert (fn_doc fn_to_call = fn_doc fn) as Hsame.
  { unfold fn_to_call. by destruct (parameterize_extract_columns.reassign_columns self). }
  rewrite <- Hsame in Hdoc.
  destruct (expand_one_Return (parameterize.mk [(nm, parameterize_extract_columns.input_mapping r)] [])
              (node.copy_with_callabl node_
                 (fn_call (parameterize_extract_columns.wrapper_fn fn
                             (parameterize_extract_columns.outputs r))))
              fn_to_call nm (parameterize_extract_columns.input_mapping r) docstring
              Hdoc Hnd Hdeps) as (pn & Hone & Hname & Htype & _ & _ & Hcall & _).
  exists pn. split; [|done].
  cbn [mbind Exc_bind]. unfold parameterize.expand_node.
  cbn [parameterize.parametrization comprehension mbind Exc_bind fst snd].
  rewrite Hone. cbn [mbind Exc_bind mret Exc_ret].
  rewrite extract_columns_init_nonempty by (by destruct (parameterize_extract_columns.outputs r)).
  cbn [mbind Exc_bind].
  by rewrite (extract_columns_expand_node_Return _ pn series_type) by (by rewrite Htype).
Qed.

(** X15. A record without outputs, and a record whose input mapping has
    a value that is no dependency, are met only by [expand_node] of
    [parameterize_extract_columns], which then raises and returns no
    node, whatever the other records are. The constructor checks
    nothing, and [validate] reads only the return annotation: it
    returns exactly when the registry knows a column type for it,
    whatever the configuration. *)
Theorem parameterize_extract_columns_raises_at_expansion
    self node_ fn (annotated : Annotated) r :
  r ∈ parameterize_extract_columns.extract_config self →
  parameterize_extract_columns.outputs r = []
  ∨ (∃ p v, (p, v) ∈ parameterize_extract_columns.input_mapping r
            ∧ is_dependency v = false) →
  (∃ e, parameterize_extract_columns.expand_node self node_ fn = Raise e)
  ∧ ((parameterize_extract_columns.validate self annotated = Return ())
     ↔ ∃ series_type,
         get_column_type_from_df_type (return_annotation annotated) = Return series_type).
Proof.
  intros Hin Hbad. split.
  2:{ unfold parameterize_extract_columns.validate, extract_columns.validate_return_type.
      destruct (get_column_type_from_df_type (return_annotation annotated))
        as [series_type|err].
      - split; [by eexists | done].
      - split; [by destruct err | by intros [? ?]]. }
  apply list_elem_of_lookup in Hin as [i Hi].
  assert (∃ e, parameterize_extract_columns.expand_one self node_ fn i r = Raise e)
    as [e He].
  { unfold parameterize_extract_columns.expand_one. cbv zeta.
    destruct Hbad as [Hout|(p & v & Hp & Hv)].
    - destruct (parameterize.__init__ _) as [decorator|err]; simpl; [|by eexists].
      destruct (parameterize.expand_node _ _ _) as [nodes|err]; simpl; [|by eexists].
      destruct nodes as [|pn [|? ?]]; [by eexists| |by eexists].
      rewrite Hout. simpl. by eexists.
    - unfold parameterize.__init__.
      destruct (dict_in "self" _); [by eexists|].
      pose proof (bad_values_of_elem
                    (map (λ kv, (kv.1, parameterize.mapping_of kv.2))
                       [(node.name node_ +:+ "__" +:+ pretty i,
                         parameterize.Assignments
                           (parameterize_extract_columns.input_mapping r))])
                    _ _ p v (list_elem_of_here _ _) Hp Hv) as Hbv.
      destruct (parameterize.bad_values_of _); [by apply elem_of_nil in Hbv|].
      simpl. by eexists. }
  unfold parameterize_extract_columns.expand_node.
  destruct (comprehension_Raise_elem
              (λ ip, parameterize_extract_columns.expand_one self node_ fn ip.1 ip.2)
              (imap pair (parameterize_extract_columns.extract_config self)) (i, r) e)
    as [e' He']; [by apply elem_of_lookup_imap_2 | done |].
  exists e'. by rewrite He'.
Qed.

(** What holds of every iteration of the loop holds of the nodes of
    [expand_node], record by record. *)
Lemma pec_expand_node_Forall2 self node_ fn series_type
    (P : list node.Node → nat * parameterize_extract_columns.ParameterizedExtract → Prop) :
  get_column_type_from_df_type (node.type node_) = Return series_type →
  Forall (λ r, parameterize_extract_columns.outputs r ≠ []
               ∧ NoDup (keys (parameterize_extract_columns.input_mapping r))
               ∧ Forall (λ pv, is_dependency pv.2 = true)
                        (parameterize_extract_columns.input_mapping r))
         (parameterize_extract_columns.extract_config self) →
  (∀ i r,
     parameterize_extract_columns.extract_config self !! i = Some r →
     ∃ d, parameterize.format_doc_string
            (parameterize.mk [(node.name node_ +:+ "__" +:+ pretty i,
                               parameterize_extract_columns.input_mapping r)] [])
            (fn_doc fn) (node.name node_ +:+ "__" +:+ pretty i) = Return d) →
  (∀ i r pn,
     parameterize_extract_columns.extract_config self !! i = Some r →
     node.name pn = node.name node_ +:+ "__" +:+ pretty i →
     node.type pn = node.type node_ →
     node.callable pn =
       partial (parameterize.replacement_function
                  (fn_call (parameterize_extract_columns.wrapper_fn fn
                              (parameterize_extract_columns.outputs r)))
                  (upstream_part (parameterize_extract_columns.input_mapping r))
                  (literal_part (parameterize_extract_columns.input_mapping r)))
               ((λ kv, (kv.1, match kv.2 with VLiteral v => v | _ => VNone end))
                  <$> literal_part (parameterize_extract_columns.input_mapping r)) →
     P (node.copy_with_callabl pn
          (extract_columns.df_generator
             (extract_columns.mk
                (extract_columns.ColName <$> parameterize_extract_columns.outputs r)
                VNone)
             (node.callable pn)) ::
        map (λ column,
               node.mkNode (extract_columns.column_name column) series_type
                 (extract_columns.column_doc (node.documentation pn) column)
                 (extract_columns.extractor_fn (node.name pn)
                    (extract_columns.column_name column))
                 [(node.name pn, node.type pn)] (node.tags pn))
            (extract_columns.ColName <$> parameterize_extract_columns.outputs r))
       (i, r)) →
  ∃ per_record,
    parameterize_extract_columns.expand_node self node_ fn = Return (concat per_record)
    ∧ Forall2 P per_record (imap pair (parameterize_extract_columns.extract_config self)).
Proof.
  intros Hty Hall Hdocs HP. unfold parameterize_extract_columns.expand_node.
  destruct (comprehension_Forall2_intro
              (λ ip, parameterize_extract_columns.expand_one self node_ fn ip.1 ip.2) P
              (imap pair (parameterize_extract_columns.extract_config self)))
    as (per_record & Hcomp & HallP).
  - apply Forall_forall. intros [i r] Hin.
    apply elem_of_lookup_imap_1 in Hin as (i' & r' & [= -> ->] & Hi).
    rewrite Forall_forall in Hall.
    destruct (Hall _ (list_elem_of_lookup_2 _ _ _ Hi)) as (Hout & Hnd & Hdeps).
    destruct (Hdocs _ _ Hi) as [d Hd].
    destruct (pec_expand_one_Return self node_ fn i' r' d series_type
                Hdeps Hnd Hd Hout Hty) as (pn & Hone & Hname & Htype & Hcall).
    eexists. split; [exact Hone|]. by apply HP.
  - exists per_record. by rewrite Hcomp.
Qed.

(** X16. The nodes of [parameterize_extract_columns], when every record
    has outputs and an input mapping of dependencies, the docstring
    formats and the registry knows a column type for the declared type
    of the expanded node. [expand_node] returns, record by record in
    order: an intermediate node named by the expanded node, two
    underscores and the index of the record, of the declared type of
    the expanded node; then one node per output of the record, in
    order, named by the output, of the column type, whose single input
    is the intermediate node with the declared type of the expanded
    node. *)
Theorem parameterize_extract_columns_nodes self node_ fn series_type :
  get_column_type_from_df_type (node.type node_) = Return series_type →
  Forall (λ r, parameterize_extract_columns.outputs r ≠ []
               ∧ NoDup (keys (parameterize_extract_columns.input_mapping r))
               ∧ Forall (λ pv, is_dependency pv.2 = true)
                        (parameterize_extract_columns.input_mapping r))
         (parameterize_extract_columns.extract_config self) →
  (∀ i r,
     parameterize_extract_columns.extract_config self !! i = Some r →
     ∃ d, parameterize.format_doc_string
            (parameterize.mk [(node.name node_ +:+ "__" +:+ pretty i,
                               parameterize_extract_columns.input_mapping r)] [])
            (fn_doc fn) (node.name node_ +:+ "__" +:+ pretty i) = Return d) →
  ∃ per_record,
    parameterize_extract_columns.expand_node self node_ fn = Return (concat per_record)
    ∧ Forall2 (λ nodes ir,
        ∃ container column_nodes,
          nodes = container :: column_nodes
          ∧ node.name container = node.name node_ +:+ "__" +:+ pretty ir.1
          ∧ node.type container = node.type node_
          ∧ Forall2 (λ nd output,
              node.name nd = output
              ∧ node.type nd = series_type
              ∧ node.input_types nd
                = [(node.name node_ +:+ "__" +:+ pretty ir.1, node.type node_)])
            column_nodes (parameterize_extract_columns.outputs ir.2))
      per_record (imap pair (parameterize_extract_columns.extract_config self)).
Proof.
  intros Hty Hall Hdocs.
  apply (pec_expand_node_Forall2 self node_ fn series_type); [done..|].
  intros i r pn Hi Hname Htype Hcall. do 2 eexists. split; [done|].
  simpl. split; [done|]. split; [done|].
  apply Forall2_fmap_l, Forall2_fmap_l, Forall_Forall2_diag, Forall_forall.
  intros output _. simpl. by rewrite Hname, Htype.
Qed.

Lemma get_column_zip r (outs : list string) (cols : list (list Val)) j o col :
  NoDup outs →
  outs !! j = Some o →
  cols !! j = Some col →
  registry.get_column (mkDataFrame r (zip (LStr <$> outs) cols)) o = Return (VSeries col).
Proof.
  revert cols j. induction outs as [|o' outs IH]; intros cols j Hnd Ho Hcol; [done|].
  apply NoDup_cons in Hnd as [Hfresh Hnd].
  destruct cols as [|c cols]; [done|]. cbn [fmap list_fmap zip zip_with].
  rewrite get_column_cons. simpl. destruct j as [|j]; simpl in *.
  - injection Ho as ->. injection Hcol as ->. by rewrite decide_True.
  - rewrite decide_False; [by apply (IH cols j)|].
    intros [= ->]. apply Hfresh. by eapply list_elem_of_lookup_2.
Qed.

(** X17. What the nodes of [parameterize_extract_columns] compute, under
    the conditions of the round trip of [parameterize] for the input
    mapping of the record. If the function, called with the keywords of
    the direct call, returns a table with as many columns as the record
    has outputs, the intermediate node returns that table with its
    columns relabelled by the outputs, in order, and, the outputs being
    distinct, the node of the output at position j returns, on that
    table, the column the function produced at position j. If the
    number of columns differs, the intermediate node raises
    [ValueError]. No keyword of the call binds a keyword-only parameter
    of the two closures: none of [closure_keywords] is supplied or
    literal-bound, and the function receives no [_output_columns]. *)
Theorem parameterize_extract_columns_computes self node_ fn series_type :
  get_column_type_from_df_type (node.type node_) = Return series_type →
  Forall (λ r, parameterize_extract_columns.outputs r ≠ []
               ∧ NoDup (keys (parameterize_extract_columns.input_mapping r))
               ∧ Forall (λ pv, is_dependency pv.2 = true)
                        (parameterize_extract_columns.input_mapping r))
         (parameterize_extract_columns.extract_config self) →
  (∀ i r,
     parameterize_extract_columns.extract_config self !! i = Some r →
     ∃ d, parameterize.format_doc_string
            (parameterize.mk [(node.name node_ +:+ "__" +:+ pretty i,
                               parameterize_extract_columns.input_mapping r)] [])
            (fn_doc fn) (node.name node_ +:+ "__" +:+ pretty i) = Return d) →
  ∃ per_record,
    parameterize_extract_columns.expand_node self node_ fn = Return (concat per_record)
    ∧ Forall2 (λ nodes ir,
        ∃ container column_nodes,
          nodes = container :: column_nodes
          ∧ ∀ args (supplied : kwargs) (df : DataFrame),
              NoDup (sources_of (parameterize_extract_columns.input_mapping ir.2)) →
              (∀ s, s ∈ sources_of (parameterize_extract_columns.input_mapping ir.2) →
                    s ∉ keys (upstream_part
                                (parameterize_extract_columns.input_mapping ir.2))) →
              (∀ s, s ∈ sources_of (parameterize_extract_columns.input_mapping ir.2) →
                    is_Some (supplied !! s)) →
              (∀ k, k ∈ parameterize.closure_keywords →
                    supplied !! k = None
                    ∧ k ∉ keys (literal_part
                                  (parameterize_extract_columns.input_mapping ir.2))) →
              direct_kwargs (parameterize_extract_columns.input_mapping ir.2) supplied
                !! "_output_columns" = None →
              fn_call fn args
                (direct_kwargs (parameterize_extract_columns.input_mapping ir.2) supplied)
              = Return (VDataFrame df) →
              (length (data df) = length (parameterize_extract_columns.outputs ir.2) →
               node.callable container args supplied
               = Return (VDataFrame
                   (mkDataFrame (nrows df)
                      (zip (LStr <$> parameterize_extract_columns.outputs ir.2)
                           (data df).*2)))
               ∧ (NoDup (parameterize_extract_columns.outputs ir.2) →
                  ∀ j nd column,
                    column_nodes !! j = Some nd →
                    data df !! j = Some column →
                    node.callable nd []
                      {[ node.name container :=
                           VDataFrame
                             (mkDataFrame (nrows df)
                                (zip (LStr <$> parameterize_extract_columns.outputs ir.2)
                                     (data df).*2)) ]}
                    = Return (VSeries column.2)))
              ∧ (length (data df) ≠ length (parameterize_extract_columns.outputs ir.2) →
                 ∃ msg, node.callable container args supplied = Raise (ValueError msg)))
      per_record (imap pair (parameterize_extract_columns.extract_config self)).
Proof.
  intros Hty Hall Hdocs.
  apply (pec_expand_node_Forall2 self node_ fn series_type); [done..|].
  intros i r pn Hi Hname Htype Hcall. do 2 eexists. split; [done|].
  intros args supplied df Hsrc Hdisj Hsup _ _ Hfn. simpl in *.
  rewrite Forall_forall in Hall.
  destruct (Hall _ (list_elem_of_lookup_2 _ _ _ Hi)) as (Hout & Hnd & Hdeps).
  assert (node.callable pn args supplied
          = VDataFrame <$> set_columns df (LStr <$> parameterize_extract_columns.outputs r))
    as Hpn.
  { rewrite Hcall, parameterized_callable_direct by done. simpl. by rewrite Hfn. }
  rewrite df_generator_no_fill, Hpn by done. unfold set_columns.
  rewrite length_fmap. split.
  - intros Hlen. rewrite decide_True by done. simpl. split; [done|].
    intros Houts j nd column Hnode Hcolumn.
    rewrite !list_lookup_fmap in Hnode.
    destruct (parameterize_extract_columns.outputs r !! j) as [o|] eqn:Ho; [|done].
    simpl in Hnode. injection Hnode as <-. simpl.
    unfold extract_columns.extractor_fn. rewrite lookup_singleton_eq. simpl.
    assert (contains (mkDataFrame (nrows df)
                        (zip (LStr <$> parameterize_extract_columns.outputs r) (data df).*2))
              (LStr o) = true) as ->.
    { unfold contains, registry.columns. apply bool_decide_eq_true. simpl.
      rewrite fst_zip by (rewrite !length_fmap; lia).
      apply list_elem_of_fmap. exists o. split; [done|]. by eapply list_elem_of_lookup_2. }
    apply (get_column_zip _ _ _ j); [done..|].
    by rewrite list_lookup_fmap, Hcolumn.
  - intros Hlen. rewrite decide_False by done. simpl. by eexists.
Qed.

End parameterized_extraction.

(** ** Closed instances *)

#[local] Existing Instance examples.reference_builtins.
#[local] Existing Instance examples.reference_registry.

(** The example of the specification: for [f(a, b)] and
    [out1 = {a: value(1), b: source("n2")}], the node [out1] requires the
    input [n2], and called with [n2 = 5] it returns what [f(1, 5)] does. *)
Example parameterize_out1_n2 :
  (self ← parameterize.__init__
            [("out1", parameterize.Assignments
                        [("a", value (VInt 1)); ("b", source "n2")])];
   _ ← parameterize.validate self examples.f;
   nodes ← parameterize.expand_node self examples.f_node examples.f;
   Return (map (λ nd, (node.name nd, node.input_types nd,
                       node.callable nd [] {[ "n2" := VInt 5 ]})) nodes))
  = Return [("out1", [("n2", TClass "int")],
             examples.f_call [] (<["a" := VInt 1]> {[ "b" := VInt 5 ]}))].
Proof. vm_compute. reflexivity. Qed.

(** The example of the specification: [extract_columns("c1", ("c2",
    "doc2"))] yields three nodes, the table node, [c1] with the base
    documentation and [c2] documented by [doc2]. *)
Example extract_columns_three_nodes :
  (self ← extract_columns.__init__
            [extract_columns.ColName "c1"; extract_columns.ColTuple "c2" "doc2"] VNone;
   nodes ← extract_columns.expand_node self
             (node.mkNode "g" (TClass "DataFrame") (VStr "base") examples.g_call [] []);
   Return (map (λ nd, (node.name nd, node.type nd, node.documentation nd)) nodes))
  = Return [("g", TClass "DataFrame", VStr "base");
            ("c1", TClass "Series", VStr "base");
            ("c2", TClass "Series", VStr "doc2")].
Proof. vm_compute. reflexivity. Qed.

(** C1 fails on the code when two parameters refer to the same upstream
    node. For [f(a, b)] and [out1 = {a: source("x"), b: source("x")}] the
    constructor and [validate] accept the parameterization, the produced
    node declares the single input [x], and its callable raises
    [KeyError] on [x = 5]: the first renaming pops [x], the second finds
    it gone. The direct call [f(a = 5, b = 5)] returns 10. The callable
    raises whatever the base callable and the value supplied are. *)
Theorem parameterize_shared_source_raises :
  (self ← parameterize.__init__
            [("out1", parameterize.Assignments
                        [("a", source "x"); ("b", source "x")])];
   _ ← parameterize.validate self examples.f;
   nodes ← parameterize.expand_node self examples.f_node examples.f;
   Return (map (λ nd, (node.name nd, node.input_types nd,
                       node.callable nd [] {[ "x" := VInt 5 ]})) nodes))
  = Return [("out1", [("x", TClass "int")], Raise (KeyError "x"))]
  ∧ examples.f_call [] (<["a" := VInt 5]> {[ "b" := VInt 5 ]}) = Return (VInt 10)
  ∧ ∀ (base : Callable) (v : Val) args,
      partial (parameterize.replacement_function base
                 [("a", source "x"); ("b", source "x")] []) [] args {[ "x" := v ]}
      = Raise (KeyError "x").
Proof.
  split; [|split].
  - vm_compute. reflexivity.
  - vm_compute. reflexivity.
  - intros base v args. unfold partial, parameterize.replacement_function.
    cbn [for_each]. simpl. unfold parameterize.pop.
    rewrite lookup_union_l by done. rewrite lookup_singleton_eq. simpl.
    rewrite lookup_insert_ne by done. rewrite lookup_delete_eq. done.
Qed.

(** C4 fails on the code: the flag [reassign_columns] only selects the
    function whose docstring [parameterize] reads, and the wrapper has
    the docstring of the function it wraps, so the expansion is the same
    for both values of the flag and the intermediate node always
    relabels. With the flag off, for a function that returns a table
    with the columns [x] and [y] and a record that declares the outputs
    [a] and [b], the node [g__0] returns the table under the labels [a]
    and [b]. *)
Theorem reassign_disabled_still_relabels :
  (∀ (B : Builtins) (R : Registry) extract_config node_ fn,
     parameterize_extract_columns.expand_node
       (parameterize_extract_columns.mk extract_config true) node_ fn
     = parameterize_extract_columns.expand_node
         (parameterize_extract_columns.mk extract_config false) node_ fn)
  ∧ (nodes ← parameterize_extract_columns.expand_node
               (parameterize_extract_columns.__init__
                  [parameterize_extract_columns.mkParameterizedExtract ["a"; "b"] []]
                  false)
               examples.g_node examples.g;
     Return (map (λ nd, (node.name nd, node.callable nd [] ∅)) (take 1 nodes)))
    = Return [("g__0",
               Return (VDataFrame
                 (mkDataFrame 2 [(LStr "a", [VInt 1; VInt 2]);
                                 (LStr "b", [VInt 3; VInt 4])])))]
  ∧ registry.columns examples.g_table = [LStr "x"; LStr "y"].
Proof.
  split; [|split].
  - intros B R extract_config node_ fn. reflexivity.
  - vm_compute. reflexivity.
  - reflexivity.
Qed.

(** C6 fails on the code for a column declared as a pair. The container
    callable tests and fills the label made of the whole pair, whatever
    the table: it never adds the column of that name. With
    [extract_columns(("c2", "doc2"), fill_with=0)] on a function whose
    table has the columns [x] and [y], the container node adds a column
    labelled by the pair, filled with 0; no column [c2] exists, and the
    node [c2] called on that table raises. *)
Theorem fill_of_pair_declaration_misses_column :
  (∀ n d z (df : DataFrame) args kw,
     extract_columns.df_generator
       (extract_columns.mk [extract_columns.ColTuple n d] (VInt z))
       (λ _ _, Return (VDataFrame df)) args kw
     = Return (VDataFrame
         (if contains df (LPair n d) then df
          else mkDataFrame (nrows df)
                 (data df ++ [(LPair n d, replicate (nrows df) (VInt z))]))))
  ∧ (self ← extract_columns.__init__ [extract_columns.ColTuple "c2" "doc2"] (VInt 0);
     nodes ← extract_columns.expand_node self examples.g_node;
     match nodes with
     | [container; c2] =>
         table ← node.callable container [] ∅;
         df ← as_table table;
         Return (node.name c2, registry.columns df, contains df (LStr "c2"),
                 registry.get_column df "c2",
                 match node.callable c2 [] {[ "g" := table ]} with
                 | Raise e => class_of e
                 | Return _ => "returned"
                 end)
     | _ => Raise AssertionError
     end)
    = Return ("c2", [LStr "x"; LStr "y"; LPair "c2" "doc2"], false,
              Raise (KeyError "c2"), "InvalidDecoratorException").
Proof.
  split.
  - intros n d z df args kw. unfold extract_columns.df_generator.
    cbn [for_each]. simpl.
    destruct (contains df (LPair n d)) eqn:Hc; [done|].
    unfold registry.fill_with_scalar. rewrite Hc.
    assert (contains (mkDataFrame (nrows df)
                        (data df ++ [(LPair n d, replicate (nrows df) (VInt z))]))
              (LPair n d) = true) as ->; [|done].
    unfold contains, registry.columns. apply bool_decide_eq_true. simpl.
    rewrite fmap_app, elem_of_app. right. apply list_elem_of_here.
  - vm_compute. reflexivity.
Qed.



(** C2 as stated fails: for [h(a: int, b: str)] and
    [out = {a: value(1), b: source("a")}], accepted by the constructor
    and by [validate], the input-type mapping of the produced node has
    the key [a], the name of a literal-bound parameter. *)
Lemma literal_bound_name_is_a_key :
  (self ← parameterize.__init__
            [("out", parameterize.Assignments
                       [("a", value (VInt 1)); ("b", source "a")])];
   _ ← parameterize.validate self examples.h;
   nodes ← parameterize.expand_node self examples.h_node examples.h;
   Return (map node.input_types nodes))
  = Return [[("a", TClass "str")]]
  ∧ dict_in "a" [("a", TClass "str")] = true.
Proof. split; vm_compute; reflexivity. Qed.

(** C8 as stated fails for the values form: a key that is not a tuple
    raises [InvalidDecoratorException], the class of the failures of the
    constructor of [parameterize]; and an empty dictionary raises
    nothing. *)
Lemma values_form_error_not_distinct :
  (match parameterize_values.__init__ "p" [(parameterize_values.KOther (VStr "out"), VInt 1)] with
   | Raise e => class_of e
   | Return _ => "returned"
   end,
   match parameterize.__init__ [("out", parameterize.Assignments [("p", VInt 1)])] with
   | Raise e => class_of e
   | Return _ => "returned"
   end,
   parameterize_values.__init__ "p" [])
  = ("InvalidDecoratorException", "InvalidDecoratorException",
     Return (parameterize.mk [] [])).
Proof. vm_compute. reflexivity. Qed.

(** ** The theorems above at closed inputs *)

Ltac not_elem :=
  repeat (apply not_elem_of_cons; split; [discriminate|]); apply not_elem_of_nil.

Ltac no_dup :=
  unfold keys; simpl;
  repeat (apply NoDup_cons_2; [not_elem|]); apply NoDup_nil_2.

Ltac all_of :=
  repeat first [ apply Forall_nil_2 | apply Forall_cons_2 ].

Ltac by_decision :=
  first [ apply list_elem_of_here
        | apply (proj1 (dict_get_None_keys _ _)); reflexivity
        | no_dup
        | solve [repeat first [ apply Forall_nil_2
                              | apply Forall_cons_2; [first [no_dup | vm_compute; reflexivity]|] ]] ].

Lemma parameterize_init_rejects_non_dependency_witness :
  (∃ e, parameterize.__init__ [("out", parameterize.Assignments [("p", VInt 3)])]
        = Raise e)
  ∧ ∃ bad_values, VInt 3 ∈ bad_values ∧
      parameterize.__init__ [("out", parameterize.Assignments [("p", VInt 3)])]
      = Raise (InvalidDecoratorException
          ("@parameterize must specify a dependency type -- either source() or value()."
           +:+ "The following are not allowed: " +:+ py_str_list bad_values +:+ ".")).
Proof.
  destruct (parameterize_init_rejects_non_dependency
              [("out", parameterize.Assignments [("p", VInt 3)])]
              "out" (parameterize.Assignments [("p", VInt 3)]) "p" (VInt 3))
    as [Hraises Hclass].
  - by_decision.
  - by_decision.
  - reflexivity.
  - split; [exact Hraises|]. apply Hclass. not_elem.
Defined.

Lemma convenience_constructors_malformed_witness :
  (∃ msg, parameterize_sources.__init__ [("out", [])] = Raise (ValueError msg)
          ∧ class_of (InvalidDecoratorException
                        ("@parameterize must specify a dependency type -- either source() or value()."
                         +:+ "The following are not allowed: "
                         +:+ py_str_list [VInt 3] +:+ "."))
            ≠ class_of (ValueError msg))
  ∧ (∃ msg, parameterize_values.__init__ "p"
              [(parameterize_values.KOther (VStr "out"), VInt 1)]
            = Raise (InvalidDecoratorException msg))
  ∧ (∃ msg, parameterize_values.__init__ "p"
              [(parameterize_values.KTuple [VStr "out"], VInt 1)]
            = Raise (ValueError msg))
  ∧ class_of (InvalidDecoratorException
                ("@parameterize must specify a dependency type -- either source() or value()."
                 +:+ "The following are not allowed: "
                 +:+ py_str_list [VInt 3] +:+ "."))
    = "InvalidDecoratorException".
Proof.
  destruct (convenience_constructors_malformed (H := examples.reference_builtins))
    as (Hsources & Hvalues & Hunpack & Hfull).
  split; [|split; [|split]].
  - destruct (Hsources [("out", [])]) as (msg & Hraise & Hdistinct).
    + not_elem.
    + right. exists "out". by_decision.
    + exists msg. split; [exact Hraise|].
      apply (Hdistinct [("out", parameterize.Assignments [("p", VInt 3)])]);
        [not_elem | reflexivity].
  - apply (Hvalues "p" _ (VStr "out") (VInt 1)). apply list_elem_of_here.
  - apply (Hunpack "p" _ [VStr "out"] (VInt 1)).
    + all_of. by eexists.
    + apply list_elem_of_here.
    + discriminate.
  - apply (Hfull [("out", parameterize.Assignments [("p", VInt 3)])]);
      [not_elem | reflexivity].
Defined.

Lemma extractor_nodes_input_types_witness :
  Forall (λ nd, node.input_types nd = [("d", TClass "dict")])
         (drop 1 (extract_fields.expand_node
                    (extract_fields.mk [("k", TClass "int")] VNone) examples.d_node))
  ∧ ∃ nodes,
      extract_columns.expand_node
        (extract_columns.mk [extract_columns.ColName "x"] VNone) examples.g_node
      = Return nodes
      ∧ Forall (λ nd, node.input_types nd = [("g", TClass "DataFrame")]) (drop 1 nodes)
      ∧ length (drop 1 nodes) = 1.
Proof.
  split.
  - exact (proj1 (extractor_nodes_input_types
                    (extract_fields.mk [("k", TClass "int")] VNone)
                    (extract_columns.mk [extract_columns.ColName "x"] VNone)
                    examples.d_node)).
  - destruct (extractor_nodes_input_types
                (extract_fields.mk [("k", TClass "int")] VNone)
                (extract_columns.mk [extract_columns.ColName "x"] VNone)
                examples.g_node) as (_ & _ & Hcolumns).
    apply (Hcolumns (TClass "Series")). reflexivity.
Defined.

Lemma extractor_absent_raises_witness :
  (∃ nodes container nd,
     extract_columns.expand_node
       (extract_columns.mk [extract_columns.ColName "z"] VNone) examples.g_node
     = Return nodes
     ∧ nodes !! 0 = Some container ∧ nodes !! 1 = Some nd
     ∧ node.name nd = "z"
     ∧ node.callable container [] ∅ = Return (VDataFrame examples.g_table)
     ∧ node.callable nd [] {[ "g" := VDataFrame examples.g_table ]} =
         Raise (InvalidDecoratorException
           ("No such column: " +:+ "z" +:+ " produced by " +:+ "g"
            +:+ ". It only produced "
            +:+ py_str_columns (registry.columns examples.g_table))))
  ∧ (∃ container nd,
       extract_fields.expand_node
         (extract_fields.mk [("z", TClass "int")] VNone) examples.d_node !! 0
       = Some container
       ∧ extract_fields.expand_node
           (extract_fields.mk [("z", TClass "int")] VNone) examples.d_node !! 1
         = Some nd
       ∧ node.name nd = "z"
       ∧ node.callable container [] ∅ = Return (VDict [("k", VInt 1)])
       ∧ node.callable nd [] {[ "d" := VDict [("k", VInt 1)] ]} =
           Raise (InvalidDecoratorException
             ("No such field: " +:+ "z" +:+ " produced by " +:+ "d"
              +:+ ". It only produced " +:+ py_str_keys (keys [("k", VInt 1)])))).
Proof.
  destruct (extractor_absent_raises (H := examples.reference_builtins)
              (H0 := examples.reference_registry)) as (Hcolumns & Hfields).
  split.
  - apply (Hcolumns (extract_columns.mk [extract_columns.ColName "z"] VNone)
             examples.g_node (TClass "Series") 0 (extract_columns.ColName "z")
             [] ∅ examples.g_table); first [reflexivity | discriminate].
  - apply (Hfields (extract_fields.mk [("z", TClass "int")] VNone)
             examples.d_node 0 "z" (TClass "int") [] ∅ [("k", VInt 1)]);
      first [reflexivity | discriminate].
Defined.



Lemma parameterize_expand_node_nodes_witness :
  ∃ nodes,
    parameterize.expand_node
      (parameterize.mk [("out1", [("a", value (VInt 1)); ("b", source "n2")])] [])
      examples.f_node examples.f = Return nodes
    ∧ Forall2 (λ nd kv,
        node.name nd = kv.1
        ∧ node.type nd = TClass "int"
        ∧ node.tags nd = []
        ∧ (∀ k, k ∈ keys (node.input_types nd) ↔
                ∃ p, p ∈ ["a"; "b"]
                     ∧ spec.target (parameterize.mapping_of kv.2) p = Some k)
        ∧ (∀ p ty k,
             (p, ty) ∈ [("a", TClass "int"); ("b", TClass "int")] →
             spec.target (parameterize.mapping_of kv.2) p = Some k →
             (∀ q, q ∈ ["a"; "b"] →
                   spec.target (parameterize.mapping_of kv.2) q = Some k → q = p) →
             dict_get k (node.input_types nd) = Some ty))
      nodes
      [("out1", parameterize.Assignments [("a", value (VInt 1)); ("b", source "n2")])].
Proof.
  apply (parameterize_expand_node_nodes
           [("out1", parameterize.Assignments [("a", value (VInt 1)); ("b", source "n2")])]
           _ examples.f_node examples.f).
  - reflexivity.
  - by_decision.
  - by_decision.
  - reflexivity.
Defined.

(** ** The further properties at closed inputs *)

#[local] Existing Instance examples.reference_renderings.


Lemma parameterize_validate_accepts_witness :
  parameterize.validate
    (parameterize.mk [("out1", [("a", value (VInt 1)); ("b", source "n2")])] [])
    examples.f = Return ()
  ∧ ∃ e,
      parameterize.validate
        (parameterize.mk [("out1", [("a", value (VInt 1)); ("b", source "n2")])] [])
        examples.g = Raise e
      ∧ class_of e = "InvalidDecoratorException".
Proof.
  split.
  - apply (proj1 (parameterize_validate_accepts
                    (parameterize.mk
                       [("out1", [("a", value (VInt 1)); ("b", source "n2")])] [])
                    examples.f)).
    split; [|split].
    + all_of. by eexists.
    + not_elem.
    + all_of; unfold keys; simpl; all_of; repeat constructor.
  - eexists. split; [vm_compute; reflexivity|].
    apply (proj2 (parameterize_validate_accepts
                    (parameterize.mk
                       [("out1", [("a", value (VInt 1)); ("b", source "n2")])] [])
                    examples.g)); [vm_compute; reflexivity|].
    all_of. by eexists.
Defined.

Lemma validate_bound_output_name_raises_TypeError_witness :
  ∃ msg,
    parameterize.validate
      (parameterize.mk [("out", [("output_name", value (VInt 1))])] [])
      (mkFunction "m" "k" (VStr "About {output_name}.") ["output_name"] examples.h_call)
    = Raise (TypeError msg).
Proof.
  apply (validate_bound_output_name_raises_TypeError
           (parameterize.mk [("out", [("output_name", value (VInt 1))])] [])
           (mkFunction "m" "k" (VStr "About {output_name}.") ["output_name"] examples.h_call)
           "About {output_name}." [] "out" [("output_name", value (VInt 1))] []).
  - reflexivity.
  - reflexivity.
  - apply not_elem_of_nil.
  - apply Forall_nil_2.
  - reflexivity.
  - no_dup.
  - by_decision.
  - apply list_elem_of_here.
Defined.

Lemma validate_stray_brace_raises_ValueError_witness :
  parameterize.validate
    (parameterize.mk [("out", [("a", value (VInt 1))])] [])
    (mkFunction "m" "k" (VStr "the set } of a") ["a"] examples.h_call)
  = Raise (ValueError "Single '}' encountered in format string").
Proof.
  apply (validate_stray_brace_raises_ValueError
           (parameterize.mk [("out", [("a", value (VInt 1))])] [])
           (mkFunction "m" "k" (VStr "the set } of a") ["a"] examples.h_call)
           "the set " " of a" "out").
  - reflexivity.
  - reflexivity.
  - intros rest'. discriminate.
  - no_dup.
  - all_of. split; [no_dup|]. split; [by_decision | not_elem].
  - apply list_elem_of_here.
  - reflexivity.
Defined.

Lemma parameterize_node_documentation_witness :
  ∃ own plain,
    parameterize.expand_node
      (parameterize.mk [("out", [("a", value (VInt 1))]); ("plain", [("a", value (VInt 2))])]
                       [("out", VStr "own")])
      examples.f_node examples.f = Return [own; plain]
    ∧ node.documentation own = VStr "own"
    ∧ node.documentation plain = VNone.
Proof.
  destruct (parameterize_node_documentation
              [("out", parameterize.WithDocstring [("a", value (VInt 1))] (VStr "own"));
               ("plain", parameterize.Assignments [("a", value (VInt 2))])]
              _ examples.f_node examples.f eq_refl) as (nodes & Hnodes & Hall).
  - no_dup.
  - all_of; no_dup.
  - reflexivity.
  - apply Forall2_cons_inv_r in Hall as (own & nodes1 & Hown & Hall & ->).
    apply Forall2_cons_inv_r in Hall as (plain & nodes2 & Hplain & Hall & ->).
    apply Forall2_nil_inv_r in Hall as ->.
    exists own, plain. split; [exact Hnodes|]. split; [exact Hown|].
    apply Hplain. reflexivity.
Defined.

Ltac no_closure_keyword :=
  let k := fresh "k" in
  let Hk := fresh "Hk" in
  intros k Hk;
  repeat (apply elem_of_cons in Hk as [->|Hk]);
  [ .. | by apply elem_of_nil in Hk ];
  first [ reflexivity | split; [reflexivity | not_elem] ].

Lemma parameterize_empty_mapping_duplicates_witness :
  ∃ copy,
    parameterize.expand_node (parameterize.mk [("copy", [])] [])
      examples.f_node examples.f = Return [copy]
    ∧ node.name copy = "copy"
    ∧ node.input_types copy = [("a", TClass "int"); ("b", TClass "int")]
    ∧ node.callable copy [] (<["a" := VInt 1]> {[ "b" := VInt 5 ]})
      = examples.f_call [] (<["a" := VInt 1]> {[ "b" := VInt 5 ]}).
Proof.
  destruct (parameterize_empty_mapping_duplicates
              [("copy", parameterize.Assignments [])] _ examples.f_node examples.f eq_refl)
    as (nodes & Hnodes & Hall).
  - all_of; no_dup.
  - no_dup.
  - reflexivity.
  - apply Forall2_cons_inv_r in Hall as (copy & nodes1 & Hcopy & Hall & ->).
    apply Forall2_nil_inv_r in Hall as ->.
    destruct (Hcopy eq_refl) as (Hname & Hinputs & Hcall).
    exists copy. split; [exact Hnodes|]. split; [exact Hname|]. split; [exact Hinputs|].
    apply Hcall. no_closure_keyword.
Defined.

Lemma parameterize_nodes_round_trip_witness :
  ∃ out1,
    parameterize.expand_node
      (parameterize.mk [("out1", [("a", value (VInt 1)); ("b", source "n2")])] [])
      examples.f_node examples.f = Return [out1]
    ∧ node.callable out1 [] (<["n2" := VInt 5]> {[ "a" := VInt 7 ]})
      = examples.f_call []
          (spec.direct_kwargs [("a", value (VInt 1)); ("b", source "n2")]
             (<["n2" := VInt 5]> {[ "a" := VInt 7 ]}))
    ∧ spec.direct_kwargs [("a", value (VInt 1)); ("b", source "n2")]
        (<["n2" := VInt 5]> {[ "a" := VInt 7 ]}) !! "a" = Some (VInt 1)
    ∧ spec.direct_kwargs [("a", value (VInt 1)); ("b", source "n2")]
        (<["n2" := VInt 5]> {[ "a" := VInt 7 ]}) !! "b" = Some (VInt 5)
    ∧ spec.direct_kwargs [("a", value (VInt 1)); ("b", source "n2")]
        (<["n2" := VInt 5]> {[ "a" := VInt 7 ]}) !! "n2" = None.
Proof.
  destruct (parameterize_nodes_round_trip
              [("out1", parameterize.Assignments [("a", value (VInt 1)); ("b", source "n2")])]
              _ examples.f_node examples.f eq_refl) as (nodes & Hnodes & Hall).
  - all_of; no_dup.
  - reflexivity.
  - apply Forall2_cons_inv_r in Hall as (out1 & nodes1 & Hout1 & Hall & ->).
    apply Forall2_nil_inv_r in Hall as ->.
    destruct (Hout1 ltac:(no_dup)
                ltac:(intros s Hs; apply list_elem_of_singleton in Hs as ->; not_elem)
                [] (<["n2" := VInt 5]> {[ "a" := VInt 7 ]})
                ltac:(intros s Hs; apply list_elem_of_singleton in Hs as ->; by eexists)
                ltac:(no_closure_keyword)) as [Hcall Hlookup].
    exists out1. split; [exact Hnodes|]. split; [exact Hcall|].
    split; [exact (Hlookup "a")|]. split; [exact (Hlookup "b") | exact (Hlookup "n2")].
Defined.

Lemma parameterize_node_missing_input_raises_KeyError_witness :
  ∃ out1 key,
    parameterize.expand_node
      (parameterize.mk [("out1", [("a", value (VInt 1)); ("b", source "n2")])] [])
      examples.f_node examples.f = Return [out1]
    ∧ node.callable out1 [] {[ "b" := VInt 5 ]} = Raise (KeyError key).
Proof.
  destruct (parameterize_node_missing_input_raises_KeyError
              [("out1", parameterize.Assignments [("a", value (VInt 1)); ("b", source "n2")])]
              _ examples.f_node examples.f eq_refl) as (nodes & Hnodes & Hall).
  - all_of; no_dup.
  - reflexivity.
  - apply Forall2_cons_inv_r in Hall as (out1 & nodes1 & Hout1 & Hall & ->).
    apply Forall2_nil_inv_r in Hall as ->.
    destruct (Hout1 "b" "n2" [] {[ "b" := VInt 5 ]}) as [key Hkey].
    + apply list_elem_of_further, list_elem_of_here.
    + not_elem.
    + reflexivity.
    + no_closure_keyword.
    + exists out1, key. split; [exact Hnodes | exact Hkey].
Defined.

Lemma parameterize_values_nodes_witness :
  ∃ self o1 o2,
    parameterize_values.__init__ "a"
      [(parameterize_values.KTuple [VStr "o1"; VStr "first"], VInt 1);
       (parameterize_values.KTuple [VStr "o2"; VStr "second"], VInt 2)]
    = Return self
    ∧ parameterize.expand_node self examples.f_node examples.f = Return [o1; o2]
    ∧ node.name o2 = "o2"
    ∧ node.documentation o2 = VStr "second"
    ∧ dict_get "a" (node.input_types o2) = None
    ∧ dict_get "b" (node.input_types o2) = Some (TClass "int")
    ∧ node.callable o2 [] (<["a" := VInt 7]> {[ "b" := VInt 5 ]})
      = examples.f_call [] (<["a" := VInt 2]> (<["a" := VInt 7]> {[ "b" := VInt 5 ]})).
Proof.
  destruct (parameterize_values_nodes "a"
              [("o1", VStr "first", VInt 1); ("o2", VStr "second", VInt 2)]
              examples.f_node examples.f) as (self & nodes & Hinit & Hnodes & Hall).
  - no_dup.
  - not_elem.
  - no_dup.
  - not_elem.
  - apply Forall2_cons_inv_r in Hall as (o1 & nodes1 & _ & Hall & ->).
    apply Forall2_cons_inv_r in Hall as (o2 & nodes2 & Ho2 & Hall & ->).
    apply Forall2_nil_inv_r in Hall as ->.
    destruct Ho2 as (Hname & Hdoc & Hinputs & Hcall).
    exists self, o1, o2. split; [exact Hinit|]. split; [exact Hnodes|].
    split; [exact Hname|]. split; [exact Hdoc|].
    split; [exact (Hinputs "a")|]. split; [exact (Hinputs "b")|].
    apply Hcall. no_closure_keyword.
Defined.


Lemma extract_columns_validate_expand_witness :
  extract_columns.validate
    (extract_columns.mk [extract_columns.ColName "x"] VNone) examples.g_annotated
  = Return ()
  ∧ (∃ msg,
       extract_columns.validate
         (extract_columns.mk [extract_columns.ColName "x"] VNone)
         (mkAnnotated examples.f (TClass "int"))
       = Raise (InvalidDecoratorException msg))
  ∧ extract_columns.expand_node
      (extract_columns.mk [extract_columns.ColName "x"] VNone) examples.f_node
    = Raise NotImplementedError.
Proof.
  split.
  - apply (proj1 (extract_columns_validate_expand
                    (extract_columns.mk [extract_columns.ColName "x"] VNone)
                    examples.g_annotated examples.g_node eq_refl)).
    eexists. reflexivity.
  - apply (proj2 (proj2 (extract_columns_validate_expand
                           (extract_columns.mk [extract_columns.ColName "x"] VNone)
                           (mkAnnotated examples.f (TClass "int")) examples.f_node
                           eq_refl))).
    reflexivity.
Defined.

Lemma extract_columns_fill_extracts_witness :
  ∃ nodes container nd added,
    extract_columns.expand_node
      (extract_columns.mk [extract_columns.ColName "z"] (VInt 0)) examples.g_node
    = Return nodes
    ∧ nodes !! 0 = Some container ∧ nodes !! 1 = Some nd
    ∧ node.name nd = "z"
    ∧ node.callable container [] ∅
      = Return (VDataFrame (mkDataFrame (nrows examples.g_table)
                              (data examples.g_table ++ added)))
    ∧ Forall (λ c, c.2 = replicate (nrows examples.g_table) (VInt 0)
                   ∧ contains examples.g_table c.1 = false) added
    ∧ node.callable nd []
        {[ "g" := VDataFrame (mkDataFrame (nrows examples.g_table)
                                (data examples.g_table ++ added)) ]}
      = if contains examples.g_table (LStr "z")
        then registry.get_column examples.g_table "z"
        else Return (VSeries (replicate (nrows examples.g_table) (VInt 0))).
Proof.
  apply (extract_columns_fill_extracts
           (extract_columns.mk [extract_columns.ColName "z"] (VInt 0))
           examples.g_node (TClass "Series") 0 "z" [] ∅ examples.g_table).
  - discriminate.
  - reflexivity.
  - reflexivity.
  - reflexivity.
  - discriminate.
Defined.

Lemma extract_fields_fill_extracts_witness :
  ∃ container nd d',
    extract_fields.expand_node
      (extract_fields.mk [("z", TClass "int")] (VInt 0)) examples.d_node !! 0
    = Some container
    ∧ extract_fields.expand_node
        (extract_fields.mk [("z", TClass "int")] (VInt 0)) examples.d_node !! 1
      = Some nd
    ∧ node.name nd = "z"
    ∧ node.type nd = TClass "int"
    ∧ node.callable container [] ∅ = Return (VDict d')
    ∧ (∀ k v, dict_get k [("k", VInt 1)] = Some v → dict_get k d' = Some v)
    ∧ node.callable nd [] {[ "d" := VDict d' ]}
      = Return (default (VInt 0) (dict_get "z" [("k", VInt 1)])).
Proof.
  apply (extract_fields_fill_extracts
           (extract_fields.mk [("z", TClass "int")] (VInt 0))
           examples.d_node 0 "z" (TClass "int") [] ∅ [("k", VInt 1)]).
  - discriminate.
  - reflexivity.
  - reflexivity.
  - discriminate.
Defined.

Lemma extraction_of_present_ignores_fill_witness :
  (∃ nodes container nd table column,
     extract_columns.expand_node
       (extract_columns.mk [extract_columns.ColName "y"] (VInt 0)) examples.g_node
     = Return nodes
     ∧ nodes !! 0 = Some container ∧ nodes !! 1 = Some nd
     ∧ node.callable container [] ∅ = Return (VDataFrame table)
     ∧ (LStr "y", column) ∈ data examples.g_table
     ∧ registry.get_column examples.g_table "y" = Return (VSeries column)
     ∧ node.callable nd [] {[ "g" := VDataFrame table ]} = Return (VSeries column))
  ∧ (∃ container nd d',
       extract_fields.expand_node
         (extract_fields.mk [("k", TClass "int")] VNone) examples.d_node !! 0
       = Some container
       ∧ extract_fields.expand_node
           (extract_fields.mk [("k", TClass "int")] VNone) examples.d_node !! 1
         = Some nd
       ∧ node.callable container [] ∅ = Return (VDict d')
       ∧ node.callable nd [] {[ "d" := VDict d' ]} = Return (VInt 1)).
Proof.
  destruct (extraction_of_present_ignores_fill (H := examples.reference_builtins)
              (H0 := examples.reference_registry)) as (Hcolumns & Hfields).
  split.
  - apply (Hcolumns (extract_columns.mk [extract_columns.ColName "y"] (VInt 0))
             examples.g_node (TClass "Series") 0 "y" [] ∅ examples.g_table);
      first [reflexivity | discriminate].
  - apply (Hfields (extract_fields.mk [("k", TClass "int")] VNone)
             examples.d_node 0 "k" (TClass "int") [] ∅ [("k", VInt 1)] (VInt 1));
      first [reflexivity | discriminate].
Defined.

Lemma parameterize_extract_columns_raises_at_expansion_witness :
  (∃ e, parameterize_extract_columns.expand_node
          (parameterize_extract_columns.mk
             [parameterize_extract_columns.mkParameterizedExtract ["a"; "b"] [];
              parameterize_extract_columns.mkParameterizedExtract ["c"] [("p", VInt 1)]]
             true)
          examples.g_node examples.g = Raise e)
  ∧ ((parameterize_extract_columns.validate
        (parameterize_extract_columns.mk
           [parameterize_extract_columns.mkParameterizedExtract ["a"; "b"] [];
            parameterize_extract_columns.mkParameterizedExtract ["c"] [("p", VInt 1)]]
           true)
        examples.g_annotated = Return ())
     ↔ ∃ series_type,
         get_column_type_from_df_type (return_annotation examples.g_annotated)
         = Return series_type).
Proof.
  apply (parameterize_extract_columns_raises_at_expansion
           (parameterize_extract_columns.mk
              [parameterize_extract_columns.mkParameterizedExtract ["a"; "b"] [];
               parameterize_extract_columns.mkParameterizedExtract ["c"] [("p", VInt 1)]]
              true)
           examples.g_node examples.g examples.g_annotated
           (parameterize_extract_columns.mkParameterizedExtract ["c"] [("p", VInt 1)])).
  - apply list_elem_of_further, list_elem_of_here.
  - right. exists "p", (VInt 1). split; [apply list_elem_of_here | reflexivity].
Defined.

Lemma parameterize_extract_columns_nodes_witness :
  ∃ per_record,
    parameterize_extract_columns.expand_node
      (parameterize_extract_columns.mk
         [parameterize_extract_columns.mkParameterizedExtract ["a"; "b"] []] true)
      examples.g_node examples.g = Return (concat per_record)
    ∧ Forall2 (λ nodes (ir : nat * parameterize_extract_columns.ParameterizedExtract),
        ∃ container column_nodes,
          nodes = container :: column_nodes
          ∧ node.name container = "g" +:+ "__" +:+ pretty ir.1
          ∧ node.type container = TClass "DataFrame"
          ∧ Forall2 (λ nd output,
              node.name nd = output
              ∧ node.type nd = TClass "Series"
              ∧ node.input_types nd
                = [("g" +:+ "__" +:+ pretty ir.1, TClass "DataFrame")])
            column_nodes (parameterize_extract_columns.outputs ir.2))
        per_record
        (imap pair [parameterize_extract_columns.mkParameterizedExtract ["a"; "b"] []]).
Proof.
  apply (parameterize_extract_columns_nodes
           (parameterize_extract_columns.mk
              [parameterize_extract_columns.mkParameterizedExtract ["a"; "b"] []] true)
           examples.g_node examples.g (TClass "Series")).
  - reflexivity.
  - all_of. split; [discriminate|]. split; [no_dup | apply Forall_nil_2].
  - intros i r _. by eexists.
Defined.

Lemma parameterize_extract_columns_computes_witness :
  ∃ container a b,
    parameterize_extract_columns.expand_node
      (parameterize_extract_columns.mk
         [parameterize_extract_columns.mkParameterizedExtract ["a"; "b"] []] true)
      examples.g_node examples.g = Return [container; a; b]
    ∧ node.callable container [] ∅
      = Return (VDataFrame
          (mkDataFrame 2 [(LStr "a", [VInt 1; VInt 2]); (LStr "b", [VInt 3; VInt 4])]))
    ∧ node.callable b []
        {[ node.name container :=
             VDataFrame
               (mkDataFrame 2 [(LStr "a", [VInt 1; VInt 2]); (LStr "b", [VInt 3; VInt 4])]) ]}
      = Return (VSeries [VInt 3; VInt 4]).
Proof.
  destruct (parameterize_extract_columns_computes
              (parameterize_extract_columns.mk
                 [parameterize_extract_columns.mkParameterizedExtract ["a"; "b"] []] true)
              examples.g_node examples.g (TClass "Series")) as (per_record & Hnodes & Hall).
  - reflexivity.
  - all_of. split; [discriminate|]. split; [no_dup | apply Forall_nil_2].
  - intros i r _. by eexists.
  - cbn [imap] in Hall.
    apply Forall2_cons_inv_r in Hall as (nodes & rest & Hrecord & Hall & ->).
    apply Forall2_nil_inv_r in Hall as ->.
    destruct Hrecord as (container & column_nodes & -> & Hcomputes).
    assert (∃ a b, column_nodes = [a; b]) as (a & b & ->).
    { simpl in Hnodes. destruct column_nodes as [|a [|b [|c l]]]; try done.
      by exists a, b. }
    destruct (Hcomputes [] ∅ examples.g_table) as [Hsame _].
    + apply NoDup_nil_2.
    + intros s Hs. by apply elem_of_nil in Hs.
    + intros s Hs. by apply elem_of_nil in Hs.
    + no_closure_keyword.
    + reflexivity.
    + reflexivity.
    + destruct (Hsame eq_refl) as [Hcontainer Hcolumns].
      exists container, a, b. split; [exact Hnodes|]. split; [exact Hcontainer|].
      apply (Hcolumns ltac:(no_dup) 1 b (LStr "y", [VInt 3; VInt 4])); reflexivity.
Defined.
